(** * AquaTrace AI: identification pipeline, species table and store access

  A shallow embedding of [backend/app.py], [backend/models.py] and
  [backend/vision_api_fallback.py].

  Conventions of the embedding.
  - A Python [str] is a [string]; [lower] and [title] act on the ASCII
    letters and leave every other byte as it is.
  - A Python [float] is a rational number ([Q]): the comparisons the code
    makes ([> 85], [> highest_confidence], truthiness, i.e. [!= 0]) are
    exact on it.
  - A Python [dict] whose iteration order matters, or which is built by a
    literal, is an association list in insertion order ([dict V]).
  - [try ... except Exception] is [try_except] on the [res] type;
    exceptions that are not subclasses of [Exception] (interpreter
    shutdown, keyboard interrupt) are outside the model.
  - The external services (the Keras model, Cloud Vision, Gemini, the
    password hash) are fields of an environment record [Env]; MongoDB is a
    record of three lists, the collections. *)

From Stdlib Require Import ZArith NArith QArith Qround String Ascii List Lia Bool.
From stdpp Require Import base decidable option list sorting strings pretty.

Import ListNotations.
Local Open Scope string_scope.
Local Open Scope list_scope.

(** ** Strings *)

Module Str.

Definition is_upper (c : ascii) : bool :=
  let n := nat_of_ascii c in (65 <=? n)%nat && (n <=? 90)%nat.

Definition is_lower (c : ascii) : bool :=
  let n := nat_of_ascii c in (97 <=? n)%nat && (n <=? 122)%nat.

Definition lower_char (c : ascii) : ascii :=
  if is_upper c then ascii_of_nat (nat_of_ascii c + 32) else c.

Definition upper_char (c : ascii) : ascii :=
  if is_lower c then ascii_of_nat (nat_of_ascii c - 32) else c.

Fixpoint map_chars (f : ascii -> ascii) (s : string) : string :=
  match s with
  | EmptyString => EmptyString
  | String c rest => String (f c) (map_chars f rest)
  end.

(** [s.lower()] *)
Definition lower (s : string) : string := map_chars lower_char s.

(** [s.replace('_', ' ')] *)
Definition replace_underscore (s : string) : string :=
  map_chars (fun c => if Ascii.eqb c "_" then " "%char else c) s.

(** [s.title()]: a letter that follows a letter is lower-cased, any other
    letter is upper-cased. *)
Fixpoint title_from (previous_is_cased : bool) (s : string) : string :=
  match s with
  | EmptyString => EmptyString
  | String c rest =>
      if is_upper c || is_lower c
      then String (if previous_is_cased then lower_char c else upper_char c)
                  (title_from true rest)
      else String c (title_from false rest)
  end.

Definition title (s : string) : string := title_from false s.

Fixpoint starts_with (p s : string) : bool :=
  match p, s with
  | EmptyString, _ => true
  | String a p', String b s' => Ascii.eqb a b && starts_with p' s'
  | String _ _, EmptyString => false
  end.

(** [needle in hay] *)
Fixpoint contains (needle hay : string) : bool :=
  starts_with needle hay ||
  match hay with
  | EmptyString => false
  | String _ hay' => contains needle hay'
  end.

(** [s.rsplit('.', 1)[1]]: what follows the last dot, if there is a dot. *)
Fixpoint after_last_dot (s : string) : option string :=
  match s with
  | EmptyString => None
  | String c rest =>
      match after_last_dot rest with
      | Some ext => Some ext
      | None => if Ascii.eqb c "." then Some rest else None
      end
  end.

(** [s.split('@')[0]]: what precedes the first [@]. *)
Fixpoint before_at (s : string) : string :=
  match s with
  | EmptyString => EmptyString
  | String c rest => if Ascii.eqb c "@" then EmptyString else String c (before_at rest)
  end.

(** [s[:n]] *)
Fixpoint take (n : nat) (s : string) : string :=
  match n, s with
  | S n', String c rest => String c (take n' rest)
  | _, _ => EmptyString
  end.

(** [str(n)] for a non-negative counter *)
Definition of_nat (n : nat) : string := pretty n.

End Str.

(** ** Dictionaries in insertion order *)

Definition dict (V : Type) : Type := list (string * V).

Section Dict.
Context {V : Type}.

(** [d.get(k)] *)
Fixpoint dict_get (k : string) (d : dict V) : option V :=
  match d with
  | [] => None
  | (k', v) :: rest => if String.eqb k k' then Some v else dict_get k rest
  end.

(** [k in d] *)
Definition dict_has (k : string) (d : dict V) : bool :=
  match dict_get k d with Some _ => true | None => false end.

(** [d[k] = v]: an existing key keeps its position, a new key goes last. *)
Fixpoint dict_set (k : string) (v : V) (d : dict V) : dict V :=
  match d with
  | [] => [(k, v)]
  | (k', v') :: rest =>
      if String.eqb k k' then (k', v) :: rest else (k', v') :: dict_set k v rest
  end.

(** A dict display [{k1: v1, k2: v2, ...}] inserts its items from left to
    right, so a repeated key keeps its first position and its last value. *)
Definition dict_of_literal (items : list (string * V)) : dict V :=
  fold_left (fun d kv => dict_set (fst kv) (snd kv) d) items [].

End Dict.

(** ** Species reference table ([app.py]) *)

Module Species.

Definition SPECIES_NAMES : list string :=
  [ "Coral"; "Fish"; "Jelly Fish"; "Lobster"; "Penguin"; "Seal"; "Sharks";
    "Squid"; "Turtle" ].

(** The items of the [animal_database] display of [get_animal_details], in
    source order (the keys "seahorse" and "sharks" occur twice). *)
Definition animal_database_literal : list (string * dict string) :=
  [ ("angelfish",
      [ ("scientific_name", "Pomacanthidae")
      ; ("facts", "Angelfish are colorful marine fish known for their distinctive flat, disc-shaped bodies and vibrant patterns.")
      ; ("endangered_status", "Least Concern to Vulnerable")
      ; ("fun_fact", "Angelfish can change their colors and patterns as they mature!")
      ; ("habitat", "Coral reefs in tropical waters")
      ; ("diet", "Algae, small invertebrates, and sponges")
      ; ("size", "7-60cm depending on species")
      ; ("threats", "Coral reef destruction, aquarium trade")
      ; ("population_trend", "Stable to declining")
      ])
  ; ("clownfish",
      [ ("scientific_name", "Amphiprioninae")
      ; ("facts", "Clownfish live in symbiosis with sea anemones, protected by a special mucus coating.")
      ; ("endangered_status", "Least Concern")
      ; ("fun_fact", "All clownfish are born male and can change to female when needed!")
      ; ("habitat", "Coral reefs and anemones in Indo-Pacific")
      ; ("diet", "Algae, zooplankton, and anemone tentacles")
      ; ("size", "10-18cm")
      ; ("threats", "Coral bleaching, aquarium trade")
      ; ("population_trend", "Stable")
      ])
  ; ("sharks",
      [ ("name", "Sharks")
      ; ("scientific_name", "Selachimorpha")
      ; ("facts", "Sharks are apex predators with cartilaginous skeletons and multiple rows of teeth.")
      ; ("endangered_status", "Many species threatened")
      ; ("fun_fact", "Sharks have existed for over 400 million years!")
      ; ("habitat", "All ocean environments worldwide")
      ; ("diet", "Fish, marine mammals, plankton")
      ; ("size", "20cm to 12m depending on species")
      ; ("threats", "Overfishing, finning, bycatch")
      ; ("population_trend", "Declining globally")
      ])
  ; ("sea turtle",
      [ ("name", "Sea Turtle")
      ; ("scientific_name", "Chelonioidea")
      ; ("facts", "Sea turtles are ancient marine reptiles that navigate using Earth's magnetic field.")
      ; ("endangered_status", "Most species endangered")
      ; ("fun_fact", "Sea turtles return to the same beach where they were born to nest!")
      ; ("habitat", "Oceans worldwide, nesting on beaches")
      ; ("diet", "Jellyfish, seagrass, algae, crustaceans")
      ; ("size", "60cm to 2m shell length")
      ; ("threats", "Plastic pollution, fishing nets, beach development")
      ; ("population_trend", "Declining globally")
      ])
  ; ("Dolphin",
      [ ("name", "Dolphin")
      ; ("scientific_name", "Delphinidae")
      ; ("facts", "Dolphins are highly intelligent marine mammals with complex social structures.")
      ; ("endangered_status", "Varies by species")
      ; ("fun_fact", "Dolphins have names for each other using unique whistle signatures!")
      ; ("habitat", "Oceans and some rivers worldwide")
      ; ("diet", "Fish, squid, and crustaceans")
      ; ("size", "1.2-9m depending on species")
      ; ("threats", "Fishing nets, pollution, boat strikes")
      ; ("population_trend", "Varies by species")
      ])
  ; ("octopus",
      [ ("name", "Octopus")
      ; ("scientific_name", "Octopoda")
      ; ("facts", "Octopuses are intelligent cephalopods with eight arms and three hearts.")
      ; ("endangered_status", "Most species least concern")
      ; ("fun_fact", "Octopuses can change color and texture instantly to camouflage!")
      ; ("habitat", "Ocean floors worldwide")
      ; ("diet", "Crabs, shrimp, fish, and mollusks")
      ; ("size", "5cm to 9m arm span")
      ; ("threats", "Overfishing, habitat destruction")
      ; ("population_trend", "Generally stable")
      ])
  ; ("jellyfish",
      [ ("name", "Jellyfish")
      ; ("scientific_name", "Cnidaria")
      ; ("facts", "Jellyfish are ancient creatures composed of 95% water with no brain or heart.")
      ; ("endangered_status", "Most species stable")
      ; ("fun_fact", "Some jellyfish species are immortal and can reverse their aging process!")
      ; ("habitat", "All ocean environments")
      ; ("diet", "Plankton, small fish, and other jellyfish")
      ; ("size", "1mm to 2m bell diameter")
      ; ("threats", "Climate change, pollution")
      ; ("population_trend", "Many species increasing")
      ])
  ; ("seahorse",
      [ ("name", "Seahorse")
      ; ("scientific_name", "Hippocampus")
      ; ("facts", "Seahorses are unique fish where males carry and give birth to the young.")
      ; ("endangered_status", "Many species vulnerable")
      ; ("fun_fact", "Seahorses mate for life and perform elaborate courtship dances!")
      ; ("habitat", "Shallow coastal waters with seagrass")
      ; ("diet", "Small crustaceans and plankton")
      ; ("size", "1.5-35cm")
      ; ("threats", "Habitat loss, traditional medicine trade")
      ; ("population_trend", "Declining")
      ])
  ; ("pufferfish",
      [ ("name", "Pufferfish")
      ; ("scientific_name", "Tetraodontidae")
      ; ("facts", "Pufferfish can inflate their bodies and contain potent neurotoxins.")
      ; ("endangered_status", "Most species stable")
      ; ("fun_fact", "Some pufferfish create intricate sand circles to attract mates!")
      ; ("habitat", "Tropical and subtropical waters")
      ; ("diet", "Algae, invertebrates, and small fish")
      ; ("size", "2.5cm to 1.2m")
      ; ("threats", "Overfishing, habitat destruction")
      ; ("population_trend", "Generally stable")
      ])
  ; ("ray",
      [ ("name", "Rays")
      ; ("scientific_name", "Batoidea")
      ; ("facts", "Rays are flattened cartilaginous fish related to sharks.")
      ; ("endangered_status", "Many species threatened")
      ; ("fun_fact", "Manta rays have the largest brain-to-body ratio of any fish!")
      ; ("habitat", "Ocean floors and open water")
      ; ("diet", "Plankton, small fish, mollusks")
      ; ("size", "10cm to 9m wingspan")
      ; ("threats", "Overfishing, bycatch, habitat loss")
      ; ("population_trend", "Declining")
      ])
  ; ("clams",
      [ ("name", "Clams")
      ; ("scientific_name", "Bivalvia")
      ; ("facts", "Clams are filter-feeding marine bivalve mollusks that live in sand or mud.")
      ; ("endangered_status", "Least Concern")
      ; ("fun_fact", "The giant clam can live for over 100 years!")
      ; ("habitat", "Benthic zones of oceans and freshwater")
      ; ("diet", "Phytoplankton and organic particles")
      ; ("size", "Up to 1.2m (giant clam)")
      ; ("threats", "Over-harvesting, ocean acidification")
      ; ("population_trend", "Stable")
      ])
  ; ("corals",
      [ ("name", "Corals")
      ; ("scientific_name", "Anthozoa")
      ; ("facts", "Corals are marine invertebrates that live in colonies and form the foundation of coral reefs.")
      ; ("endangered_status", "Many species are threatened")
      ; ("fun_fact", "Corals are actually animals, not plants!")
      ; ("habitat", "Tropical and subtropical waters")
      ; ("diet", "Plankton and photosynthesis from algae")
      ; ("size", "Varies widely")
      ; ("threats", "Coral bleaching, climate change, pollution")
      ; ("population_trend", "Declining")
      ])
  ; ("crabs",
      [ ("name", "Crabs")
      ; ("scientific_name", "Brachyura")
      ; ("facts", "Crabs are crustaceans with a thick exoskeleton and a single pair of pincers.")
      ; ("endangered_status", "Most species least concern")
      ; ("fun_fact", "Crabs can walk sideways, but some species can also walk forward and backward!")
      ; ("habitat", "Coastal waters, tide pools, and deep sea")
      ; ("diet", "Algae, mollusks, worms, other crustaceans")
      ; ("size", "1cm to 4m leg span (Japanese spider crab)")
      ; ("threats", "Overfishing, habitat destruction")
      ; ("population_trend", "Generally stable")
      ])
  ; ("eel",
      [ ("name", "Eel")
      ; ("scientific_name", "Anguilliformes")
      ; ("facts", "Eels are long, slender fish that can grow to be several meters long.")
      ; ("endangered_status", "Varies by species")
      ; ("fun_fact", "Some eels can produce electricity to stun their prey!")
      ; ("habitat", "Coastal waters, coral reefs, deep sea")
      ; ("diet", "Fish, crustaceans, and other invertebrates")
      ; ("size", "10cm to 4m")
      ; ("threats", "Overfishing, habitat loss")
      ; ("population_trend", "Varies by species")
      ])
  ; ("fish",
      [ ("name", "Fish")
      ; ("scientific_name", "Vertebrata")
      ; ("facts", "Fish are aquatic vertebrates that have gills and fins. They are the most diverse group of vertebrates.")
      ; ("endangered_status", "Varies widely by species")
      ; ("fun_fact", "There are over 34,000 known species of fish!")
      ; ("habitat", "All water environments")
      ; ("diet", "Varies widely")
      ; ("size", "Varies widely")
      ; ("threats", "Overfishing, habitat destruction, pollution")
      ; ("population_trend", "Varies widely")
      ])
  ; ("jelly fish",
      [ ("name", "Jellyfish")
      ; ("scientific_name", "Cnidaria")
      ; ("facts", "Jellyfish are ancient creatures composed of 95% water with no brain or heart.")
      ; ("endangered_status", "Most species stable")
      ; ("fun_fact", "Some jellyfish species are immortal and can reverse their aging process!")
      ; ("habitat", "All ocean environments")
      ; ("diet", "Plankton, small fish, and other jellyfish")
      ; ("size", "1mm to 2m bell diameter")
      ; ("threats", "Climate change, pollution")
      ; ("population_trend", "Many species increasing")
      ])
  ; ("lobster",
      [ ("name", "Lobster")
      ; ("scientific_name", "Nephropidae")
      ; ("facts", "Lobsters are large marine crustaceans with a long body and muscular tail, and a pair of large claws.")
      ; ("endangered_status", "Least Concern")
      ; ("fun_fact", "Lobsters can live for over 50 years and grow indefinitely!")
      ; ("habitat", "Ocean floors in temperate waters")
      ; ("diet", "Fish, crustaceans, and mollusks")
      ; ("size", "20-60cm")
      ; ("threats", "Overfishing")
      ; ("population_trend", "Stable")
      ])
  ; ("nudibranchs",
      [ ("name", "Nudibranchs")
      ; ("scientific_name", "Nudibranchia")
      ; ("facts", "Nudibranchs, or sea slugs, are shell-less marine gastropod mollusks known for their vibrant colors.")
      ; ("endangered_status", "Not evaluated")
      ; ("fun_fact", "Nudibranchs steal stinging cells from jellyfish and use them for their own defense!")
      ; ("habitat", "Ocean floors worldwide")
      ; ("diet", "Sponges, anemones, and other nudibranchs")
      ; ("size", "5mm to 60cm")
      ; ("threats", "Pollution, habitat loss")
      ; ("population_trend", "Stable")
      ])
  ; ("otter",
      [ ("name", "Otter")
      ; ("scientific_name", "Lutrinae")
      ; ("facts", "Otters are carnivorous mammals found in both marine and freshwater environments.")
      ; ("endangered_status", "Varies by species")
      ; ("fun_fact", "Sea otters use rocks as tools to crack open shellfish!")
      ; ("habitat", "Coastal waters and rivers worldwide")
      ; ("diet", "Fish, crustaceans, and mollusks")
      ; ("size", "60cm to 1.8m")
      ; ("threats", "Habitat loss, pollution, hunting")
      ; ("population_trend", "Varies by species")
      ])
  ; ("penguin",
      [ ("name", "Penguin")
      ; ("scientific_name", "Spheniscidae")
      ; ("facts", "Penguins are flightless birds that are highly adapted for life in the water.")
      ; ("endangered_status", "Varies by species")
      ; ("fun_fact", "Penguins can drink saltwater because they have a special gland to filter out the salt!")
      ; ("habitat", "Southern Hemisphere oceans and coastlines")
      ; ("diet", "Fish, squid, and krill")
      ; ("size", "30cm to 1.2m")
      ; ("threats", "Climate change, habitat loss, pollution")
      ; ("population_trend", "Varies by species")
      ])
  ; ("puffers",
      [ ("name", "Pufferfish")
      ; ("scientific_name", "Tetraodontidae")
      ; ("facts", "Pufferfish can inflate their bodies and contain potent neurotoxins.")
      ; ("endangered_status", "Most species stable")
      ; ("fun_fact", "Some pufferfish create intricate sand circles to attract mates!")
      ; ("habitat", "Tropical and subtropical waters")
      ; ("diet", "Algae, invertebrates, and small fish")
      ; ("size", "2.5cm to 1.2m")
      ; ("threats", "Overfishing, habitat destruction")
      ; ("population_trend", "Generally stable")
      ])
  ; ("sea rays",
      [ ("name", "Sea Rays")
      ; ("scientific_name", "Batoidea")
      ; ("facts", "Rays are flattened cartilaginous fish related to sharks.")
      ; ("endangered_status", "Many species threatened")
      ; ("fun_fact", "Manta rays have the largest brain-to-body ratio of any fish!")
      ; ("habitat", "Ocean floors and open water")
      ; ("diet", "Plankton, small fish, mollusks")
      ; ("size", "10cm to 9m wingspan")
      ; ("threats", "Overfishing, bycatch, habitat loss")
      ; ("population_trend", "Declining")
      ])
  ; ("sea urchins",
      [ ("name", "Sea Urchins")
      ; ("scientific_name", "Echinoidea")
      ; ("facts", "Sea urchins are spiny, globular marine echinoderms that live in the seabed.")
      ; ("endangered_status", "Most species stable")
      ; ("fun_fact", "Sea urchins use their spines for defense, movement, and to trap food!")
      ; ("habitat", "Ocean floors worldwide")
      ; ("diet", "Algae, small invertebrates, and decaying matter")
      ; ("size", "3-10cm diameter")
      ; ("threats", "Over-harvesting, pollution")
      ; ("population_trend", "Stable")
      ])
  ; ("seahorse",
      [ ("name", "Seahorse")
      ; ("scientific_name", "Hippocampus")
      ; ("facts", "Seahorses are unique fish where males carry and give birth to the young.")
      ; ("endangered_status", "Many species vulnerable")
      ; ("fun_fact", "Seahorses mate for life and perform elaborate courtship dances!")
      ; ("habitat", "Shallow coastal waters with seagrass")
      ; ("diet", "Small crustaceans and plankton")
      ; ("size", "1.5-35cm")
      ; ("threats", "Habitat loss, traditional medicine trade")
      ; ("population_trend", "Declining")
      ])
  ; ("sea lion",
      [ ("name", "Sea Lion")
      ; ("scientific_name", "Otariinae")
      ; ("facts", "Sea lions are pinnipeds known for their external ear flaps, long front flippers, and the ability to walk on all fours on land.")
      ; ("endangered_status", "Most species least concern")
      ; ("fun_fact", "Sea lions can bark like dogs and have a very social nature!")
      ; ("habitat", "Coastal waters and islands worldwide")
      ; ("diet", "Fish, squid, and crustaceans")
      ; ("size", "1.5-3m")
      ; ("threats", "Fishing gear entanglement, habitat destruction")
      ; ("population_trend", "Stable to declining")
      ])
  ; ("sharks",
      [ ("name", "Sharks")
      ; ("scientific_name", "Selachimorpha")
      ; ("facts", "Sharks are apex predators with cartilaginous skeletons and multiple rows of teeth.")
      ; ("endangered_status", "Many species threatened")
      ; ("fun_fact", "Sharks have existed for over 400 million years!")
      ; ("habitat", "All ocean environments worldwide")
      ; ("diet", "Fish, marine mammals, plankton")
      ; ("size", "20cm to 12m depending on species")
      ; ("threats", "Overfishing, finning, bycatch")
      ; ("population_trend", "Declining globally")
      ])
  ; ("shrimp",
      [ ("name", "Shrimp")
      ; ("scientific_name", "Pleocyemata")
      ; ("facts", "Shrimp are small marine crustaceans that are an important food source for many marine animals.")
      ; ("endangered_status", "Least Concern")
      ; ("fun_fact", "Some shrimp species can snap their claws so fast it creates a sound louder than a gunshot!")
      ; ("habitat", "All water environments")
      ; ("diet", "Algae, organic particles, and small invertebrates")
      ; ("size", "2-20cm")
      ; ("threats", "Overfishing, habitat destruction")
      ; ("population_trend", "Stable")
      ])
  ; ("squid",
      [ ("name", "Squid")
      ; ("scientific_name", "Teuthida")
      ; ("facts", "Squid are cephalopods known for their large eyes, eight arms, two tentacles, and the ability to squirt ink.")
      ; ("endangered_status", "Least Concern")
      ; ("fun_fact", "Some squid species can fly out of the water for short distances!")
      ; ("habitat", "All ocean environments")
      ; ("diet", "Fish, crustaceans, and other squid")
      ; ("size", "5cm to 13m (giant squid)")
      ; ("threats", "Overfishing")
      ; ("population_trend", "Stable")
      ])
  ; ("starfish",
      [ ("name", "Starfish")
      ; ("scientific_name", "Asteroidea")
      ; ("facts", "Starfish are marine invertebrates with radial symmetry, typically having five arms.")
      ; ("endangered_status", "Least Concern")
      ; ("fun_fact", "Starfish can regenerate lost arms and sometimes even a whole new body!")
      ; ("habitat", "Ocean floors worldwide")
      ; ("diet", "Mollusks, crustaceans, and other invertebrates")
      ; ("size", "2cm to 1m")
      ; ("threats", "Habitat destruction, pollution")
      ; ("population_trend", "Stable")
      ])
  ; ("turtle_tortoise",
      [ ("name", "Sea Turtle")
      ; ("scientific_name", "Chelonioidea")
      ; ("facts", "Sea turtles are ancient marine reptiles that navigate using Earth's magnetic field.")
      ; ("endangered_status", "Most species endangered")
      ; ("fun_fact", "Sea turtles return to the same beach where they were born to nest!")
      ; ("habitat", "Oceans worldwide, nesting on beaches")
      ; ("diet", "Jellyfish, seagrass, algae, crustaceans")
      ; ("size", "60cm to 2m shell length")
      ; ("threats", "Plastic pollution, fishing nets, beach development")
      ; ("population_trend", "Declining globally")
      ])
  ; ("whale",
      [ ("name", "Whale")
      ; ("scientific_name", "Cetacea")
      ; ("facts", "Whales are large marine mammals known for their intelligence and complex communication.")
      ; ("endangered_status", "Varies by species")
      ; ("fun_fact", "Blue whales are the largest animals ever known to have existed!")
      ; ("habitat", "All ocean environments worldwide")
      ; ("diet", "Krill, plankton, fish, and squid")
      ; ("size", "3m to 30m")
      ; ("threats", "Whaling, noise pollution, climate change")
      ; ("population_trend", "Varies by species")
      ])
  ; ("Fish",
      [ ("name", "Fish")
      ; ("scientific_name", "Various")
      ; ("facts", "This category covers a wide range of aquatic vertebrates.")
      ; ("endangered_status", "Varies widely")
      ; ("fun_fact", "There are over 34,000 known species of fish!")
      ; ("habitat", "All water environments")
      ; ("diet", "Varies widely")
      ; ("size", "Varies widely")
      ; ("threats", "Overfishing, habitat destruction, pollution")
      ; ("population_trend", "Varies widely")
      ])
  ; ("Sea Lion",
      [ ("name", "Sea Lion")
      ; ("scientific_name", "Otariinae")
      ; ("facts", "Sea lions are pinnipeds known for their external ear flaps, long front flippers, and the ability to walk on all fours on land.")
      ; ("endangered_status", "Most species least concern")
      ; ("fun_fact", "Sea lions can bark like dogs and have a very social nature!")
      ; ("habitat", "Coastal waters and islands worldwide")
      ; ("diet", "Fish, squid, and crustaceans")
      ; ("size", "1.5-3m")
      ; ("threats", "Fishing gear entanglement, habitat destruction")
      ; ("population_trend", "Stable to declining")
      ])
  ; ("Sea Rays",
      [ ("name", "Sea Rays")
      ; ("scientific_name", "Batoidea")
      ; ("facts", "Rays are flattened cartilaginous fish related to sharks.")
      ; ("endangered_status", "Many species threatened")
      ; ("fun_fact", "Manta rays have the largest brain-to-body ratio of any fish!")
      ; ("habitat", "Ocean floors and open water")
      ; ("diet", "Plankton, small fish, mollusks")
      ; ("size", "10cm to 9m wingspan")
      ; ("threats", "Overfishing, bycatch, habitat loss")
      ; ("population_trend", "Declining")
      ])
  ].

Definition animal_database : dict (dict string) :=
  dict_of_literal animal_database_literal.

(** [key.lower().replace('_', ' ')] *)
Definition normalize (s : string) : string :=
  Str.replace_underscore (Str.lower s).

(** The [for key, details in animal_database.items()] loop: the first item
    whose normalized key equals the normalized name. *)
Fixpoint find_entry (items : dict (dict string)) (animal_name : string)
  : option (dict string) :=
  match items with
  | [] => None
  | (key, details) :: rest =>
      if String.eqb (normalize key) (normalize animal_name)
      then Some details
      else find_entry rest animal_name
  end.

Definition default_details (animal_name : string) : dict string :=
  [ ("name", Str.replace_underscore animal_name)
  ; ("scientific_name", "Unknown")
  ; ("facts", "This appears to be a " +:+ Str.replace_underscore animal_name
               +:+ ", a marine species found in ocean environments.")
  ; ("endangered_status", "Unknown")
  ; ("fun_fact", "Marine ecosystems are incredibly diverse with unique adaptations!")
  ; ("habitat", "Marine environments")
  ; ("diet", "Varies by species")
  ; ("size", "Varies by species")
  ; ("threats", "Climate change, pollution, overfishing")
  ; ("population_trend", "Unknown")
  ].

Definition get_animal_details (animal_name : string) : dict string :=
  match find_entry animal_database animal_name with
  | Some details =>
      let result := details in
      if dict_has "name" result then result
      else dict_set "name" animal_name result
  | None => default_details animal_name
  end.

End Species.

(** ** Python values, exceptions and effects *)

Set Warnings "-register-all".

(** What a dict handed between the modules can hold: the reply of the
    generative service is parsed JSON, the other fields are strings and
    numbers. *)
Inductive value : Type :=
| VNone
| VBool (b : bool)
| VNum (q : Q)
| VStr (s : string)
| VList (items : list value)
| VDict (d : list (string * value)).

(** An instance of [Exception] or of a subclass of it: the name of its
    class and its [str(e)]. *)
Inductive exn : Type :=
| Exn (class message : string).

Definition class_of (e : exn) : string :=
  match e with Exn class _ => class end.

Definition str_exn (e : exn) : string :=
  match e with Exn _ message => message end.

Inductive res (A : Type) : Type :=
| Ok (a : A)
| Raise (e : exn).

Arguments Ok {A} a.
Arguments Raise {A} e.

Definition ObjectId : Type := N.

(** A point in time, in microseconds since the epoch. *)
Definition datetime : Type := Z.

(** A document of [users_collection] ([User.to_dict]); the two session
    flags [_is_authenticated] and [_is_active] are not stored. *)
Record User : Type := mkUser {
  user__id : ObjectId;
  username : option string;
  email : option string;
  password_hash : option string;
  firebase_uid : option string;
  bio : option string;
  created_at : datetime
}.

(** A document of [uploads_collection] ([Upload.to_dict]). *)
Record Upload : Type := mkUpload {
  upload__id : ObjectId;
  filename : string;
  species_name : value;
  confidence : value;
  upload_user_id : ObjectId;
  latitude : option Q;
  longitude : option Q;
  upload_date : datetime
}.

(** A document of [global_stats_collection] ([GlobalStats.to_dict]). *)
Record GlobalStats : Type := mkGlobalStats {
  stats__id : ObjectId;
  total_identifications : nat;
  total_users : nat;
  total_species : nat;
  last_updated : datetime
}.

(** What a request can observe besides its answer. *)
Inductive event : Type :=
| EvModelPredict (image_path : string)
| EvVisionApi (image_path : string)
| EvGemini (species_name : string)
| EvSaveFile (path : string)
| EvFlash (message category : string)
| EvLogin (user_id : ObjectId).

(** The three collections, the generator of fresh [ObjectId]s, the clock
    and the events so far (oldest first). *)
Record world : Type := mkWorld {
  users_collection : list User;
  uploads_collection : list Upload;
  global_stats_collection : list GlobalStats;
  next_object_id : ObjectId;
  clock : datetime;
  trace : list event
}.

(** A computation: it ends with a value or an exception, and the effects
    it had before an exception stay. *)
Definition M (A : Type) : Type := world -> res A * world.

Definition ret {A} (a : A) : M A := fun w => (Ok a, w).

Definition raise {A} (e : exn) : M A := fun w => (Raise e, w).

Definition bind {A B} (m : M A) (k : A -> M B) : M B :=
  fun w =>
    match m w with
    | (Ok a, w') => k a w'
    | (Raise e, w') => (Raise e, w')
    end.

(** [try: m  except Exception as e: handler e] *)
Definition try_except {A} (m : M A) (handler : exn -> M A) : M A :=
  fun w =>
    match m w with
    | (Ok a, w') => (Ok a, w')
    | (Raise e, w') => handler e w'
    end.

Definition lift {A} (r : res A) : M A := fun w => (r, w).

Definition gets {A} (f : world -> A) : M A := fun w => (Ok (f w), w).

Definition modify (f : world -> world) : M unit := fun w => (Ok tt, f w).

Definition emit (e : event) : M unit :=
  modify (fun w => mkWorld (users_collection w) (uploads_collection w)
                           (global_stats_collection w) (next_object_id w)
                           (clock w) (trace w ++ [e])).

Notation "x <- m ;; k" := (bind m (fun x => k))
  (at level 100, m at next level, right associativity).
Notation "m ;;; k" := (bind m (fun _ => k))
  (at level 100, right associativity).

(** A function body either reaches a [return] or falls through to the
    statement after the block. *)
Inductive flow (A : Type) : Type :=
| Return (a : A)
| Continue.

Arguments Return {A} a.
Arguments Continue {A}.

(** [v[k]] for a string key *)
Definition subscript (v : value) (k : string) : res value :=
  match v with
  | VDict d =>
      match dict_get k d with
      | Some x => Ok x
      | None => Raise (Exn "KeyError" ("'" +:+ k +:+ "'"))
      end
  | VList _ => Raise (Exn "TypeError" "list indices must be integers or slices, not str")
  | VStr _ => Raise (Exn "TypeError" "string indices must be integers, not 'str'")
  | VNone => Raise (Exn "TypeError" "'NoneType' object is not subscriptable")
  | VBool _ => Raise (Exn "TypeError" "'bool' object is not subscriptable")
  | VNum _ => Raise (Exn "TypeError" "'float' object is not subscriptable")
  end.

(** [d[k]] on a dict *)
Definition getitem (d : dict value) (k : string) : res value :=
  subscript (VDict d) k.

(** [d.get(k, default)] *)
Definition get_default (d : dict value) (k : string) (default : value) : value :=
  match dict_get k d with Some x => x | None => default end.

(** ** Numbers *)

Definition Qgtb (a b : Q) : bool := negb (Qle_bool a b).

(** [round(q)]: to the nearest integer, a tie to the even one. *)
Definition round_half_even (q : Q) : Z :=
  let f := Qfloor q in
  let r := (q - inject_Z f)%Q in
  if Qgtb (1 # 2) r then f
  else if Qgtb r (1 # 2) then (f + 1)%Z
  else if Z.even f then f else (f + 1)%Z.

(** [round(q, 1)] *)
Definition round1 (q : Q) : Q := Qmake (round_half_even (q * 10)) 10.

(** [np.max(a)] and [np.argmax(a)] on a non-empty array; [np.argmax] gives
    the first position of the maximum. *)
Fixpoint argmax_from (best_index : nat) (best : Q) (i : nat) (l : list Q)
  : nat * Q :=
  match l with
  | [] => (best_index, best)
  | x :: rest =>
      if Qgtb x best then argmax_from i x (S i) rest
      else argmax_from best_index best (S i) rest
  end.

Definition np_argmax (a : list Q) : res nat :=
  match a with
  | [] => Raise (Exn "ValueError" "attempt to get argmax of an empty sequence")
  | x :: rest => Ok (fst (argmax_from 0 x 1 rest))
  end.

Definition np_max (a : list Q) : res Q :=
  match a with
  | [] => Raise (Exn "ValueError" "zero-size array to reduction operation maximum which has no identity")
  | x :: rest => Ok (snd (argmax_from 0 x 1 rest))
  end.

(** [bool(x)] of a number *)
Definition truthy_num (x : option Q) : bool :=
  match x with
  | None => false
  | Some q => negb (Qeq_bool q 0)
  end.

(** ** The services outside the process *)

(** An entry of [response.localized_object_annotations]. *)
Record LocalizedObject : Type := mkObject {
  object_name : string;
  object_score : Q
}.

Record AnnotateResponse : Type := mkResponse {
  localized_object_annotations : list LocalizedObject;
  error_message : string
}.

(** The fields of a verified Firebase ID token. *)
Record DecodedToken : Type := mkToken {
  token_uid : string;
  token_email : option string;
  token_name : string
}.

(** The outcome of the OAuth code exchange of [google_callback]: the token
    endpoint or the userinfo endpoint answered with a status other than
    200, or the user's [email] and [name] ([None] when the key is absent). *)
Inductive GoogleExchange : Type :=
| TokenRefused
| UserinfoRefused
| UserInfo (info_email info_name : option string).

(** - [model]: [None] when the weights failed to load; otherwise the steps
      from [Image.open(image_path)] to [model.predict(img_array)[0]].
    - [setup_vision_client]: [None] when the client could not be built;
      otherwise reading the file and [client.annotate_image].
    - [gemini_model]: [None] without an API key; otherwise
      [json.loads(gemini_model.generate_content(prompt).text)], the prompt
      being a fixed template around the species name.
    - [verify_id_token]: [firebase_admin.auth.verify_id_token].
    - [google_oauth]: [None] when [GOOGLE_CLIENT_ID] or
      [GOOGLE_CLIENT_SECRET] is not set; otherwise what Google's endpoints
      answer when an OAuth client for these credentials exchanges the
      authorization code for the user's profile.
    - the remaining fields are library functions: werkzeug's
      [generate_password_hash] and [secure_filename],
      [strftime('%Y%m%d_%H%M%S_')], [isoformat()] and [float(s)]. *)
Record Env : Type := mkEnv {
  model : option (string -> res (list Q));
  VISION_API_AVAILABLE : bool;
  setup_vision_client : option (string -> res AnnotateResponse);
  gemini_model : option (string -> res value);
  verify_id_token : string -> res DecodedToken;
  google_oauth : option (string -> res GoogleExchange);
  generate_password_hash : string -> string;
  secure_filename : string -> string;
  strftime : datetime -> string;
  isoformat : datetime -> string;
  float : string -> res Q
}.

(** ** Cloud vision fallback ([vision_api_fallback.py]) *)

Module Vision.

Definition marine_keywords : dict (list string) :=
  [ ("fish", ["Fish"; "Tropical fish"; "Marine biology"; "Aquarium fish"; "Saltwater fish"])
  ; ("sharks", ["Shark"; "Great white shark"; "Tiger shark"; "Hammerhead shark"])
  ; ("turtle_tortoise", ["Sea turtle"; "Turtle"; "Marine turtle"; "Loggerhead turtle"])
  ; ("dolphin", ["Dolphin"; "Marine mammal"; "Bottlenose dolphin"])
  ; ("whale", ["Whale"; "Humpback whale"; "Blue whale"; "Marine mammal"])
  ; ("octopus", ["Octopus"; "Cephalopod"; "Marine invertebrate"])
  ; ("jelly fish", ["Jellyfish"; "Cnidaria"; "Marine invertebrate"])
  ; ("seahorse", ["Seahorse"; "Marine fish"])
  ; ("starfish", ["Starfish"; "Sea star"; "Echinoderm"])
  ; ("crabs", ["Crab"; "Crustacean"; "Marine arthropod"])
  ; ("lobster", ["Lobster"; "Crustacean"])
  ; ("shrimp", ["Shrimp"; "Prawn"; "Crustacean"])
  ; ("corals", ["Coral"; "Coral reef"; "Marine organism"])
  ; ("sea urchins", ["Sea urchin"; "Echinoderm"])
  ; ("eel", ["Eel"; "Moray eel"; "Electric eel"])
  ; ("sea rays", ["Ray"; "Stingray"; "Manta ray"; "Skate"])
  ; ("seal", ["Seal"; "Sea lion"; "Marine mammal"])
  ; ("penguin", ["Penguin"; "Marine bird"])
  ; ("puffers", ["Pufferfish"; "Blowfish"])
  ].

(** The [for keyword in keywords] loop: at the first keyword found in the
    object's name the best match is updated if the score is higher, and the
    loop is left. *)
Fixpoint scan_keywords (keywords : list string) (species obj_name : string)
  (confidence : Q) (st : option string * Q) : option string * Q :=
  match keywords with
  | [] => st
  | keyword :: rest =>
      if Str.contains (Str.lower keyword) (Str.lower obj_name)
      then (if Qgtb confidence (snd st) then (Some species, confidence) else st)
      else scan_keywords rest species obj_name confidence st
  end.

(** The [for species, keywords in marine_keywords.items()] loop. *)
Definition scan_species (obj : LocalizedObject) (st : option string * Q)
  : option string * Q :=
  fold_left
    (fun st item =>
       scan_keywords (snd item) (fst item) (object_name obj) (object_score obj) st)
    marine_keywords st.

(** The [for obj in objects] loop, from [best_match = None] and
    [highest_confidence = 0]. *)
Definition scan_objects (objects : list LocalizedObject) : option string * Q :=
  fold_left (fun st obj => scan_species obj st) objects (None, 0%Q).

Definition gemini_unconfigured (species_name : string) : value :=
  VDict
    [ ("scientific_name", VStr "Unknown")
    ; ("facts", VStr ("This appears to be a " +:+ species_name +:+ "."))
    ; ("endangered_status", VStr "Unknown")
    ; ("fun_fact", VStr ("Interesting marine species: " +:+ species_name))
    ; ("habitat", VStr "Marine environment")
    ; ("diet", VStr "Varies by species")
    ; ("size", VStr "Varies")
    ; ("threats", VStr "Climate change and human activities")
    ; ("population_trend", VStr "Unknown")
    ].

Definition gemini_failed (species_name : string) : value :=
  VDict
    [ ("scientific_name", VStr "Unknown")
    ; ("facts", VStr ("This appears to be a " +:+ species_name +:+ " identified by Vision API."))
    ; ("endangered_status", VStr "Unknown")
    ; ("fun_fact", VStr ("Marine species: " +:+ species_name))
    ; ("habitat", VStr "Marine environment")
    ; ("diet", VStr "Varies by species")
    ; ("size", VStr "Varies")
    ; ("threats", VStr "Climate change and human activities")
    ; ("population_trend", VStr "Unknown")
    ].

Definition unknown_marine_species : dict value :=
  [ ("name", VStr "Unknown Marine Species")
  ; ("scientific_name", VStr "Unknown")
  ; ("confidence", VNum 0)
  ; ("facts", VStr "Could not identify a specific marine species in this image using Google Cloud Vision API.")
  ; ("endangered_status", VStr "Unknown")
  ; ("fun_fact", VStr "Try uploading a clearer image of a marine animal.")
  ; ("habitat", VStr "Unknown")
  ; ("diet", VStr "Unknown")
  ; ("size", VStr "Unknown")
  ; ("threats", VStr "Unknown")
  ; ("population_trend", VStr "Unknown")
  ; ("detection_method", VStr "Google Cloud Vision API")
  ].

Definition vision_api_error (e : exn) : dict value :=
  [ ("name", VStr "Vision API Error")
  ; ("scientific_name", VStr "Unknown")
  ; ("confidence", VNum 0)
  ; ("facts", VStr ("Google Cloud Vision API error: " +:+ str_exn e))
  ; ("endangered_status", VStr "Unknown")
  ; ("fun_fact", VStr "Please try again or check your Vision API credentials.")
  ; ("habitat", VStr "Unknown")
  ; ("diet", VStr "Unknown")
  ; ("size", VStr "Unknown")
  ; ("threats", VStr "Unknown")
  ; ("population_trend", VStr "Unknown")
  ; ("detection_method", VStr "Google Cloud Vision API (Error)")
  ].

Section WithEnv.
Variable env : Env.

Definition get_species_details_from_gemini (species_name : string) : M value :=
  match gemini_model env with
  | None => ret (gemini_unconfigured species_name)
  | Some generate_content =>
      try_except
        (emit (EvGemini species_name) ;;;
         species_info <- lift (generate_content species_name) ;;
         ret species_info)
        (fun e => ret (gemini_failed species_name))
  end.

Definition identify_marine_species_with_vision_api (image_path : string)
  : M (dict value) :=
  try_except
    (emit (EvVisionApi image_path) ;;;
     match setup_vision_client env with
     | None => raise (Exn "Exception" "Vision API client initialization failed")
     | Some annotate_image =>
         response <- lift (annotate_image image_path) ;;
         let objects := localized_object_annotations response in
         if negb (String.eqb (error_message response) "")
         then raise (Exn "Exception" ("Vision API error: " +:+ error_message response))
         else
           let (best_match, highest_confidence) := scan_objects objects in
           match best_match with
           | Some (String c s as best) =>
               let species_name := Str.title (Str.replace_underscore best) in
               let confidence_percentage := (highest_confidence * 100)%Q in
               species_info <- get_species_details_from_gemini species_name ;;
               scientific_name <- lift (subscript species_info "scientific_name") ;;
               facts <- lift (subscript species_info "facts") ;;
               endangered_status <- lift (subscript species_info "endangered_status") ;;
               fun_fact <- lift (subscript species_info "fun_fact") ;;
               habitat <- lift (subscript species_info "habitat") ;;
               diet <- lift (subscript species_info "diet") ;;
               size <- lift (subscript species_info "size") ;;
               threats <- lift (subscript species_info "threats") ;;
               population_trend <- lift (subscript species_info "population_trend") ;;
               ret [ ("name", VStr species_name)
                   ; ("scientific_name", scientific_name)
                   ; ("confidence", VNum (round1 confidence_percentage))
                   ; ("facts", facts)
                   ; ("endangered_status", endangered_status)
                   ; ("fun_fact", fun_fact)
                   ; ("habitat", habitat)
                   ; ("diet", diet)
                   ; ("size", size)
                   ; ("threats", threats)
                   ; ("population_trend", population_trend)
                   ; ("detection_method", VStr "Google Cloud Vision API")
                   ]
           | _ => ret unknown_marine_species
           end
     end)
    (fun e => ret (vision_api_error e)).

End WithEnv.

End Vision.

(** ** Document store access layer ([models.py]) *)

Module Models.

Definition set_users (f : list User -> list User) (w : world) : world :=
  mkWorld (f (users_collection w)) (uploads_collection w)
          (global_stats_collection w) (next_object_id w) (clock w) (trace w).

Definition set_uploads (f : list Upload -> list Upload) (w : world) : world :=
  mkWorld (users_collection w) (f (uploads_collection w))
          (global_stats_collection w) (next_object_id w) (clock w) (trace w).

Definition set_global_stats (f : list GlobalStats -> list GlobalStats)
  (w : world) : world :=
  mkWorld (users_collection w) (uploads_collection w)
          (f (global_stats_collection w)) (next_object_id w) (clock w) (trace w).

(** [ObjectId()] *)
Definition new_object_id : M ObjectId :=
  fun w =>
    (Ok (next_object_id w),
     mkWorld (users_collection w) (uploads_collection w)
             (global_stats_collection w) (N.succ (next_object_id w))
             (clock w) (trace w)).

(** [datetime.utcnow()] *)
Definition utcnow : M datetime := gets clock.

(** Equality of two fields that hold a string or [None]. *)
Definition field_eqb (a b : option string) : bool :=
  match a, b with
  | Some x, Some y => String.eqb x y
  | None, None => true
  | _, _ => false
  end.

(** [bool(s)] of a string or [None] *)
Definition truthy_str (s : option string) : bool :=
  match s with
  | None | Some EmptyString => false
  | Some _ => true
  end.

Section WithEnv.
Variable env : Env.

(** [User(username, email, password, bio, firebase_uid)] *)
Definition User_init (username email password bio firebase_uid : option string)
  : M User :=
  _id <- new_object_id ;;
  now <- utcnow ;;
  ret (mkUser _id username email
         (match password with
          | Some (String _ _ as p) => Some (generate_password_hash env p)
          | _ => None
          end)
         firebase_uid bio now).

End WithEnv.


(** [user.save()]: [insert_one], under the unique indexes that
    [create_indexes] puts on [username] and on [email]. *)
Definition User_save (user : User) : M User :=
  fun w =>
    if existsb (fun u => field_eqb (username u) (username user)
                         || field_eqb (email u) (email user))
               (users_collection w)
    then (Raise (Exn "DuplicateKeyError" "E11000 duplicate key error collection"), w)
    else (Ok user, set_users (fun us => us ++ [user]) w).

(** [users_collection.find_one({field: x})]: the first document that has
    the value. *)
Definition User_find_by_username (name : option string) : M (option User) :=
  gets (fun w => List.find (fun u => field_eqb (username u) name)
                           (users_collection w)).

Definition User_find_by_email (mail : option string) : M (option User) :=
  gets (fun w => List.find (fun u => field_eqb (email u) mail)
                           (users_collection w)).

Definition User_find_by_firebase_uid (uid : option string) : M (option User) :=
  gets (fun w => List.find (fun u => field_eqb (firebase_uid u) uid)
                           (users_collection w)).

(** [User.find_by_id], for the id of the session (a string that does not
    spell an [ObjectId] finds nobody and is not modelled). *)
Definition User_find_by_id (user_id : ObjectId) : M (option User) :=
  gets (fun w => List.find (fun u => N.eqb (user__id u) user_id)
                           (users_collection w)).

Definition User_count : M nat :=
  gets (fun w => length (users_collection w)).

(** [user.id] and [upload.id]: the classes define [_id] (and [User]
    [get_id()]), but no attribute [id]. *)
Definition User_id (user : User) : res string :=
  Raise (Exn "AttributeError" "'User' object has no attribute 'id'").

Definition Upload_id (upload : Upload) : res string :=
  Raise (Exn "AttributeError" "'Upload' object has no attribute 'id'").

(** [Upload(filename, species_name, confidence, user_id, latitude, longitude)] *)
Definition Upload_init (filename : string) (species_name confidence : value)
  (user_id : ObjectId) (latitude longitude : option Q) : M Upload :=
  _id <- new_object_id ;;
  now <- utcnow ;;
  ret (mkUpload _id filename species_name confidence user_id
                latitude longitude now).

Definition Upload_save (upload : Upload) : M Upload :=
  modify (set_uploads (fun us => us ++ [upload])) ;;;
  ret upload.

(** [Upload.find({})] *)
Definition Upload_find : M (list Upload) := gets uploads_collection.

(** A stored field equals the string of a query. *)
Definition is_str (v : value) (s : string) : bool :=
  match v with
  | VStr t => String.eqb t s
  | _ => false
  end.

Definition Upload_find_by_species (name : string) : M (list Upload) :=
  gets (fun w => List.filter (fun u => is_str (species_name u) name)
                             (uploads_collection w)).

(** The order of [.sort('upload_date', -1)]. *)
Definition newest_first (a b : Upload) : Prop :=
  (upload_date b <= upload_date a)%Z.

#[global] Instance newest_first_dec (a b : Upload) : Decision (newest_first a b).
Proof. unfold newest_first. apply _. Defined.

(** [uploads_collection.find({'user_id': user_id}).sort('upload_date', -1)] *)
Definition Upload_find_by_user_id (user_id : ObjectId) : M (list Upload) :=
  gets (fun w =>
          merge_sort newest_first
            (List.filter (fun u => N.eqb (upload_user_id u) user_id)
                         (uploads_collection w))).

Definition Upload_count : M nat :=
  gets (fun w => length (uploads_collection w)).

(** [GlobalStats()] *)
Definition GlobalStats_init : M GlobalStats :=
  _id <- new_object_id ;;
  now <- utcnow ;;
  ret (mkGlobalStats _id 0 0 0 now).

(** [global_stats_collection.find_one()] *)
Definition GlobalStats_find_one : M (option GlobalStats) :=
  gets (fun w => head (global_stats_collection w)).

(** [replace_one({}, doc, upsert=True)]: the first document is replaced, an
    empty collection gets the document. *)
Definition GlobalStats_save (stats : GlobalStats) : M GlobalStats :=
  modify (set_global_stats (fun docs =>
            match docs with
            | [] => [stats]
            | _ :: rest => stats :: rest
            end)) ;;;
  ret stats.

End Models.

(** ** Identification pipeline ([app.py]) *)

Module App.

Import Models.

Definition ALLOWED_EXTENSIONS : list string :=
  ["png"; "jpg"; "jpeg"; "gif"; "bmp"; "webp"].

Definition allowed_file (filename : string) : bool :=
  match Str.after_last_dot filename with
  | Some ext => existsb (String.eqb (Str.lower ext)) ALLOWED_EXTENSIONS
  | None => false
  end.

(** [animal_details.get(k, default)] on the strings of the reference table *)
Definition details_get (animal_details : dict string) (k default : string)
  : value :=
  VStr (match dict_get k animal_details with Some x => x | None => default end).

Section WithEnv.
Variable env : Env.

(** The block under [if model is not None: try:], up to its [except]: the
    result it returns, or the exception it leaves to the [except]. *)
Definition h5_model_step (predict : string -> res (list Q))
  (image_path : string) : M (dict value) :=
  emit (EvModelPredict image_path) ;;;
  predictions <- lift (predict image_path) ;;
  highest <- lift (np_max predictions) ;;
  let confidence := (highest * 100)%Q in
  predicted_class_index <- lift (np_argmax predictions) ;;
  if Qgtb confidence 85
     && (predicted_class_index <? length Species.SPECIES_NAMES)%nat
  then
    match nth_error Species.SPECIES_NAMES predicted_class_index with
    | None => raise (Exn "IndexError" "list index out of range")
    | Some species_name =>
        let animal_details := Species.get_animal_details species_name in
        ret [ ("name", details_get animal_details "name" species_name)
            ; ("scientific_name", details_get animal_details "scientific_name" "Unknown")
            ; ("confidence", VNum (round1 confidence))
            ; ("facts", details_get animal_details "facts"
                          ("This is a " +:+ species_name +:+ "."))
            ; ("endangered_status", details_get animal_details "endangered_status" "Unknown")
            ; ("fun_fact", details_get animal_details "fun_fact"
                             ("Cool fact about " +:+ species_name +:+ "!"))
            ; ("habitat", details_get animal_details "habitat" "Marine environment")
            ; ("diet", details_get animal_details "diet" "Varies")
            ; ("size", details_get animal_details "size" "Varies")
            ; ("threats", details_get animal_details "threats" "Climate change")
            ; ("population_trend", details_get animal_details "population_trend" "Unknown")
            ; ("detection_method", VStr "H5 Model")
            ]
    end
  else
    if VISION_API_AVAILABLE env
    then
      try_except
        (Vision.identify_marine_species_with_vision_api env image_path)
        (fun vision_error => raise vision_error)
    else raise (Exn "Exception" "Low confidence and Vision API not available").

Definition identify_species_with_h5 (image_path : string)
  : M (option (dict value)) :=
  try_except
    (from_model <-
       match model env with
       | Some predict =>
           try_except
             (result <- h5_model_step predict image_path ;;
              ret (Return result))
             (fun h5_error => ret Continue)
       | None => ret Continue
       end ;;
     match from_model with
     | Return result => ret (Some result)
     | Continue =>
         from_vision <-
           (if VISION_API_AVAILABLE env
            then
              try_except
                (result <- Vision.identify_marine_species_with_vision_api env image_path ;;
                 _ <- lift (getitem result "name") ;;
                 ret (Return result))
                (fun vision_error => ret Continue)
            else ret Continue) ;;
         match from_vision with
         | Return result => ret (Some result)
         | Continue => ret None
         end
     end)
    (fun e => ret None).

End WithEnv.

End App.

(** ** Request handlers ([app.py]) *)

Module Handlers.

Import Models.

(** What a view function returns. *)
Inductive template_arg : Type :=
| ArgValue (v : value)
| ArgUser (user : option User)
| ArgUploads (uploads : list Upload)
| ArgCount (n : nat).

Inductive response : Type :=
| Json (status_code : nat) (body : value)
| Redirect (endpoint : string)
| Render (template : string) (context : list (string * template_arg)).

(** [flash(message, category)] *)
Definition flash (message category : string) : M unit :=
  emit (EvFlash message category).

(** [str(object_id)] *)
Definition str_oid (i : ObjectId) : string := pretty i.

(** A string or [None] as a JSON value. *)
Definition of_field (s : option string) : value :=
  match s with
  | Some x => VStr x
  | None => VNone
  end.

(** [x == y] on values that can be members of a [set]: [None], strings and
    numbers, a [bool] being the number 0 or 1. *)
Definition as_number (v : value) : option Q :=
  match v with
  | VBool b => Some (if b then 1%Q else 0%Q)
  | VNum q => Some q
  | _ => None
  end.

Definition value_eqb (a b : value) : bool :=
  match a, b with
  | VNone, VNone => true
  | VStr s, VStr t => String.eqb s t
  | _, _ =>
      match as_number a, as_number b with
      | Some p, Some q => Qeq_bool p q
      | _, _ => false
      end
  end.

Definition hashable (v : value) : bool :=
  match v with
  | VList _ | VDict _ => false
  | _ => true
  end.

(** [bool(v)] *)
Definition truthy (v : value) : bool :=
  match v with
  | VNone => false
  | VBool b => b
  | VNum q => negb (Qeq_bool q 0)
  | VStr s => negb (String.eqb s "")
  | VList l => match l with [] => false | _ => true end
  | VDict d => match d with [] => false | _ => true end
  end.

(** The members of [set(values)], one for each class of equal values. *)
Fixpoint distinct (values : list value) : list value :=
  match values with
  | [] => []
  | v :: rest =>
      let s := distinct rest in
      if existsb (value_eqb v) s then s else v :: s
  end.

(** [len(set(values))]; a list or a dict cannot be a member of a set. *)
Definition len_set (values : list value) : res nat :=
  if forallb hashable values then Ok (length (distinct values))
  else Raise (Exn "TypeError" "unhashable type").

Definition update_global_stats : M (option GlobalStats) :=
  try_except
    (found <- GlobalStats_find_one ;;
     stats <- match found with
              | Some stats => ret stats
              | None => GlobalStats_init
              end ;;
     total_identifications <- Upload_count ;;
     total_users <- User_count ;;
     all_uploads <- Upload_find ;;
     total_species <- lift (len_set (map species_name all_uploads)) ;;
     now <- utcnow ;;
     stats <- GlobalStats_save
                (mkGlobalStats (stats__id stats) total_identifications
                               total_users total_species now) ;;
     ret (Some stats))
    (fun e => ret None).

(** One request to [/predict] or [/predict_web]: the session's [user_id],
    the name of the uploaded file ([None] without a [file] part) and the two
    form fields. *)
Record UploadRequest : Type := mkUploadRequest {
  session_user_id : option ObjectId;
  file : option string;
  form_latitude : option string;
  form_longitude : option string
}.

Definition invalid_file_type : string :=
  "Invalid file type. Please upload an image file (PNG, JPG, JPEG, GIF, BMP, WEBP).".

Definition error_json (status_code : nat) (message : string) : response :=
  Json status_code (VDict [("status", VStr "error"); ("message", VStr message)]).

Section WithEnv.
Variable env : Env.

(** The file name under which the upload is stored, and its path. *)
Definition stored_name (name : string) : M string :=
  now <- utcnow ;;
  ret (strftime env now +:+ secure_filename env name).

Definition UPLOAD_FOLDER : string := "uploads".

Definition predict (request : UploadRequest) : M response :=
  match session_user_id request with
  | None =>
      flash "You need to be logged in to view this page." "warning" ;;;
      ret (Redirect "login")
  | Some user_id =>
      try_except
        (match file request with
         | None => ret (error_json 400 "No file uploaded")
         | Some EmptyString => ret (error_json 400 "No file selected")
         | Some name =>
             if negb (App.allowed_file name)
             then ret (Json 400 (VDict [ ("status", VStr "error")
                                       ; ("message", VStr invalid_file_type)
                                       ; ("traceback", VStr invalid_file_type) ]))
             else
               filename <- stored_name name ;;
               let img_path := UPLOAD_FOLDER +:+ "/" +:+ filename in
               emit (EvSaveFile img_path) ;;;
               found <- User_find_by_id user_id ;;
               match found with
               | None => ret (error_json 401 "User not found")
               | Some user =>
                   animal_data <- App.identify_species_with_h5 env img_path ;;
                   match animal_data with
                   | None =>
                       id <- lift (User_id user) ;;
                       ret (Json 200 (VDict
                              [ ("status", VStr "success")
                              ; ("prediction", VNone)
                              ; ("user", VDict [ ("id", VStr id)
                                               ; ("username", of_field (username user)) ])
                              ]))
                   | Some animal_data =>
                       name <- lift (getitem animal_data "name") ;;
                       confidence <- lift (getitem animal_data "confidence") ;;
                       upload <- Upload_init filename name confidence user_id None None ;;
                       upload <- Upload_save upload ;;
                       name <- lift (getitem animal_data "name") ;;
                       let scientific_name := get_default animal_data "scientific_name" (VStr "Unknown") in
                       confidence <- lift (getitem animal_data "confidence") ;;
                       facts <- lift (getitem animal_data "facts") ;;
                       endangered_status <- lift (getitem animal_data "endangered_status") ;;
                       fun_fact <- lift (getitem animal_data "fun_fact") ;;
                       habitat <- lift (getitem animal_data "habitat") ;;
                       diet <- lift (getitem animal_data "diet") ;;
                       size <- lift (getitem animal_data "size") ;;
                       let threats := get_default animal_data "threats" (VStr "Unknown") in
                       let population_trend := get_default animal_data "population_trend" (VStr "Unknown") in
                       upload_id <- lift (Upload_id upload) ;;
                       id <- lift (User_id user) ;;
                       ret (Json 200 (VDict
                              [ ("status", VStr "success")
                              ; ("prediction", VDict
                                   [ ("name", name)
                                   ; ("scientific_name", scientific_name)
                                   ; ("confidence", confidence)
                                   ; ("facts", facts)
                                   ; ("endangered_status", endangered_status)
                                   ; ("fun_fact", fun_fact)
                                   ; ("habitat", habitat)
                                   ; ("diet", diet)
                                   ; ("size", size)
                                   ; ("threats", threats)
                                   ; ("population_trend", population_trend)
                                   ; ("image_filename", VStr filename)
                                   ; ("upload_id", VStr upload_id)
                                   ; ("model_type", VStr "ResNet50V2 Model") ])
                              ; ("user", VDict [ ("id", VStr id)
                                               ; ("username", of_field (username user)) ])
                              ]))
                   end
               end
         end)
        (fun e => ret (error_json 500 ("Server error: " +:+ str_exn e)))
  end.

(** [float(x) if x else None] on a form field *)
Definition optional_float (x : option string) : M (option Q) :=
  if truthy_str x
  then match x with
       | Some s => q <- lift (float env s) ;; ret (Some q)
       | None => ret None
       end
  else ret None.

Definition predict_web (request : UploadRequest) : M response :=
  match session_user_id request with
  | None =>
      flash "You need to be logged in to view this page." "warning" ;;;
      ret (Redirect "login")
  | Some user_id =>
      try_except
        (match file request with
         | None => flash "No file uploaded" "error" ;;; ret (Redirect "dashboard")
         | Some EmptyString => flash "No file selected" "error" ;;; ret (Redirect "dashboard")
         | Some name =>
             if negb (App.allowed_file name)
             then flash invalid_file_type "error" ;;; ret (Redirect "dashboard")
             else
               filename <- stored_name name ;;
               let img_path := UPLOAD_FOLDER +:+ "/" +:+ filename in
               emit (EvSaveFile img_path) ;;;
               found <- User_find_by_id user_id ;;
               match found with
               | None => flash "User not found" "error" ;;; ret (Redirect "dashboard")
               | Some user =>
                   latitude <- optional_float (form_latitude request) ;;
                   longitude <- optional_float (form_longitude request) ;;
                   animal_data <- App.identify_species_with_h5 env img_path ;;
                   match animal_data with
                   | None => ret (Redirect "dashboard")
                   | Some animal_data =>
                       name <- lift (getitem animal_data "name") ;;
                       confidence <- lift (getitem animal_data "confidence") ;;
                       upload <- Upload_init filename name confidence user_id latitude longitude ;;
                       upload <- Upload_save upload ;;
                       _ <- update_global_stats ;;
                       species_name <- lift (getitem animal_data "name") ;;
                       let scientific_name := get_default animal_data "scientific_name" (VStr "Unknown") in
                       facts <- lift (getitem animal_data "facts") ;;
                       status <- lift (getitem animal_data "endangered_status") ;;
                       fun_fact <- lift (getitem animal_data "fun_fact") ;;
                       confidence <- lift (getitem animal_data "confidence") ;;
                       habitat <- lift (getitem animal_data "habitat") ;;
                       diet <- lift (getitem animal_data "diet") ;;
                       size <- lift (getitem animal_data "size") ;;
                       let threats := get_default animal_data "threats" (VStr "Unknown") in
                       let population_trend := get_default animal_data "population_trend" (VStr "Unknown") in
                       ret (Render "result.html"
                              [ ("species_name", ArgValue species_name)
                              ; ("scientific_name", ArgValue scientific_name)
                              ; ("facts", ArgValue facts)
                              ; ("status", ArgValue status)
                              ; ("fun_fact", ArgValue fun_fact)
                              ; ("image_filename", ArgValue (VStr filename))
                              ; ("confidence", ArgValue confidence)
                              ; ("habitat", ArgValue habitat)
                              ; ("diet", ArgValue diet)
                              ; ("size", ArgValue size)
                              ; ("threats", ArgValue threats)
                              ; ("population_trend", ArgValue population_trend)
                              ; ("model_type", ArgValue (VStr "ResNet50V2 Model")) ])
                   end
               end
         end)
        (fun e =>
           flash ("Error processing image: " +:+ str_exn e) "error" ;;;
           ret (Redirect "dashboard"))
  end.

(** The form of [/register]. *)
Record RegisterRequest : Type := mkRegisterRequest {
  method : string;
  form_username : option string;
  form_email : option string;
  form_password : option string
}.

Definition register (request : RegisterRequest) : M response :=
  if String.eqb (method request) "POST"
  then
    let username := form_username request in
    let email := form_email request in
    let password := form_password request in
    by_username <- User_find_by_username username ;;
    match by_username with
    | Some _ =>
        flash "Username already exists" "error" ;;;
        ret (Render "register.html" [])
    | None =>
        by_email <- User_find_by_email email ;;
        match by_email with
        | Some _ =>
            flash "Email already registered" "error" ;;;
            ret (Render "register.html" [])
        | None =>
            hashed <- match password with
                      | Some p => ret (generate_password_hash env p)
                      | None => raise (Exn "AttributeError"
                                         "'NoneType' object has no attribute 'encode'")
                      end ;;
            user <- User_init env username email (Some hashed) None None ;;
            _ <- User_save user ;;
            flash "Registration successful! Please login." "success" ;;;
            ret (Redirect "login")
        end
    end
  else ret (Render "register.html" []).

(** The [while User.find_by_username(username)] loop of [firebase_login]:
    [username] is the candidate, [counter] the next suffix.  [fuel] bounds
    the number of lookups; one more than the number of users is enough. *)
Fixpoint firebase_username (fuel : nat) (base_username username : string)
  (counter : nat) : M string :=
  match fuel with
  | O => raise (Exn "RuntimeError" "username loop did not end")
  | S fuel' =>
      taken <- User_find_by_username (Some username) ;;
      match taken with
      | Some _ =>
          firebase_username fuel' base_username
            (base_username +:+ "_" +:+ Str.of_nat counter) (S counter)
      | None => ret username
      end
  end.

(** The same loop in [google_callback], where the candidate is kept in
    [base_username] itself. *)
Fixpoint google_username (fuel : nat) (base_username : string) (counter : nat)
  : M string :=
  match fuel with
  | O => raise (Exn "RuntimeError" "username loop did not end")
  | S fuel' =>
      taken <- User_find_by_username (Some base_username) ;;
      match taken with
      | Some _ =>
          google_username fuel'
            (base_username +:+ "_" +:+ Str.of_nat counter) (S counter)
      | None => ret base_username
      end
  end.

(** [login_user(user)] and the two session keys. *)
Definition login_user (user : User) : M unit := emit (EvLogin (user__id user)).

Definition auth_json (status_code : nat) (message : string) : response :=
  Json status_code (VDict [("success", VBool false); ("message", VStr message)]).

Definition login_successful (user : User) : response :=
  Json 200 (VDict
    [ ("success", VBool true)
    ; ("message", VStr "Login successful")
    ; ("user", VDict [ ("id", VStr (str_oid (user__id user)))
                     ; ("username", of_field (username user))
                     ; ("email", of_field (email user)) ])
    ]).

(** [/firebase_login], for the [id_token] of the JSON body. *)
Definition firebase_login (id_token : option string) : M response :=
  try_except
    (match id_token with
     | None | Some EmptyString => ret (auth_json 400 "ID token is required")
     | Some id_token =>
         decoded_token <- lift (verify_id_token env id_token) ;;
         let firebase_uid := token_uid decoded_token in
         let email := token_email decoded_token in
         by_uid <- User_find_by_firebase_uid (Some firebase_uid) ;;
         found <- match by_uid with
                  | Some user => ret (Some user)
                  | None => User_find_by_email email
                  end ;;
         user <- match found with
                 | Some user => ret user
                 | None =>
                     let base_username :=
                       match email with
                       | Some (String _ _ as e) => Str.before_at e
                       | _ => "firebase_" +:+ Str.take 8 firebase_uid
                       end in
                     users <- User_count ;;
                     username <- firebase_username (S users) base_username base_username 1 ;;
                     user <- User_init env (Some username)
                               (Some (if truthy_str email
                                      then default "" email
                                      else firebase_uid +:+ "@firebase.local"))
                               None None (Some firebase_uid) ;;
                     User_save user
                 end ;;
         login_user user ;;;
         ret (login_successful user)
     end)
    (fun e =>
       if String.eqb (class_of e) "InvalidIdTokenError"
       then ret (auth_json 401 "Invalid ID token")
       else if String.eqb (class_of e) "ExpiredIdTokenError"
       then ret (auth_json 401 "ID token has expired")
       else if String.eqb (class_of e) "RevokedIdTokenError"
       then ret (auth_json 401 "ID token has been revoked")
       else ret (auth_json 500 "Authentication failed")).




(** [/api/species_locations?species=...] *)
Definition species_locations (species : option string) : M response :=
  if negb (truthy_str species)
  then ret (Json 400 (VDict [("error", VStr "Species parameter required")]))
  else
    uploads <- Upload_find_by_species (default "" species) ;;
    let locations :=
      map (fun u =>
             VDict [ ("lat", match latitude u with Some q => VNum q | None => VNone end)
                   ; ("lng", match longitude u with Some q => VNum q | None => VNone end)
                   ; ("species", species_name u)
                   ; ("timestamp", VStr (isoformat env (upload_date u))) ])
          (List.filter (fun u => truthy_num (latitude u) && truthy_num (longitude u))
                       uploads) in
    ret (Json 200 (VList locations)).

(** [/dashboard] *)
Definition dashboard (session_user : option ObjectId) : M response :=
  match session_user with
  | None =>
      flash "You need to be logged in to view this page." "warning" ;;;
      ret (Redirect "login")
  | Some user_id =>
      user <- User_find_by_id user_id ;;
      all_uploads <- Upload_find_by_user_id user_id ;;
      let uploads := firstn 10 all_uploads in
      all_uploads' <- Upload_find_by_user_id user_id ;;
      let total_uploads := length all_uploads' in
      user_uploads <- Upload_find_by_user_id user_id ;;
      unique_species <-
        lift (len_set (List.filter truthy (map species_name user_uploads))) ;;
      ret (Render "dashboard.html"
             [ ("user", ArgUser user)
             ; ("uploads", ArgUploads uploads)
             ; ("total_uploads", ArgCount total_uploads)
             ; ("unique_species", ArgCount unique_species) ])
  end.

(** [/profile] *)
Definition profile (session_user : option ObjectId) : M response :=
  match session_user with
  | None =>
      flash "You need to be logged in to view this page." "warning" ;;;
      ret (Redirect "login")
  | Some user_id =>
      user <- User_find_by_id user_id ;;
      all_uploads <- Upload_find_by_user_id user_id ;;
      let uploads := firstn 10 all_uploads in
      all_uploads' <- Upload_find_by_user_id user_id ;;
      let total_uploads := length all_uploads' in
      unique_species <-
        lift (len_set (List.filter truthy (map species_name uploads))) ;;
      ret (Render "profile.html"
             [ ("user", ArgUser user)
             ; ("uploads", ArgUploads uploads)
             ; ("total_uploads", ArgCount total_uploads)
             ; ("unique_species", ArgCount unique_species) ])
  end.

End WithEnv.

End Handlers.

(** ** Vocabulary of the properties *)

(** The fields of an identification result. *)
Definition RESULT_FIELDS : list string :=
  [ "name"; "scientific_name"; "confidence"; "facts"; "endangered_status";
    "fun_fact"; "habitat"; "diet"; "size"; "threats"; "population_trend";
    "detection_method" ].

(** A result is well formed when it has every field. *)
Definition well_formed (result : dict value) : bool :=
  forallb (fun k => dict_has k result) RESULT_FIELDS.

(** The persistent part of the world: the three collections. *)
Definition store (w : world)
  : list User * list Upload * list GlobalStats :=
  (users_collection w, uploads_collection w, global_stats_collection w).

(** The cloud vision fallback was entered. *)
Definition is_vision_event (e : event) : bool :=
  match e with
  | EvVisionApi _ => true
  | _ => false
  end.

(** A user of the store has the name. *)
Definition taken (w : world) (name : string) : Prop :=
  In (Some name) (map username (users_collection w)).

(** The names [firebase_login] tries in turn: [base], [base_1], [base_2],
    ... *)
Definition firebase_candidate (base_username : string) (i : nat) : string :=
  match i with
  | O => base_username
  | S _ => base_username +:+ "_" +:+ Str.of_nat i
  end.

(** The names [google_callback] tries in turn: [base], [base_1],
    [base_1_2], ... *)
Fixpoint google_candidate (base_username : string) (i : nat) : string :=
  match i with
  | O => base_username
  | S j => google_candidate base_username j +:+ "_" +:+ Str.of_nat i
  end.

(** ** Scenarios *)

Module Scenario.

Import Models Handlers.

Definition no_token : string -> res DecodedToken :=
  fun _ => Raise (Exn "InvalidIdTokenError" "no token is valid here").

(** Library functions fixed for the scenarios: the hash marks its input,
    file names are kept, the time stamp is constant and [float] reads the
    two numerals the scenarios use. *)
Definition hash (p : string) : string := "pbkdf2:" +:+ p.

Definition stamp (t : datetime) : string := "20240101_120000_".

Definition iso (t : datetime) : string := "2024-01-01T12:00:00".

Definition read_float (s : string) : res Q :=
  if String.eqb s "0" then Ok 0%Q
  else if String.eqb s "10.5" then Ok (105 # 10)
  else Raise (Exn "ValueError" "could not convert string to float").

Definition services (model : option (string -> res (list Q)))
  (vision_available : bool)
  (client : option (string -> res AnnotateResponse))
  (gemini : option (string -> res value))
  (google : option (string -> res GoogleExchange))
  (tokens : string -> res DecodedToken) : Env :=
  mkEnv model vision_available client gemini tokens google
        hash (fun s => s) stamp iso read_float.

(** Neither the local model nor the vision module is there. *)
Definition nothing_available : Env :=
  services None false None None None no_token.

(** No local model; the vision module is imported but its client cannot be
    built (no credentials). *)
Definition vision_down : Env :=
  services None true None None None no_token.

(** The local model sees class 6 with probability [p]. *)
Definition class6 (p : Q) : string -> res (list Q) :=
  fun _ => Ok [0; 0; 2 # 100; 0; 0; 0; p; 3 # 100; 0]%Q.

(** The vision service sees a shark. *)
Definition sees_shark : string -> res AnnotateResponse :=
  fun _ => Ok (mkResponse [mkObject "Great white shark" (7 # 10)] "").

Definition confident_model : Env :=
  services (Some (class6 (92 # 100))) true (Some sees_shark) None None no_token.

Definition boundary_model : Env :=
  services (Some (class6 (85 # 100))) true (Some sees_shark) None None no_token.

Definition alice : User :=
  mkUser 1%N (Some "Alice") (Some "alice@example.org") (Some "pbkdf2:x")
         None None 0%Z.

Definition alice_1 : User :=
  mkUser 2%N (Some "Alice_1") (Some "alice1@example.org") (Some "pbkdf2:y")
         None None 10%Z.

Definition one_user : world := mkWorld [alice] [] [] 3%N 100%Z [].

Definition two_users : world := mkWorld [alice; alice_1] [] [] 3%N 100%Z [].

Definition reef_upload : UploadRequest :=
  mkUploadRequest (Some 1%N) (Some "reef.jpg") None None.


(** Two dolphin sightings, the first on the equator. *)
Definition on_equator : Upload :=
  mkUpload 10%N "a.jpg" (VStr "Dolphin") (VNum (91 # 1)) 1%N
           (Some 0%Q) (Some (-140 # 1)) 50%Z.

Definition in_atlantic : Upload :=
  mkUpload 11%N "b.jpg" (VStr "Dolphin") (VNum (90 # 1)) 1%N
           (Some (30 # 1)) (Some (-40 # 1)) 60%Z.

Definition no_location : Upload :=
  mkUpload 12%N "c.jpg" (VStr "Dolphin") (VNum (88 # 1)) 1%N None None 70%Z.

Definition sightings : world :=
  mkWorld [alice] [on_equator; in_atlantic; no_location] [] 13%N 100%Z [].

Definition duplicate_name : RegisterRequest :=
  mkRegisterRequest "POST" (Some "Alice") (Some "other@example.org") (Some "pw").

End Scenario.

(** ** Further vocabulary *)

(** The character occurs in the string. *)
Fixpoint has_char (c : ascii) (s : string) : bool :=
  match s with
  | EmptyString => false
  | String c' rest => Ascii.eqb c' c || has_char c rest
  end.

(** The fields of a record of the species table. *)
Definition DETAIL_FIELDS : list string :=
  [ "name"; "scientific_name"; "facts"; "endangered_status"; "fun_fact";
    "habitat"; "diet"; "size"; "threats"; "population_trend" ].

(** The name of the object contains a keyword of the species. *)
Definition names_species (obj : LocalizedObject)
  (item : string * list string) : bool :=
  existsb
    (fun keyword =>
       Str.contains (Str.lower keyword) (Str.lower (object_name obj)))
    (snd item).

(** The name of the object contains a keyword of some species. *)
Definition recognised (obj : LocalizedObject) : bool :=
  existsb (names_species obj) Vision.marine_keywords.

(** What the scan of the objects seen so far has established: no
    recognised object scores higher than the best, and the best match, if
    there is one, is a species named by an object that scores exactly the
    best, which is then positive. *)
Definition scan_invariant (seen : list LocalizedObject)
  (st : option string * Q) : Prop :=
  (forall obj, In obj seen -> recognised obj = true ->
     (object_score obj <= snd st)%Q)
  /\ match fst st with
     | None => snd st = 0%Q
     | Some species =>
         (0 < snd st)%Q
         /\ exists obj item,
              In obj seen /\ In item Vision.marine_keywords
              /\ fst item = species /\ names_species obj item = true
              /\ object_score obj = snd st
     end.

(** The nine fields asked of the generative service. *)
Definition GEMINI_FIELDS : list string :=
  [ "scientific_name"; "facts"; "endangered_status"; "fun_fact"; "habitat";
    "diet"; "size"; "threats"; "population_trend" ].

(** [v[k]] does not raise. *)
Definition has_item (v : value) (k : string) : bool :=
  match subscript v k with
  | Ok _ => true
  | Raise _ => false
  end.

(** [w'] is [w] with the events added to its trace. *)
Definition adds_events (w w' : world) (events : list event) : Prop :=
  store w' = store w
  /\ next_object_id w' = next_object_id w
  /\ clock w' = clock w
  /\ trace w' = trace w ++ events.

Definition is_model_event (e : event) : bool :=
  match e with
  | EvModelPredict _ => true
  | _ => false
  end.

Definition is_gemini_event (e : event) : bool :=
  match e with
  | EvGemini _ => true
  | _ => false
  end.

(** The local model gives no answer for the image: it is not loaded, or its
    prediction raises, or its confidence is at most 85, or its class index
    is beyond the known classes. *)
Definition local_model_declines (env : Env) (image_path : string) : Prop :=
  match model env with
  | None => True
  | Some predict =>
      match predict image_path with
      | Raise _ => True
      | Ok predictions =>
          match np_max predictions, np_argmax predictions with
          | Ok highest, Ok index =>
              (highest * 100 <= 85)%Q
              \/ (length Species.SPECIES_NAMES <= index)%nat
          | _, _ => True
          end
      end
  end.

(** The world in which the fallback starts: the local prediction, if the
    model is loaded, is in the trace. *)
Definition after_local_model (env : Env) (image_path : string) (w : world)
  : world :=
  match model env with
  | None => w
  | Some _ => snd (emit (EvModelPredict image_path) w)
  end.

(** More scenarios. *)
Module Scenario2.

(** The generative service answers with the scientific name only. *)
Definition terse_gemini : string -> res value :=
  fun _ => Ok (VDict [("scientific_name", VStr "Selachimorpha")]).

Definition shark_with_terse_gemini : Env :=
  Scenario.services None true (Some Scenario.sees_shark) (Some terse_gemini)
    None Scenario.no_token.

(** The generative service is down. *)
Definition shark_without_gemini : Env :=
  Scenario.services None true (Some Scenario.sees_shark)
    (Some (fun _ => Raise (Exn "ConnectionError" "service unavailable")))
    None Scenario.no_token.

(** A local model that is sure of nothing; the vision module is there. *)
Definition unsure_model : Env :=
  Scenario.services (Some (Scenario.class6 (40 # 100))) true
    (Some Scenario.sees_shark) None None Scenario.no_token.

End Scenario2.

(** Scenarios of the account handlers. *)
Module Scenario3.

Import Models Handlers.

Definition bob_registers : RegisterRequest :=
  mkRegisterRequest "POST" (Some "Bob") (Some "bob@example.org") (Some "pw").

(** A verified Firebase token for an address nobody has. *)
Definition carol_token : Env :=
  Scenario.services None false None None None
    (fun _ => Ok (mkToken "uid-carol-0001" (Some "carol@example.org") "Carol")).

(** A verified Firebase token for the address of Alice. *)
Definition alice_token : Env :=
  Scenario.services None false None None None
    (fun _ => Ok (mkToken "uid-alice-0001" (Some "alice@example.org") "Alice")).

End Scenario3.

(** The value is a string. *)
Definition is_string (v : value) : bool :=
  match v with
  | VStr _ => true
  | _ => false
  end.

(** ** Statistics API ([app.py]) *)

Module Api.

Import Models Handlers.

(** A count as a JSON number. *)
Definition of_count (n : nat) : value := VNum (inject_Z (Z.of_nat n)).

Section WithEnv.
Variable env : Env.

(** [/api/stats] *)
Definition get_stats : M response :=
  try_except
    (stats <- update_global_stats ;;
     match stats with
     | Some stats =>
         ret (Json 200 (VDict
                [ ("total_identifications", of_count (total_identifications stats))
                ; ("total_users", of_count (total_users stats))
                ; ("total_species", of_count (total_species stats))
                ; ("last_updated", VStr (isoformat env (last_updated stats))) ]))
     | None =>
         now <- utcnow ;;
         ret (Json 200 (VDict
                [ ("total_identifications", of_count 0)
                ; ("total_users", of_count 0)
                ; ("total_species", of_count 0)
                ; ("last_updated", VStr (isoformat env now)) ]))
     end)
    (fun e => ret (Json 500 (VDict [("error", VStr (str_exn e))]))).

End WithEnv.

End Api.

Module Scenario4.

(** A store whose only upload carries a list where the species name
    belongs. *)
Definition listed_name : world :=
  mkWorld [Scenario.alice]
    [mkUpload 20%N "d.jpg" (VList [VStr "Dolphin"]) (VNum (90 # 1)) 1%N None None 80%Z]
    [] 21%N 100%Z [].

End Scenario4.

(** The result names its species by a string and gives its confidence as a
    number. *)
Definition typed_result (d : dict value) : bool :=
  match dict_get "name" d, dict_get "confidence" d with
  | Some (VStr _), Some (VNum _) => true
  | _, _ => false
  end.

(** Every stored upload names its species by a string. *)
Definition string_named (w : world) : bool :=
  forallb is_string (map species_name (uploads_collection w)).

(** The uploads of a user, in the order of the collection. *)
Definition uploads_of (user_id : ObjectId) (w : world) : list Upload :=
  List.filter (fun u => N.eqb (upload_user_id u) user_id) (uploads_collection w).

(** The species names a page counts: those that are not empty. *)
Definition named_species (uploads : list Upload) : list value :=
  List.filter Handlers.truthy (map species_name uploads).

Module Scenario5.

(** Eleven uploads of one user, each of another species, the oldest first. *)
Definition eleven_species : list (N * string) :=
  [ (30, "Coral"); (31, "Fish"); (32, "Jellyfish"); (33, "Lobster");
    (34, "Penguin"); (35, "Seal"); (36, "Sharks"); (37, "Squid");
    (38, "Turtle"); (39, "Dolphin"); (40, "Whale") ]%N.

Definition busy_user : world :=
  mkWorld [Scenario.alice]
    (map (fun '(i, s) =>
            mkUpload i "x.jpg" (VStr s) (VNum (90 # 1)) 1%N None None (Z.of_N i))
         eleven_species)
    [] 41%N 100%Z [].

End Scenario5.

(** ** Locations for old uploads ([retrofit_locations.py],
    [species_map_data.py]) *)

Module Retrofit.

Import Models.

(** An entry of a ["regions"] list. *)
Record Region : Type := mkRegion {
  region_name : string;
  region_lat : Q;
  region_lng : Q;
  region_population : string
}.

Record Distribution : Type := mkDistribution {
  regions : list Region;
  description : string
}.

Definition SPECIES_DISTRIBUTION : dict Distribution :=
  [ ("dolphin",
     mkDistribution
       [ mkRegion "Pacific Ocean" 0 (-140 # 1) "High"
       ; mkRegion "Atlantic Ocean" (30 # 1) (-40 # 1) "High"
       ; mkRegion "Mediterranean Sea" (40 # 1) (15 # 1) "Medium"
       ; mkRegion "Indian Ocean" (-10 # 1) (70 # 1) "High"
       ; mkRegion "Caribbean Sea" (15 # 1) (-75 # 1) "Medium" ]
       "Dolphins are found in oceans worldwide, with highest populations in tropical waters.")
  ; ("jellyfish",
     mkDistribution
       [ mkRegion "Great Barrier Reef" (-18 # 1) (147 # 1) "High"
       ; mkRegion "Mediterranean Sea" (35 # 1) (18 # 1) "High"
       ; mkRegion "North Sea" (56 # 1) (3 # 1) "Medium"
       ; mkRegion "Japanese Waters" (35 # 1) (140 # 1) "High" ]
       "Jellyfish are found in every ocean, from surface waters to the deep sea.")
  ; ("sea rays",
     mkDistribution
       [ mkRegion "Maldives" (32 # 10) (732 # 10) "High"
       ; mkRegion "Great Barrier Reef" (-16 # 1) (145 # 1) "High"
       ; mkRegion "Red Sea" (22 # 1) (38 # 1) "High"
       ; mkRegion "Caribbean Sea" (18 # 1) (-78 # 1) "Medium" ]
       "Sea rays prefer warm tropical waters, often found near coral reefs.")
  ; ("starfish",
     mkDistribution
       [ mkRegion "Pacific Northwest" (47 # 1) (-123 # 1) "High"
       ; mkRegion "Great Barrier Reef" (-15 # 1) (145 # 1) "High"
       ; mkRegion "Mediterranean Sea" (38 # 1) (15 # 1) "Medium"
       ; mkRegion "Antarctic Waters" (-70 # 1) 0 "High" ]
       "Starfish are found in all oceans, from tropical reefs to cold polar waters.")
  ; ("whale",
     mkDistribution
       [ mkRegion "Alaska Waters" (60 # 1) (-150 # 1) "High"
       ; mkRegion "Antarctic Peninsula" (-65 # 1) (-60 # 1) "High"
       ; mkRegion "Norway Coast" (69 # 1) (16 # 1) "High"
       ; mkRegion "Baja California" (28 # 1) (-114 # 1) "High" ]
       "Whales migrate across all oceans, with feeding in polar waters.")
  ].

Definition species_mapping : dict string :=
  [ ("Dolphins", "dolphin")
  ; ("Jellyfish", "jellyfish")
  ; ("Sea Rays", "sea rays")
  ; ("Starfish", "starfish")
  ; ("Whales", "whale")
  ; ("Sea Turtles", "sea_turtles")
  ; ("Octopus", "octopus")
  ; ("Sharks", "sharks")
  ].

(** [species_mapping.get(k)]: a list or a dict cannot be looked up. *)
Definition species_mapping_get (k : value) : res (option string) :=
  match k with
  | VStr s => Ok (dict_get s species_mapping)
  | VList _ => Raise (Exn "TypeError" "unhashable type: 'list'")
  | VDict _ => Raise (Exn "TypeError" "unhashable type: 'dict'")
  | _ => Ok None
  end.

(** [x is not None] *)
Definition is_not_none {A : Type} (x : option A) : bool :=
  match x with
  | Some _ => true
  | None => false
  end.

(** The document after [$set: {latitude: lat, longitude: lng}]. *)
Definition set_location (lat lng : Q) (u : Upload) : Upload :=
  mkUpload (upload__id u) (filename u) (species_name u) (confidence u)
           (upload_user_id u) (Some lat) (Some lng) (upload_date u).

(** The document holds the two values already. *)
Definition has_location (lat lng : Q) (u : Upload) : bool :=
  match latitude u, longitude u with
  | Some a, Some b => Qeq_bool a lat && Qeq_bool b lng
  | _, _ => false
  end.

(** The first document that matches is replaced. *)
Fixpoint update_first (p : Upload -> bool) (f : Upload -> Upload)
  (l : list Upload) : list Upload :=
  match l with
  | [] => []
  | u :: rest => if p u then f u :: rest else u :: update_first p f rest
  end.

(** [uploads_collection.update_one({'_id': _id}, {'$set': {'latitude': lat,
    'longitude': lng}})]; the value is [result.modified_count]. *)
Definition update_location (_id : ObjectId) (lat lng : Q) : M nat :=
  fun w =>
    match List.find (fun u => N.eqb (upload__id u) _id) (uploads_collection w) with
    | Some doc =>
        if has_location lat lng doc then (Ok 0%nat, w)
        else (Ok 1%nat,
              set_uploads (update_first (fun u => N.eqb (upload__id u) _id)
                                        (set_location lat lng)) w)
    | None => (Ok 0%nat, w)
    end.

(** The loop of [retrofit_locations] over the uploads read at its start.
    [random.choice] takes the element at the position that the next draw of
    [draws] gives; [drawn] counts the draws made. *)
Fixpoint retrofit_loop (draws : nat -> nat) (drawn : nat)
  (all_uploads : list Upload) (updated_count skipped_count : nat)
  : M (nat * nat) :=
  match all_uploads with
  | [] => ret (updated_count, skipped_count)
  | upload :: rest =>
      if is_not_none (latitude upload) && is_not_none (longitude upload)
      then retrofit_loop draws drawn rest updated_count skipped_count
      else
        species_key <- lift (species_mapping_get (species_name upload)) ;;
        match species_key with
        | Some (String _ _ as species_key) =>
            match dict_get species_key SPECIES_DISTRIBUTION with
            | None =>
                retrofit_loop draws drawn rest updated_count (S skipped_count)
            | Some distribution =>
                match regions distribution with
                | [] =>
                    retrofit_loop draws drawn rest updated_count (S skipped_count)
                | first :: _ =>
                    let region :=
                      nth (draws drawn mod length (regions distribution))
                          (regions distribution) first in
                    let lat := region_lat region in
                    let lng := region_lng region in
                    modified_count <- update_location (upload__id upload) lat lng ;;
                    if (0 <? modified_count)%nat
                    then retrofit_loop draws (S drawn) rest
                           (S updated_count) skipped_count
                    else retrofit_loop draws (S drawn) rest
                           updated_count (S skipped_count)
                end
            end
        | _ => retrofit_loop draws drawn rest updated_count (S skipped_count)
        end
  end.

(** [retrofit_locations()]; the value is the two counts it prints at its
    end. *)
Definition retrofit_locations (draws : nat -> nat) : M (nat * nat) :=
  all_uploads <- Upload_find ;;
  retrofit_loop draws 0 all_uploads 0 0.

End Retrofit.

(** The upload has both coordinates. *)
Definition located (u : Upload) : bool :=
  Retrofit.is_not_none (latitude u) && Retrofit.is_not_none (longitude u).

(** The regions from which [retrofit_locations] draws for a species name. *)
Definition regions_for (species : value) : list Retrofit.Region :=
  match species with
  | VStr s =>
      match dict_get s Retrofit.species_mapping with
      | Some key =>
          match dict_get key Retrofit.SPECIES_DISTRIBUTION with
          | Some distribution => Retrofit.regions distribution
          | None => []
          end
      | None => []
      end
  | _ => []
  end.

(** The upload lacks a coordinate and there are regions for its species. *)
Definition locatable (u : Upload) : bool :=
  negb (located u)
  && match regions_for (species_name u) with [] => false | _ => true end.

(** The upload lacks a coordinate and there are no regions for its
    species. *)
Definition unlocatable (u : Upload) : bool :=
  negb (located u)
  && match regions_for (species_name u) with [] => true | _ => false end.

(** The upload with the coordinates of the region at the position. *)
Definition relocated (k : nat) (u : Upload) : Upload :=
  match regions_for (species_name u) with
  | [] => u
  | (first :: _) as rs =>
      let region := nth (k mod length rs) rs first in
      Retrofit.set_location (Retrofit.region_lat region)
                            (Retrofit.region_lng region) u
  end.

(** The uploads after one pass, for the draws from the [drawn]-th on. *)
Fixpoint relocate_all (draws : nat -> nat) (drawn : nat) (uploads : list Upload)
  : list Upload :=
  match uploads with
  | [] => []
  | u :: rest =>
      if locatable u
      then relocated (draws drawn) u :: relocate_all draws (S drawn) rest
      else u :: relocate_all draws drawn rest
  end.

(** Two uploads that differ in their coordinates at most. *)
Definition same_but_location (u u' : Upload) : Prop :=
  upload__id u' = upload__id u
  /\ filename u' = filename u
  /\ species_name u' = species_name u
  /\ confidence u' = confidence u
  /\ upload_user_id u' = upload_user_id u
  /\ upload_date u' = upload_date u.

Module Scenario6.

(** Three old uploads: a jellyfish and a dolphin without coordinates, and
    a ray that has its own. *)
Definition old_jellyfish : Upload :=
  mkUpload 50%N "j.jpg" (VStr "Jellyfish") (VNum (93 # 1)) 1%N None None 20%Z.

Definition old_dolphin : Upload :=
  mkUpload 51%N "d.jpg" (VStr "Dolphin") (VNum (70 # 1)) 1%N None None 21%Z.

Definition located_ray : Upload :=
  mkUpload 52%N "r.jpg" (VStr "Sea Rays") (VNum (80 # 1)) 1%N
           (Some (5 # 1)) (Some (6 # 1)) 22%Z.

Definition old_uploads : world :=
  mkWorld [Scenario.alice] [old_jellyfish; old_dolphin; located_ray] []
          53%N 100%Z [].

(** Every draw gives the third region. *)
Definition third : nat -> nat := fun _ => 2%nat.

End Scenario6.

(** ** Profile update ([app.py], [models.py]) *)

Module Profile.

Import Models Handlers.

(** The document after [$set: {username, email, bio}]. *)
Definition set_profile (new_username new_email new_bio : option string)
  (u : User) : User :=
  mkUser (user__id u) new_username new_email (password_hash u)
         (firebase_uid u) new_bio (created_at u).

(** The first document that matches is replaced; the others, and whether
    there was a match. *)
Fixpoint replace_first (p : User -> bool) (f : User -> User) (l : list User)
  : list User :=
  match l with
  | [] => []
  | u :: rest => if p u then f u :: rest else u :: replace_first p f rest
  end.

Fixpoint remove_first (p : User -> bool) (l : list User) : list User :=
  match l with
  | [] => []
  | u :: rest => if p u then rest else u :: remove_first p rest
  end.

(** [user.update(username=..., email=..., bio=...)]: the three attributes
    are set on the object, then [update_one({'_id': self._id}, {'$set':
    ...})] runs under the unique indexes on [username] and on [email]. *)
Definition User_update (user : User) (new_username new_email new_bio : option string)
  : M User :=
  fun w =>
    let updated := set_profile new_username new_email new_bio user in
    let has_id := fun u => N.eqb (user__id u) (user__id user) in
    match List.find has_id (users_collection w) with
    | None => (Ok updated, w)
    | Some _ =>
        if existsb (fun u => field_eqb (username u) new_username
                             || field_eqb (email u) new_email)
                   (remove_first has_id (users_collection w))
        then (Raise (Exn "DuplicateKeyError" "E11000 duplicate key error collection"), w)
        else (Ok updated,
              set_users (replace_first has_id
                           (set_profile new_username new_email new_bio)) w)
    end.

(** A JSON body of [/update_profile] in which each of the three fields is a
    string, or is absent or [null] (then [None]).  A body with a number, a
    boolean, a list or an object in one of the fields is not of this record:
    [app.py] puts such a value, when it is truthy, into the document as it
    is.  [read_body] below tells which bodies are read into the record. *)
Record ProfileData : Type := mkProfileData {
  data_username : option string;
  data_email : option string;
  data_bio : option string
}.

Definition no_attribute (attribute : string) : exn :=
  Exn "AttributeError"
      ("'NoneType' object has no attribute '" +:+ attribute +:+ "'").

(** [/update_profile]; [data] is [None] for a body that is [null]. *)
Definition update_profile (session_user : option ObjectId)
  (data : option ProfileData) : M response :=
  match session_user with
  | None =>
      flash "You need to be logged in to view this page." "warning" ;;;
      ret (Redirect "login")
  | Some user_id =>
      try_except
        (user <- User_find_by_id user_id ;;
         match data with
         | None => raise (no_attribute "get")
         | Some data =>
             match user with
             | None =>
                 if truthy_str (data_username data) then raise (no_attribute "username")
                 else if truthy_str (data_email data) then raise (no_attribute "email")
                 else if Retrofit.is_not_none (data_bio data)
                      then raise (no_attribute "bio")
                      else raise (no_attribute "update")
             | Some user =>
                 let new_username :=
                   if truthy_str (data_username data) then data_username data
                   else username user in
                 let new_email :=
                   if truthy_str (data_email data) then data_email data
                   else email user in
                 let new_bio :=
                   if Retrofit.is_not_none (data_bio data) then data_bio data
                   else bio user in
                 _ <- User_update user new_username new_email new_bio ;;
                 ret (Json 200 (VDict [ ("success", VBool true)
                                      ; ("message", VStr "Profile updated successfully!") ]))
             end
         end)
        (fun e => ret (Json 400 (VDict [ ("success", VBool false)
                                       ; ("message", VStr (str_exn e)) ])))
  end.

(** [data.get(k)] for a body of [ProfileData]: the string, [None] for a key
    that is absent or [null], and no reading for another JSON value. *)
Definition read_field (body : dict value) (k : string) : option (option string) :=
  match dict_get k body with
  | None | Some VNone => Some None
  | Some (VStr s) => Some (Some s)
  | Some _ => None
  end.

(** What [request.get_json()] gives, as the argument of [update_profile]:
    [null], or an object whose [username], [email] and [bio] are strings,
    absent or [null].  Every other body has no reading here. *)
Definition read_body (body : value) : option (option ProfileData) :=
  match body with
  | VNone => Some None
  | VDict d =>
      match read_field d "username", read_field d "email", read_field d "bio" with
      | Some u, Some e, Some b => Some (Some (mkProfileData u e b))
      | _, _, _ => None
      end
  | _ => None
  end.

End Profile.

Module Scenario7.

(** Alice asks for the name that the second user has; she asks for a new
    name and a biography; she sends a form with nothing in it. *)
Definition take_name : Profile.ProfileData :=
  Profile.mkProfileData (Some "Alice_1") None None.

Definition rename : Profile.ProfileData :=
  Profile.mkProfileData (Some "Alicia") (Some "") (Some "Diver").

Definition blank : Profile.ProfileData :=
  Profile.mkProfileData (Some "") None None.

(** The JSON body that asks for the new name and the biography. *)
Definition rename_body : value :=
  VDict [("username", VStr "Alicia"); ("email", VStr ""); ("bio", VStr "Diver")].

End Scenario7.

(** ** Password login ([app.py], [models.py]) *)

Module Login.

Import Models Handlers.

(** One request to [/login]: whether [current_user] is authenticated, the
    method, the two form fields and the [next] argument of the query. *)
Record LoginRequest : Type := mkLoginRequest {
  is_authenticated : bool;
  login_method : string;
  login_username : option string;
  login_password : option string;
  next : option string
}.

Definition invalid_login : string := "Invalid username/email or password".

Section WithLibrary.

(** [werkzeug.security.check_password_hash(pwhash, password)] *)
Variable check_password_hash : option string -> option string -> res bool.

(** [user.check_password(password)] *)
Definition User_check_password (user : User) (password : option string)
  : M bool :=
  lift (check_password_hash (password_hash user) password).

(** [/login]; [redirect(next_page)] is the redirect to the location as it is
    given. *)
Definition login (request : LoginRequest) : M response :=
  if is_authenticated request
  then ret (Redirect "dashboard")
  else
    if String.eqb (login_method request) "POST"
    then
      let username := login_username request in
      let password := login_password request in
      by_username <- User_find_by_username username ;;
      user <- match by_username with
              | Some user => ret (Some user)
              | None => User_find_by_email username
              end ;;
      accepted <- match user with
                  | Some user =>
                      matches <- User_check_password user password ;;
                      ret (if matches then Some user else None)
                  | None => ret None
                  end ;;
      match accepted with
      | Some user =>
          login_user user ;;;
          flash "Successfully logged in!" "success" ;;;
          flash "Login successful!" "success" ;;;
          match next request with
          | Some (String _ _ as next_page) =>
              if negb (String.eqb next_page "/")
              then ret (Redirect next_page)
              else ret (Redirect "dashboard")
          | _ => ret (Redirect "dashboard")
          end
      | None =>
          flash invalid_login "error" ;;;
          ret (Render "login.html" [])
      end
    else ret (Render "login.html" []).

End WithLibrary.

End Login.

Module Scenario8.

(** The check that goes with the hash of the scenarios. *)
Definition check (pwhash password : option string) : res bool :=
  match pwhash, password with
  | Some h, Some p => Ok (String.eqb h (Scenario.hash p))
  | None, _ =>
      Raise (Exn "AttributeError" "'NoneType' object has no attribute 'split'")
  | _, None =>
      Raise (Exn "AttributeError" "'NoneType' object has no attribute 'encode'")
  end.

Definition bob_logs_in (password : string) : Login.LoginRequest :=
  Login.mkLoginRequest false "POST" (Some "Bob") (Some password) None.

End Scenario8.

(** * Properties *)

Ltac unfold_m :=
  unfold try_except, bind, ret, raise, lift, emit, modify, gets in *.

(** ** The pipeline never raises (C1) *)

Lemma vision_total (env : Env) (image_path : string) (w : world) :
  exists d w',
    Vision.identify_marine_species_with_vision_api env image_path w = (Ok d, w')
    /\ well_formed d = true /\ store w' = store w.
Proof.
  unfold Vision.identify_marine_species_with_vision_api,
    Vision.get_species_details_from_gemini.
  unfold_m.
  destruct (setup_vision_client env) as [annotate|]; [|eauto 10].
  destruct (annotate image_path) as [response|e]; [|eauto 10].
  destruct (negb _); [eauto 10|].
  destruct (Vision.scan_objects _) as [[[|c s]|] hc]; [eauto 10| |eauto 10].
  destruct (gemini_model env) as [generate|]; [|cbn; eauto 10].
  cbn.
  destruct (generate _) as [v|e]; [|cbn; eauto 10].
  repeat (match goal with
          | |- context [subscript v ?k] => destruct (subscript v k)
          end; [|eauto 10]).
  eauto 10.
Qed.

Lemma h5_model_step_cases (env : Env) (predict : string -> res (list Q))
  (image_path : string) (w : world) :
  (exists d w', App.h5_model_step env predict image_path w = (Ok d, w')
                /\ well_formed d = true /\ store w' = store w)
  \/ (exists e w', App.h5_model_step env predict image_path w = (Raise e, w')
                   /\ store w' = store w).
Proof.
  unfold App.h5_model_step. unfold_m.
  destruct (predict image_path) as [predictions|e]; [|right; eauto 10].
  destruct (np_max predictions) as [highest|e]; [|right; eauto 10].
  destruct (np_argmax predictions) as [i|e]; [|right; eauto 10].
  destruct (_ && _).
  - destruct (nth_error _ _); [left|right]; eauto 10.
  - destruct (VISION_API_AVAILABLE env); [|right; eauto 10].
    match goal with
    | |- context [Vision.identify_marine_species_with_vision_api env image_path ?w1] =>
        destruct (vision_total env image_path w1) as (d & w' & -> & Hwf & Hst)
    end.
    left. eauto 10.
Qed.

(** What [identify_species_with_h5] does on any input: it returns, its
    result is [None] or a well-formed record, and the collections are as
    before. *)
Lemma identify_species_with_h5_returns (env : Env) (image_path : string)
  (w : world) :
  exists result w',
    App.identify_species_with_h5 env image_path w = (Ok result, w')
    /\ match result with Some d => well_formed d = true | None => True end
    /\ store w' = store w.
Proof.
  unfold App.identify_species_with_h5.
  unfold try_except at 1. unfold bind at 1.
  assert (Hstep : exists f w1,
            match model env with
            | Some predict =>
                try_except
                  (result <- App.h5_model_step env predict image_path ;;
                   ret (Return result))
                  (fun _ => ret Continue)
            | None => ret Continue
            end w = (Ok f, w1)
            /\ match f with Return d => well_formed d = true | Continue => True end
            /\ store w1 = store w).
  { destruct (model env) as [predict|].
    - unfold_m.
      destruct (h5_model_step_cases env predict image_path w)
        as [(d & w' & -> & Hwf & Hst)|(e & w' & -> & Hst)].
      + exists (Return d), w'. auto.
      + exists Continue, w'. auto.
    - exists Continue, w. auto. }
  destruct Hstep as (f & w1 & -> & Hf & Hst1).
  destruct f as [d|].
  - exists (Some d), w1. auto.
  - unfold_m. destruct (VISION_API_AVAILABLE env).
    + destruct (vision_total env image_path w1) as (d & w' & -> & Hwf & Hst).
      destruct (getitem d "name").
      * exists (Some d), w'. repeat split; [auto|congruence].
      * exists None, w'. repeat split; congruence.
    + exists None, w1. auto.
Qed.

(** C1. For every image path, whatever the environment (local model loaded
    or not, vision fallback available or not, any of the services raising),
    [identify_species_with_h5] returns: its outcome is never an exception,
    and its result is either [None] or a record that has the twelve fields
    [name], [scientific_name], [confidence], [facts], [endangered_status],
    [fun_fact], [habitat], [diet], [size], [threats], [population_trend]
    and [detection_method]. *)
Theorem identify_species_with_h5_never_raises (env : Env)
  (image_path : string) (w : world) :
  match App.identify_species_with_h5 env image_path w with
  | (Ok None, _) => True
  | (Ok (Some result), _) => well_formed result = true
  | (Raise _, _) => False
  end.
Proof.
  destruct (identify_species_with_h5_returns env image_path w)
    as (result & w' & -> & Hwf & _).
  destruct result; auto.
Qed.

(** ** The local model short-circuits the chain (C2) *)

Lemma Qgtb_true (a b : Q) : (b < a)%Q -> Qgtb a b = true.
Proof.
  intros H. unfold Qgtb. destruct (Qle_bool a b) eqn:E; [|reflexivity].
  apply Qle_bool_iff in E. exfalso. exact (Qlt_not_le _ _ H E).
Qed.

(** C2, as the code has it.  When the local classifier's confidence is
    strictly greater than 85 and the predicted class index is within the
    nine known classes, [identify_species_with_h5] returns a result whose
    [detection_method] is "H5 Model" (the code's label of the local model),
    and the only event of the call is the local prediction: the cloud
    vision fallback is not invoked. *)
Theorem local_model_short_circuits (env : Env)
  (predict : string -> res (list Q)) (image_path : string) (w : world)
  (predictions : list Q) (highest : Q) (index : nat) :
  model env = Some predict ->
  predict image_path = Ok predictions ->
  np_max predictions = Ok highest ->
  np_argmax predictions = Ok index ->
  (85 < highest * 100)%Q ->
  (index < length Species.SPECIES_NAMES)%nat ->
  exists result w',
    App.identify_species_with_h5 env image_path w = (Ok (Some result), w')
    /\ dict_get "detection_method" result = Some (VStr "H5 Model")
    /\ dict_get "confidence" result = Some (VNum (round1 (highest * 100)))
    /\ trace w' = trace w ++ [EvModelPredict image_path]
    /\ store w' = store w.
Proof.
  intros Hmodel Hpredict Hmax Hargmax Hconf Hindex.
  unfold App.identify_species_with_h5, App.h5_model_step.
  rewrite Hmodel. unfold_m. rewrite Hpredict, Hmax, Hargmax.
  rewrite (Qgtb_true _ _ Hconf).
  rewrite (proj2 (Nat.ltb_lt _ _) Hindex). cbn [andb].
  destruct (nth_error Species.SPECIES_NAMES index) as [species_name|] eqn:Hnth.
  - eauto 10.
  - apply nth_error_None in Hnth. lia.
Qed.

Lemma local_model_short_circuits_witness :
  exists result w',
    App.identify_species_with_h5 Scenario.confident_model "reef.jpg"
      Scenario.one_user = (Ok (Some result), w')
    /\ dict_get "detection_method" result = Some (VStr "H5 Model")
    /\ dict_get "confidence" result = Some (VNum (round1 ((92 # 100) * 100)))
    /\ trace w' = trace Scenario.one_user ++ [EvModelPredict "reef.jpg"]
    /\ store w' = store Scenario.one_user.
Proof.
  apply (local_model_short_circuits Scenario.confident_model
           (Scenario.class6 (92 # 100)) "reef.jpg" Scenario.one_user
           [0; 0; 2 # 100; 0; 0; 0; 92 # 100; 3 # 100; 0]%Q (92 # 100) 6).
  - reflexivity.
  - reflexivity.
  - reflexivity.
  - reflexivity.
  - reflexivity.
  - vm_compute. lia.
Defined.

(** At a confidence of exactly 85 and the valid class index 6 the code
    does not answer from the local model: it calls the vision fallback and
    returns that result.  (And at 92 the label of the result is "H5 Model",
    not "local model".) *)
Lemma threshold_counterexample :
  np_max [0; 0; 2 # 100; 0; 0; 0; 85 # 100; 3 # 100; 0]%Q = Ok (85 # 100)
  /\ np_argmax [0; 0; 2 # 100; 0; 0; 0; 85 # 100; 3 # 100; 0]%Q = Ok 6%nat
  /\ (85 <= (85 # 100) * 100)%Q
  /\ match App.identify_species_with_h5 Scenario.boundary_model "reef.jpg"
             Scenario.one_user with
     | (Ok (Some result), w') =>
         dict_get "detection_method" result
         = Some (VStr "Google Cloud Vision API")
         /\ existsb is_vision_event (trace w') = true
     | _ => False
     end
  /\ match App.identify_species_with_h5 Scenario.confident_model "reef.jpg"
             Scenario.one_user with
     | (Ok (Some result), _) =>
         dict_get "detection_method" result <> Some (VStr "local model")
     | _ => False
     end.
Proof.
  split; [reflexivity|]. split; [reflexivity|].
  split; [vm_compute; discriminate|].
  split; vm_compute; [split; reflexivity|discriminate].
Qed.

(** ** A failure of the vision call (C3) *)

Lemma well_formed_has_name (d : dict value) :
  well_formed d = true -> exists v, getitem d "name" = Ok v.
Proof.
  unfold well_formed. simpl. intros H.
  apply andb_prop in H as [H _].
  unfold dict_has in H. unfold getitem, subscript.
  destruct (dict_get "name" d) as [v|]; [eauto|discriminate].
Qed.

(** With the vision module imported and no local model, the pipeline never
    answers [None]: whatever the vision call does, the record that
    [identify_marine_species_with_vision_api] makes of it is the result. *)
Lemma vision_fallback_never_sentinel (env : Env) (image_path : string)
  (w : world) :
  model env = None ->
  VISION_API_AVAILABLE env = true ->
  exists d,
    fst (App.identify_species_with_h5 env image_path w) = Ok (Some d)
    /\ fst (Vision.identify_marine_species_with_vision_api env image_path w)
       = Ok d.
Proof.
  intros Hmodel Havailable.
  unfold App.identify_species_with_h5. rewrite Hmodel, Havailable. unfold_m.
  destruct (vision_total env image_path w) as (d & w' & -> & Hwf & _).
  destruct (well_formed_has_name d Hwf) as (v & ->).
  exists d. split; reflexivity.
Qed.

(** C3, the code at the failing input.  With no local model and a vision
    client that cannot be built, the exception raised inside
    [identify_marine_species_with_vision_api] is turned into a record named
    "Vision API Error" by that function itself; [identify_species_with_h5]
    returns this record instead of [None], and [/predict_web] renders it as
    the identification, with the error text as its facts. *)
Theorem vision_failure_is_shown (image_path : string) (w : world) :
  fst (App.identify_species_with_h5 Scenario.vision_down image_path w)
  = Ok (Some (Vision.vision_api_error
                (Exn "Exception" "Vision API client initialization failed")))
  /\ fst (Handlers.predict_web Scenario.vision_down Scenario.reef_upload
            Scenario.one_user)
     = Ok (Handlers.Render "result.html"
             [ ("species_name", Handlers.ArgValue (VStr "Vision API Error"))
             ; ("scientific_name", Handlers.ArgValue (VStr "Unknown"))
             ; ("facts", Handlers.ArgValue (VStr "Google Cloud Vision API error: Vision API client initialization failed"))
             ; ("status", Handlers.ArgValue (VStr "Unknown"))
             ; ("fun_fact", Handlers.ArgValue (VStr "Please try again or check your Vision API credentials."))
             ; ("image_filename", Handlers.ArgValue (VStr "20240101_120000_reef.jpg"))
             ; ("confidence", Handlers.ArgValue (VNum 0))
             ; ("habitat", Handlers.ArgValue (VStr "Unknown"))
             ; ("diet", Handlers.ArgValue (VStr "Unknown"))
             ; ("size", Handlers.ArgValue (VStr "Unknown"))
             ; ("threats", Handlers.ArgValue (VStr "Unknown"))
             ; ("population_trend", Handlers.ArgValue (VStr "Unknown"))
             ; ("model_type", Handlers.ArgValue (VStr "ResNet50V2 Model")) ]).
Proof. split; reflexivity. Qed.

(** ** No identification (C4) *)

Lemma nothing_available_sentinel (env : Env) (image_path : string)
  (w : world) :
  model env = None ->
  VISION_API_AVAILABLE env = false ->
  App.identify_species_with_h5 env image_path w = (Ok None, w).
Proof.
  intros Hmodel Hvision. unfold App.identify_species_with_h5.
  rewrite Hmodel, Hvision. reflexivity.
Qed.

(** With neither the local model nor the vision module, a request to either
    endpoint leaves the three collections as they were. *)
Lemma sentinel_stores_nothing (env : Env)
  (request : Handlers.UploadRequest) (w : world) :
  model env = None ->
  VISION_API_AVAILABLE env = false ->
  store (snd (Handlers.predict env request w)) = store w
  /\ store (snd (Handlers.predict_web env request w)) = store w.
Proof.
  intros Hmodel Hvision. split.
  - unfold Handlers.predict.
    destruct (Handlers.session_user_id request) as [user_id|]; [|reflexivity].
    unfold try_except at 1.
    destruct (Handlers.file request) as [[|c name]|];
      [reflexivity| |reflexivity].
    destruct (negb _); [reflexivity|].
    unfold Handlers.stored_name, Models.utcnow, Models.User_find_by_id.
    unfold_m.
    cbn [users_collection uploads_collection global_stats_collection
         next_object_id clock trace].
    destruct (List.find _ (users_collection w)) as [user|]; [|reflexivity].
    rewrite nothing_available_sentinel by assumption. reflexivity.
  - unfold Handlers.predict_web.
    destruct (Handlers.session_user_id request) as [user_id|]; [|reflexivity].
    unfold try_except at 1.
    destruct (Handlers.file request) as [[|c name]|];
      [reflexivity| |reflexivity].
    destruct (negb _); [reflexivity|].
    unfold Handlers.stored_name, Models.utcnow, Models.User_find_by_id,
      Handlers.optional_float, Handlers.flash.
    unfold_m.
    cbn [users_collection uploads_collection global_stats_collection
         next_object_id clock trace].
    destruct (List.find _ (users_collection w)) as [user|]; [|reflexivity].
    destruct (Models.truthy_str (Handlers.form_latitude request)),
      (Handlers.form_latitude request) as [lat|];
      try destruct (float env lat); try reflexivity;
      destruct (Models.truthy_str (Handlers.form_longitude request)),
        (Handlers.form_longitude request) as [lng|];
      try destruct (float env lng); try reflexivity;
      rewrite nothing_available_sentinel by assumption; reflexivity.
Qed.

(** C4, the code at the failing inputs.  With neither the local model nor
    the vision module available the pipeline returns [None] and [/predict]
    stores nothing, but its answer is the error of status 500: building the
    JSON reads [user.id], an attribute the [User] class does not have.
    [/predict_web] does redirect, without a message.
    With a vision client that fails, [/predict] and [/predict_web] each
    store an upload named "Vision API Error", and [/predict_web] refreshes
    the statistics. *)
Theorem predict_without_identification :
  Handlers.predict Scenario.nothing_available Scenario.reef_upload
    Scenario.one_user
  = (Ok (Handlers.error_json 500
           "Server error: 'User' object has no attribute 'id'"),
     mkWorld [Scenario.alice] [] [] 3%N 100%Z
             [EvSaveFile "uploads/20240101_120000_reef.jpg"])
  /\ fst (App.identify_species_with_h5 Scenario.nothing_available
            "uploads/20240101_120000_reef.jpg" Scenario.one_user) = Ok None
  /\ Handlers.predict_web Scenario.nothing_available Scenario.reef_upload
       Scenario.one_user
     = (Ok (Handlers.Redirect "dashboard"),
        mkWorld [Scenario.alice] [] [] 3%N 100%Z
                [EvSaveFile "uploads/20240101_120000_reef.jpg"])
  /\ uploads_collection
       (snd (Handlers.predict Scenario.vision_down Scenario.reef_upload
               Scenario.one_user))
     = [mkUpload 3%N "20240101_120000_reef.jpg" (VStr "Vision API Error")
                 (VNum 0) 1%N None None 100%Z]
  /\ store (snd (Handlers.predict_web Scenario.vision_down Scenario.reef_upload
                   Scenario.one_user))
     = ([Scenario.alice],
        [mkUpload 3%N "20240101_120000_reef.jpg" (VStr "Vision API Error")
                  (VNum 0) 1%N None None 100%Z],
        [mkGlobalStats 4%N 1 1 1 100%Z]).
Proof. repeat split; vm_compute; reflexivity. Qed.

(** ** A real result (C5) *)

(** Whatever the request and the services, [/predict] leaves the statistics
    collection (and the users) as they were. *)
Lemma predict_never_updates_stats (env : Env)
  (request : Handlers.UploadRequest) (w : world) :
  global_stats_collection (snd (Handlers.predict env request w))
  = global_stats_collection w
  /\ users_collection (snd (Handlers.predict env request w))
     = users_collection w.
Proof.
  unfold Handlers.predict.
  destruct (Handlers.session_user_id request) as [user_id|];
    [|split; reflexivity].
  unfold try_except at 1.
  destruct (Handlers.file request) as [[|c name]|];
    [split; reflexivity| |split; reflexivity].
  destruct (negb _); [split; reflexivity|].
  unfold Handlers.stored_name, Models.utcnow, Models.User_find_by_id. unfold_m.
  cbn [users_collection uploads_collection global_stats_collection
       next_object_id clock trace].
  destruct (List.find _ (users_collection w)) as [user|]; [|split; reflexivity].
  match goal with
  | |- context [App.identify_species_with_h5 env ?p ?w1] =>
      destruct (identify_species_with_h5_returns env p w1)
        as (result & w' & -> & _ & Hst)
  end.
  injection Hst as Hu _ Hg. simpl in Hu, Hg.
  destruct result as [animal_data|]; [|simpl; auto].
  unfold Models.Upload_init, Models.Upload_save, Models.new_object_id,
    Models.utcnow.
  unfold_m.
  repeat (match goal with
          | |- context [getitem animal_data ?k] => destruct (getitem animal_data k)
          end; simpl; auto).
Qed.

(** C5, the code at the failing input.  The local model sees class 6 at
    92%.  [/predict] stores the upload ("Sharks", 92.0, owned by the
    requesting user) and leaves the statistics collection as it was, here
    empty; [/predict_web] on the same request stores the same upload and
    writes the statistics record. *)
Theorem predict_leaves_stats_stale :
  store (snd (Handlers.predict Scenario.confident_model Scenario.reef_upload
                Scenario.one_user))
  = ([Scenario.alice],
     [mkUpload 3%N "20240101_120000_reef.jpg" (VStr "Sharks")
               (VNum (round1 (92 # 1))) 1%N None None 100%Z],
     [])
  /\ store (snd (Handlers.predict_web Scenario.confident_model
                   Scenario.reef_upload Scenario.one_user))
     = ([Scenario.alice],
        [mkUpload 3%N "20240101_120000_reef.jpg" (VStr "Sharks")
                  (VNum (round1 (92 # 1))) 1%N None None 100%Z],
        [mkGlobalStats 4%N 1 1 1 100%Z]).
Proof. split; vm_compute; reflexivity. Qed.

(** ** Lookup in the species reference table (C6) *)

Lemma find_entry_normalize (items : dict (dict string)) (a b : string) :
  Species.normalize a = Species.normalize b ->
  Species.find_entry items a = Species.find_entry items b.
Proof.
  intros H. induction items as [|[key details] rest IH]; simpl.
  - reflexivity.
  - rewrite H, IH. reflexivity.
Qed.

Lemma dict_get_set_other {V : Type} (k k' : string) (v : V) (d : dict V) :
  k <> k' -> dict_get k (dict_set k' v d) = dict_get k d.
Proof.
  intros Hne. induction d as [|[k0 v0] rest IH]; simpl.
  - apply String.eqb_neq in Hne. rewrite Hne. reflexivity.
  - destruct (String.eqb k' k0) eqn:E; simpl.
    + apply String.eqb_eq in E. subst k0.
      apply String.eqb_neq in Hne. rewrite Hne. reflexivity.
    + rewrite IH. reflexivity.
Qed.

(** "Angelfish" and "angelfish" are equal after case folding, and the two
    lookups return different records: the entry has no [name] of its own,
    so each record carries the spelling of its caller. *)
Lemma get_animal_details_counterexample :
  Species.normalize "Angelfish" = Species.normalize "angelfish"
  /\ Species.get_animal_details "Angelfish"
     <> Species.get_animal_details "angelfish".
Proof.
  split; [reflexivity|]. vm_compute. discriminate.
Qed.

(** C6, as the code has it.  For two names that are equal after lower-casing
    and replacing underscores by spaces, [get_animal_details] selects the
    same entry of the table, and the two records agree on every field other
    than [name] and [facts].  When an entry is selected they agree on
    [facts] too, and when that entry has a [name] of its own (as "sea
    turtle" has) the two records are the same. *)
Theorem get_animal_details_insensitive (a b : string) :
  Species.normalize a = Species.normalize b ->
  Species.find_entry Species.animal_database a
  = Species.find_entry Species.animal_database b
  /\ (forall k, k <> "name" -> k <> "facts" ->
      dict_get k (Species.get_animal_details a)
      = dict_get k (Species.get_animal_details b))
  /\ match Species.find_entry Species.animal_database a with
     | Some details =>
         (forall k, k <> "name" ->
          dict_get k (Species.get_animal_details a)
          = dict_get k (Species.get_animal_details b))
         /\ (dict_has "name" details = true ->
             Species.get_animal_details a = Species.get_animal_details b)
     | None => True
     end.
Proof.
  intros H.
  pose proof (find_entry_normalize Species.animal_database a b H) as Hsame.
  unfold Species.get_animal_details. rewrite <- Hsame.
  destruct (Species.find_entry Species.animal_database a) as [details|].
  - destruct (dict_has "name" details) eqn:Hname.
    + repeat split; auto.
    + repeat split; try discriminate; intros; rewrite !dict_get_set_other; auto.
  - repeat split; auto. intros k Hn Hf.
    unfold Species.default_details. simpl.
    apply String.eqb_neq in Hn, Hf. rewrite Hn, Hf. reflexivity.
Qed.

Lemma get_animal_details_insensitive_witness :
  Species.get_animal_details "Sea_Turtle" = Species.get_animal_details "sea turtle"
  /\ Species.get_animal_details "Sea Turtle" = Species.get_animal_details "sea turtle".
Proof.
  split.
  - destruct (get_animal_details_insensitive "Sea_Turtle" "sea turtle")
      as (_ & _ & H); [reflexivity|].
    vm_compute in H. apply H. reflexivity.
  - destruct (get_animal_details_insensitive "Sea Turtle" "sea turtle")
      as (_ & _ & H); [reflexivity|].
    vm_compute in H. apply H. reflexivity.
Defined.

(** ** Locations of a species (C7) *)

(** C7, the code at the failing input.  Of three dolphin uploads, one at
    latitude 0 and longitude -140, one at 30 and -40 and one without a
    location, [/api/species_locations] lists the second only: the filter
    [u.latitude and u.longitude] takes the coordinate 0 for an absent one. *)
Theorem species_locations_drops_zero_coordinates :
  fst (Handlers.species_locations Scenario.nothing_available (Some "Dolphin")
         Scenario.sightings)
  = Ok (Handlers.Json 200 (VList
          [ VDict [ ("lat", VNum (30 # 1)); ("lng", VNum (-40 # 1))
                  ; ("species", VStr "Dolphin")
                  ; ("timestamp", VStr "2024-01-01T12:00:00") ] ]))
  /\ latitude Scenario.on_equator = Some 0%Q
  /\ longitude Scenario.on_equator = Some (-140 # 1)%Q
  /\ species_name Scenario.on_equator = VStr "Dolphin"
  /\ In Scenario.on_equator (uploads_collection Scenario.sightings).
Proof. repeat split; try reflexivity. left; reflexivity. Qed.

(** ** Registration (C8) *)

Lemma field_eqb_refl (a : option string) : Models.field_eqb a a = true.
Proof. destruct a; simpl; auto using String.eqb_refl. Qed.

(** C8. A registration whose username or whose email is that of a user
    already in the store is rejected: the form is rendered again with an
    error message, and the world after the request is the world before it
    with that one message flashed -- the three collections are untouched. *)
Theorem register_rejects_taken (env : Env)
  (request : Handlers.RegisterRequest) (w : world) (existing : User) :
  Handlers.method request = "POST" ->
  In existing (users_collection w) ->
  username existing = Handlers.form_username request
  \/ email existing = Handlers.form_email request ->
  exists message,
    Handlers.register env request w
    = (Ok (Handlers.Render "register.html" []),
       mkWorld (users_collection w) (uploads_collection w)
               (global_stats_collection w) (next_object_id w) (clock w)
               (trace w ++ [EvFlash message "error"])).
Proof.
  intros Hmethod Hin Htaken.
  unfold Handlers.register. rewrite Hmethod, String.eqb_refl.
  unfold Models.User_find_by_username, Models.User_find_by_email, Handlers.flash.
  unfold_m.
  destruct (List.find _ (users_collection w)) as [u|] eqn:Hname.
  - eauto.
  - destruct (List.find
                (fun u => Models.field_eqb (email u) (Handlers.form_email request))
                (users_collection w)) as [u|] eqn:Hemail.
    + eauto.
    + exfalso.
      pose proof (find_none _ _ Hname existing Hin) as H1.
      pose proof (find_none _ _ Hemail existing Hin) as H2.
      simpl in H1, H2.
      destruct Htaken as [E|E]; rewrite E, field_eqb_refl in *; discriminate.
Qed.

Lemma register_rejects_taken_witness :
  exists message,
    Handlers.register Scenario.nothing_available Scenario.duplicate_name
      Scenario.one_user
    = (Ok (Handlers.Render "register.html" []),
       mkWorld [Scenario.alice] [] [] 3%N 100%Z [EvFlash message "error"]).
Proof.
  apply (register_rejects_taken Scenario.nothing_available
           Scenario.duplicate_name Scenario.one_user Scenario.alice).
  - reflexivity.
  - left. reflexivity.
  - left. reflexivity.
Defined.

(** ** User names of federated accounts (C9) *)

Lemma length_append (s t : string) :
  String.length (s +:+ t) = (String.length s + String.length t)%nat.
Proof.
  induction s as [|c s IH]; simpl; [reflexivity|]. rewrite IH. reflexivity.
Qed.

Lemma field_eqb_eq (a b : option string) :
  Models.field_eqb a b = true <-> a = b.
Proof.
  destruct a as [x|], b as [y|]; simpl; split; intros H;
    try discriminate; try reflexivity.
  - apply String.eqb_eq in H. congruence.
  - injection H as ->. apply String.eqb_refl.
Qed.

Lemma find_by_username_taken (w : world) (name : string) :
  (exists u, Models.User_find_by_username (Some name) w = (Ok (Some u), w)
             /\ taken w name)
  \/ (Models.User_find_by_username (Some name) w = (Ok None, w)
      /\ ~ taken w name).
Proof.
  unfold Models.User_find_by_username, gets, taken.
  destruct (List.find _ (users_collection w)) as [u|] eqn:Hfind.
  - left. exists u. split; [reflexivity|].
    apply find_some in Hfind as [Hin Heq]. apply field_eqb_eq in Heq.
    rewrite <- Heq. apply in_map. exact Hin.
  - right. split; [reflexivity|]. intros Hin.
    apply in_map_iff in Hin as (u & Hu & Hin).
    pose proof (find_none _ _ Hfind u Hin) as Hne. simpl in Hne.
    rewrite Hu in Hne. rewrite (proj2 (field_eqb_eq _ _) eq_refl) in Hne.
    discriminate.
Qed.

(** Candidates that differ from one another and are all taken are no more
    than the users. *)
Lemma taken_candidates_bounded (w : world) (candidate : nat -> string)
  (i : nat) :
  (forall j k, candidate j = candidate k -> j = k) ->
  (forall j, (j < i)%nat -> taken w (candidate j)) ->
  (i <= length (users_collection w))%nat.
Proof.
  intros Hinj Htaken.
  assert (H : (length (map (fun j => Some (candidate j)) (seq 0 i))
               <= length (map username (users_collection w)))%nat);
    [|rewrite !List.length_map, List.length_seq in H; exact H].
  apply NoDup_incl_length.
  - apply Finite.Injective_map_NoDup; [|apply seq_NoDup].
    intros j k [= H]. auto.
  - intros x Hx. apply in_map_iff in Hx as (j & <- & Hj).
    apply in_seq in Hj. apply Htaken. lia.
Qed.

Lemma firebase_candidate_inj (base_username : string) (j k : nat) :
  firebase_candidate base_username j = firebase_candidate base_username k ->
  j = k.
Proof.
  destruct j as [|j], k as [|k]; simpl; intros H.
  - reflexivity.
  - apply (f_equal String.length) in H. rewrite length_append in H.
    simpl in H. lia.
  - apply (f_equal String.length) in H. rewrite length_append in H.
    simpl in H. lia.
  - apply String.app_inj in H. injection H as H.
    unfold Str.of_nat in H. apply (inj (pretty : nat -> string)). exact H.
Qed.

Lemma google_candidate_length (base_username : string) (j k : nat) :
  (j < k)%nat ->
  (String.length (google_candidate base_username j)
   < String.length (google_candidate base_username k))%nat.
Proof.
  induction 1 as [|k _ IH]; simpl; rewrite length_append; simpl; lia.
Qed.

Lemma google_candidate_inj (base_username : string) (j k : nat) :
  google_candidate base_username j = google_candidate base_username k ->
  j = k.
Proof.
  intros H. apply (f_equal String.length) in H.
  destruct (Nat.lt_trichotomy j k) as [Hlt|[Heq|Hgt]]; [|exact Heq|].
  - pose proof (google_candidate_length base_username j k Hlt). lia.
  - pose proof (google_candidate_length base_username k j Hgt). lia.
Qed.

Lemma firebase_username_loop (w : world) (base_username : string)
  (fuel i : nat) :
  (forall j, (j < i)%nat -> taken w (firebase_candidate base_username j)) ->
  (length (users_collection w) < fuel + i)%nat ->
  exists k,
    Handlers.firebase_username fuel base_username
      (firebase_candidate base_username i) (S i) w
    = (Ok (firebase_candidate base_username k), w)
    /\ ~ taken w (firebase_candidate base_username k)
    /\ forall j, (j < k)%nat -> taken w (firebase_candidate base_username j).
Proof.
  revert i. induction fuel as [|fuel IH]; intros i Htaken Hfuel.
  - pose proof (taken_candidates_bounded w _ i
                  (firebase_candidate_inj base_username) Htaken). lia.
  - simpl. unfold bind.
    destruct (find_by_username_taken w (firebase_candidate base_username i))
      as [(u & -> & Hi)|[-> Hi]].
    + apply (IH (S i)); [|lia].
      intros j Hj. destruct (Nat.eq_dec j i) as [->|]; [exact Hi|].
      apply Htaken. lia.
    + exists i. auto.
Qed.

Lemma google_username_loop (w : world) (base_username : string)
  (fuel i : nat) :
  (forall j, (j < i)%nat -> taken w (google_candidate base_username j)) ->
  (length (users_collection w) < fuel + i)%nat ->
  exists k,
    Handlers.google_username fuel (google_candidate base_username i) (S i) w
    = (Ok (google_candidate base_username k), w)
    /\ ~ taken w (google_candidate base_username k)
    /\ forall j, (j < k)%nat -> taken w (google_candidate base_username j).
Proof.
  revert i. induction fuel as [|fuel IH]; intros i Htaken Hfuel.
  - pose proof (taken_candidates_bounded w _ i
                  (google_candidate_inj base_username) Htaken). lia.
  - simpl. unfold bind.
    destruct (find_by_username_taken w (google_candidate base_username i))
      as [(u & -> & Hi)|[-> Hi]].
    + apply (IH (S i)); [|lia].
      intros j Hj. destruct (Nat.eq_dec j i) as [->|]; [exact Hi|].
      apply Htaken. lia.
    + exists i. auto.
Qed.

(** The loop of [firebase_login] ends within the fuel the handler gives it,
    in any store: it returns the first of [base], [base_1], [base_2], ...
    that no user has -- the base name, or the base name with one numeric
    suffix. *)
Lemma firebase_username_ends (w : world) (base_username : string) :
  exists k,
    Handlers.firebase_username (S (length (users_collection w)))
      base_username base_username 1 w
    = (Ok (firebase_candidate base_username k), w)
    /\ ~ taken w (firebase_candidate base_username k)
    /\ forall j, (j < k)%nat -> taken w (firebase_candidate base_username j).
Proof.
  apply (firebase_username_loop w base_username _ 0); [|lia].
  intros j Hj. lia.
Qed.

(** The loop of [google_callback] ends within its fuel too, and its name is
    free; but it is the first free one of [base], [base_1], [base_1_2],
    [base_1_2_3], ... *)
Lemma google_username_ends (w : world) (base_username : string) :
  exists k,
    Handlers.google_username (S (length (users_collection w)))
      base_username 1 w
    = (Ok (google_candidate base_username k), w)
    /\ ~ taken w (google_candidate base_username k)
    /\ forall j, (j < k)%nat -> taken w (google_candidate base_username j).
Proof.
  apply (google_username_loop w base_username _ 0); [|lia].
  intros j Hj. lia.
Qed.




(** The loop of [google_callback] itself, were it to run in a store with the
    users "Alice" and "Alice_1", would name a third Alice "Alice_1_2". *)
Remark google_username_would_stack_suffixes :
  fst (Handlers.google_username 3 "Alice" 1 Scenario.two_users) = Ok "Alice_1_2".
Proof. vm_compute. reflexivity. Qed.

(** ** Upload history (C10) *)

#[global] Instance newest_first_total : Total Models.newest_first.
Proof. intros a b. unfold Models.newest_first. lia. Qed.

#[global] Instance newest_first_transitive : Transitive Models.newest_first.
Proof. intros a b c. unfold Models.newest_first. lia. Qed.



(** * Further properties *)

(** ** Upload file names *)

Lemma after_last_dot_no_dot (s : string) :
  has_char "." s = false -> Str.after_last_dot s = None.
Proof.
  induction s as [|c s IH]; cbn [has_char Str.after_last_dot]; [reflexivity|].
  intros H. apply orb_false_elim in H as [Hc Hs].
  rewrite (IH Hs), Hc. reflexivity.
Qed.

Lemma after_last_dot_append (stem ext : string) :
  has_char "." ext = false ->
  Str.after_last_dot (stem +:+ "." +:+ ext) = Some ext.
Proof.
  intros H. induction stem as [|c stem IH].
  - change ("" +:+ "." +:+ ext) with (String "." ext).
    cbn [Str.after_last_dot]. rewrite (after_last_dot_no_dot ext H). reflexivity.
  - change (String c stem +:+ "." +:+ ext) with (String c (stem +:+ "." +:+ ext)).
    cbn [Str.after_last_dot]. rewrite IH. reflexivity.
Qed.

(** X1. A file name without a dot is refused, and a file name with a dot is
    judged by what follows its last dot alone, lower-cased: it is allowed
    exactly when that extension is one of png, jpg, jpeg, gif, bmp, webp. *)
Theorem allowed_file_by_last_extension (stem ext : string) :
  has_char "." ext = false ->
  App.allowed_file ext = false
  /\ App.allowed_file (stem +:+ "." +:+ ext)
     = existsb (String.eqb (Str.lower ext)) App.ALLOWED_EXTENSIONS.
Proof.
  intros H. unfold App.allowed_file.
  rewrite (after_last_dot_no_dot ext H), (after_last_dot_append stem ext H).
  split; reflexivity.
Qed.

Lemma allowed_file_by_last_extension_witness :
  App.allowed_file "JPG" = false
  /\ App.allowed_file ("reef.final" +:+ "." +:+ "JPG")
     = existsb (String.eqb (Str.lower "JPG")) App.ALLOWED_EXTENSIONS.
Proof.
  apply (allowed_file_by_last_extension "reef.final" "JPG"). reflexivity.
Defined.

(** ** Records of the species table *)

Lemma find_entry_in (items : dict (dict string)) (a : string) (details : dict string) :
  Species.find_entry items a = Some details -> In details (map snd items).
Proof.
  induction items as [|[key d] rest IH]; simpl; [discriminate|].
  destruct (String.eqb _ _); [intros [= ->]; auto|auto].
Qed.

Lemma animal_database_complete :
  forallb (fun details =>
             forallb (fun k => dict_has k details) (tl DETAIL_FIELDS))
          (map snd Species.animal_database) = true.
Proof. vm_compute. reflexivity. Qed.

Lemma dict_has_set {V : Type} (k k' : string) (v : V) (d : dict V) :
  dict_has k (dict_set k' v d) = String.eqb k k' || dict_has k d.
Proof.
  unfold dict_has.
  induction d as [|[k0 v0] rest IH]; simpl.
  - destruct (String.eqb k k'); reflexivity.
  - destruct (String.eqb k' k0) eqn:E; simpl.
    + apply String.eqb_eq in E. subst k0.
      destruct (String.eqb k k'); reflexivity.
    + destruct (String.eqb k k0) eqn:E0; simpl.
      * rewrite orb_true_r. reflexivity.
      * exact IH.
Qed.

(** X2. Whatever the name, known or not, the record [get_animal_details]
    returns has all ten fields: [name], [scientific_name], [facts],
    [endangered_status], [fun_fact], [habitat], [diet], [size], [threats]
    and [population_trend]. *)
Theorem get_animal_details_complete (animal_name : string) :
  forallb (fun k => dict_has k (Species.get_animal_details animal_name))
          DETAIL_FIELDS = true.
Proof.
  unfold Species.get_animal_details.
  destruct (Species.find_entry Species.animal_database animal_name)
    as [details|] eqn:Hfind.
  - apply find_entry_in in Hfind.
    pose proof animal_database_complete as Hall.
    rewrite forallb_forall in Hall. specialize (Hall details Hfind).
    destruct (dict_has "name" details) eqn:Hname.
    + change DETAIL_FIELDS with ("name" :: tl DETAIL_FIELDS).
      cbn [forallb]. rewrite Hname, Hall. reflexivity.
    + apply forallb_forall. intros k Hk.
      rewrite dict_has_set.
      destruct Hk as [<-|Hk]; [reflexivity|].
      rewrite forallb_forall in Hall. rewrite (Hall k Hk). apply orb_true_r.
  - reflexivity.
Qed.

(** ** The scan of the vision labels *)

Lemma Qgtb_lt (a b : Q) : Qgtb a b = true -> (b < a)%Q.
Proof.
  unfold Qgtb. intros H. apply negb_true_iff in H.
  apply Qnot_le_lt. intros Hle. apply Qle_bool_iff in Hle. congruence.
Qed.

Lemma Qgtb_le (a b : Q) : Qgtb a b = false -> (a <= b)%Q.
Proof.
  unfold Qgtb. intros H. apply negb_false_iff in H.
  apply Qle_bool_iff. exact H.
Qed.

Lemma Qgtb_irrefl (a : Q) : Qgtb a a = false.
Proof.
  unfold Qgtb. apply negb_false_iff. apply Qle_bool_iff. apply Qle_refl.
Qed.

Lemma scan_keywords_spec (keywords : list string) (species obj_name : string)
  (confidence : Q) (st : option string * Q) :
  Vision.scan_keywords keywords species obj_name confidence st
  = if existsb (fun keyword => Str.contains (Str.lower keyword) (Str.lower obj_name))
               keywords
    then (if Qgtb confidence (snd st) then (Some species, confidence) else st)
    else st.
Proof.
  induction keywords as [|keyword rest IH]; simpl; [reflexivity|].
  destruct (Str.contains _ _); simpl; [reflexivity|exact IH].
Qed.

Lemma scan_items_spec (items : dict (list string)) (obj : LocalizedObject)
  (st : option string * Q) :
  fold_left
    (fun st item =>
       Vision.scan_keywords (snd item) (fst item) (object_name obj) (object_score obj) st)
    items st
  = if Qgtb (object_score obj) (snd st)
    then match List.find (names_species obj) items with
         | Some item => (Some (fst item), object_score obj)
         | None => st
         end
    else st.
Proof.
  revert st. induction items as [|item rest IH]; intros st.
  - simpl. destruct (Qgtb _ _); reflexivity.
  - cbn [fold_left List.find]. rewrite scan_keywords_spec.
    fold (names_species obj item).
    destruct (names_species obj item).
    + destruct (Qgtb (object_score obj) (snd st)) eqn:Hgt.
      * rewrite IH. cbn [snd]. rewrite Qgtb_irrefl. reflexivity.
      * rewrite IH, Hgt. reflexivity.
    + apply IH.
Qed.

Lemma scan_invariant_nonneg seen st : scan_invariant seen st -> (0 <= snd st)%Q.
Proof.
  intros [_ H]. destruct (fst st).
  - apply Qlt_le_weak. apply H.
  - rewrite H. apply Qle_refl.
Qed.

Lemma scan_species_invariant (seen : list LocalizedObject) (obj : LocalizedObject)
  (st : option string * Q) :
  scan_invariant seen st -> scan_invariant (seen ++ [obj]) (Vision.scan_species obj st).
Proof.
  intros Hinv. pose proof (scan_invariant_nonneg _ _ Hinv) as Hnn.
  destruct Hinv as [Hmax Hbest].
  unfold Vision.scan_species. rewrite scan_items_spec.
  destruct (Qgtb (object_score obj) (snd st)) eqn:Hgt.
  - apply Qgtb_lt in Hgt.
    destruct (List.find (names_species obj) Vision.marine_keywords) as [item|] eqn:Hfind.
    + apply find_some in Hfind as [Hitem Hnames].
      split; cbn [fst snd].
      * intros o Ho Hrec. apply in_app_or in Ho as [Ho|[<-|[]]].
        -- apply Qle_trans with (snd st); [auto|apply Qlt_le_weak; exact Hgt].
        -- apply Qle_refl.
      * split; [apply Qle_lt_trans with (snd st); assumption|].
        exists obj, item. repeat split; auto. apply in_or_app. right. left. reflexivity.
    + split.
      * intros o Ho Hrec. apply in_app_or in Ho as [Ho|[<-|[]]]; [auto|].
        unfold recognised in Hrec. apply existsb_exists in Hrec as (item & Hitem & Hn).
        pose proof (find_none _ _ Hfind item Hitem). congruence.
      * destruct (fst st); [|exact Hbest].
        destruct Hbest as (Hpos & o & item & Ho & Hrest).
        split; [exact Hpos|]. exists o, item. split; [apply in_or_app; auto|exact Hrest].
  - apply Qgtb_le in Hgt. split.
    + intros o Ho Hrec. apply in_app_or in Ho as [Ho|[<-|[]]]; auto.
    + destruct (fst st); [|exact Hbest].
      destruct Hbest as (Hpos & o & item & Ho & Hrest).
      split; [exact Hpos|]. exists o, item. split; [apply in_or_app; auto|exact Hrest].
Qed.

Lemma scan_objects_invariant (objects seen : list LocalizedObject)
  (st : option string * Q) :
  scan_invariant seen st ->
  scan_invariant (seen ++ objects)
    (fold_left (fun st obj => Vision.scan_species obj st) objects st).
Proof.
  revert seen st. induction objects as [|obj rest IH]; intros seen st Hinv.
  - rewrite app_nil_r. exact Hinv.
  - cbn [fold_left].
    replace (seen ++ obj :: rest) with ((seen ++ [obj]) ++ rest)
      by (rewrite <- app_assoc; reflexivity).
    apply IH. apply scan_species_invariant. exact Hinv.
Qed.

(** X3. The scan of the vision labels returns the highest score among the
    objects whose name contains a keyword of some species: no such object
    scores higher than the result.  When a species is returned, the score
    is positive and is that of an object naming that species; when none is
    returned, the score is 0. *)
Theorem scan_objects_picks_highest (objects : list LocalizedObject) :
  (forall obj, In obj objects -> recognised obj = true ->
     (object_score obj <= snd (Vision.scan_objects objects))%Q)
  /\ match fst (Vision.scan_objects objects) with
     | None => snd (Vision.scan_objects objects) = 0%Q
     | Some species =>
         (0 < snd (Vision.scan_objects objects))%Q
         /\ exists obj item,
              In obj objects /\ In item Vision.marine_keywords
              /\ fst item = species /\ names_species obj item = true
              /\ object_score obj = snd (Vision.scan_objects objects)
     end.
Proof.
  apply (scan_objects_invariant objects [] (None, 0%Q)).
  split; [intros obj []|reflexivity].
Qed.



(** ** The vision fallback and the enrichment *)

(** X4. [identify_marine_species_with_vision_api] never raises and never
    touches the collections.  Its record has the twelve fields, and either
    its [detection_method] is "Google Cloud Vision API", or it is the error
    record: [detection_method] "Google Cloud Vision API (Error)", [name]
    "Vision API Error" and [confidence] 0. *)
Theorem vision_api_result_shape (env : Env) (image_path : string) (w : world) :
  match Vision.identify_marine_species_with_vision_api env image_path w with
  | (Ok d, w') =>
      well_formed d = true
      /\ store w' = store w
      /\ (dict_get "detection_method" d = Some (VStr "Google Cloud Vision API")
          \/ (dict_get "detection_method" d
              = Some (VStr "Google Cloud Vision API (Error)")
              /\ dict_get "name" d = Some (VStr "Vision API Error")
              /\ dict_get "confidence" d = Some (VNum 0)))
  | (Raise _, _) => False
  end.
Proof.
  unfold Vision.identify_marine_species_with_vision_api,
    Vision.get_species_details_from_gemini.
  unfold_m.
  destruct (setup_vision_client env) as [annotate|]; [|cbn; auto 10].
  destruct (annotate image_path) as [response|e]; [|cbn; auto 10].
  destruct (negb _); [cbn; auto 10|].
  destruct (Vision.scan_objects _) as [[[|c s]|] hc]; [cbn; auto 10| |cbn; auto 10].
  destruct (gemini_model env) as [generate|]; [|cbn; auto 10].
  cbn.
  destruct (generate _) as [v|e]; [|cbn; auto 10].
  repeat (match goal with
          | |- context [subscript v ?k] => destruct (subscript v k)
          end; [|cbn; auto 10]).
  cbn. auto 10.
Qed.

(** X5. When the vision service recognises a species and the generative
    service is not configured or raises, the identification stands: the
    record is named after the species, carries the vision score as a
    percentage rounded to one decimal, is labelled "Google Cloud Vision
    API", and its descriptive fields are the placeholders (scientific name
    "Unknown"). *)
Theorem gemini_failure_is_absorbed (env : Env) (image_path : string) (w : world)
  (annotate_image : string -> res AnnotateResponse) (response : AnnotateResponse)
  (best : string) (highest : Q) :
  setup_vision_client env = Some annotate_image ->
  annotate_image image_path = Ok response ->
  error_message response = "" ->
  Vision.scan_objects (localized_object_annotations response) = (Some best, highest) ->
  best <> "" ->
  match gemini_model env with
  | None => True
  | Some generate_content =>
      exists e, generate_content (Str.title (Str.replace_underscore best)) = Raise e
  end ->
  exists d,
    fst (Vision.identify_marine_species_with_vision_api env image_path w) = Ok d
    /\ well_formed d = true
    /\ dict_get "name" d = Some (VStr (Str.title (Str.replace_underscore best)))
    /\ dict_get "confidence" d = Some (VNum (round1 (highest * 100)))
    /\ dict_get "scientific_name" d = Some (VStr "Unknown")
    /\ dict_get "detection_method" d = Some (VStr "Google Cloud Vision API").
Proof.
  intros Hclient Hannotate Herror Hscan Hbest Hgemini.
  unfold Vision.identify_marine_species_with_vision_api,
    Vision.get_species_details_from_gemini.
  unfold_m. rewrite Hclient, Hannotate, Herror, Hscan. cbn [negb String.eqb].
  destruct best as [|c s]; [congruence|].
  destruct (gemini_model env) as [generate|].
  - destruct Hgemini as (e & ->). cbn. eauto 10.
  - cbn. eauto 10.
Qed.

Lemma gemini_failure_is_absorbed_witness :
  exists d,
    fst (Vision.identify_marine_species_with_vision_api
           Scenario2.shark_without_gemini "reef.jpg" Scenario.one_user) = Ok d
    /\ well_formed d = true
    /\ dict_get "name" d = Some (VStr (Str.title (Str.replace_underscore "sharks")))
    /\ dict_get "confidence" d = Some (VNum (round1 ((7 # 10) * 100)))
    /\ dict_get "scientific_name" d = Some (VStr "Unknown")
    /\ dict_get "detection_method" d = Some (VStr "Google Cloud Vision API").
Proof.
  apply (gemini_failure_is_absorbed Scenario2.shark_without_gemini "reef.jpg"
           Scenario.one_user Scenario.sees_shark
           (mkResponse [mkObject "Great white shark" (7 # 10)] "")
           "sharks" (7 # 10)).
  - reflexivity.
  - reflexivity.
  - reflexivity.
  - vm_compute. reflexivity.
  - discriminate.
  - exists (Exn "ConnectionError" "service unavailable"). reflexivity.
Defined.

(** X6. When the generative service answers with JSON that lacks one of the
    nine fields asked of it (or that is not an object), the species the
    vision service recognised is lost: the result is the "Vision API Error"
    record. *)
Theorem incomplete_gemini_reply_is_an_error (env : Env) (image_path : string)
  (w : world) (annotate_image : string -> res AnnotateResponse)
  (response : AnnotateResponse) (best : string) (highest : Q)
  (generate_content : string -> res value) (species_info : value) :
  setup_vision_client env = Some annotate_image ->
  annotate_image image_path = Ok response ->
  error_message response = "" ->
  Vision.scan_objects (localized_object_annotations response) = (Some best, highest) ->
  best <> "" ->
  gemini_model env = Some generate_content ->
  generate_content (Str.title (Str.replace_underscore best)) = Ok species_info ->
  forallb (has_item species_info) GEMINI_FIELDS = false ->
  exists e,
    fst (Vision.identify_marine_species_with_vision_api env image_path w)
    = Ok (Vision.vision_api_error e).
Proof.
  intros Hclient Hannotate Herror Hscan Hbest Hgemini Hreply Hlacks.
  unfold Vision.identify_marine_species_with_vision_api,
    Vision.get_species_details_from_gemini.
  unfold_m. rewrite Hclient, Hannotate, Herror, Hscan. cbn [negb String.eqb].
  destruct best as [|c s]; [congruence|].
  rewrite Hgemini. cbv zeta. rewrite Hreply.
  unfold GEMINI_FIELDS, has_item in Hlacks. cbn [forallb] in Hlacks.
  repeat (match goal with
          | |- context [subscript species_info ?k] =>
              destruct (subscript species_info k) eqn:?
          end; [|cbn; eauto]).
  cbn in Hlacks. discriminate.
Qed.

Lemma incomplete_gemini_reply_is_an_error_witness :
  exists e,
    fst (Vision.identify_marine_species_with_vision_api
           Scenario2.shark_with_terse_gemini "reef.jpg" Scenario.one_user)
    = Ok (Vision.vision_api_error e).
Proof.
  apply (incomplete_gemini_reply_is_an_error Scenario2.shark_with_terse_gemini
           "reef.jpg" Scenario.one_user Scenario.sees_shark
           (mkResponse [mkObject "Great white shark" (7 # 10)] "")
           "sharks" (7 # 10) Scenario2.terse_gemini
           (VDict [("scientific_name", VStr "Selachimorpha")])).
  - reflexivity.
  - reflexivity.
  - reflexivity.
  - vm_compute. reflexivity.
  - discriminate.
  - reflexivity.
  - reflexivity.
  - reflexivity.
Defined.

(** ** The order of the fallback chain *)

Lemma Qgtb_false (a b : Q) : (a <= b)%Q -> Qgtb a b = false.
Proof.
  intros H. unfold Qgtb. apply negb_false_iff. apply Qle_bool_iff. exact H.
Qed.

Ltac use_vision_total env image_path :=
  match goal with
  | |- context [Vision.identify_marine_species_with_vision_api env image_path ?w1] =>
      let d := fresh "d" in
      let w' := fresh "w'" in
      let Hv := fresh "Hv" in
      let Hwf := fresh "Hwf" in
      let v := fresh "v" in
      let Hname := fresh "Hname" in
      destruct (vision_total env image_path w1) as (d & w' & Hv & Hwf & _);
      destruct (well_formed_has_name d Hwf) as (v & Hname);
      rewrite ?Hv, ?Hname
  end.

Lemma declined_image_cases (env : Env) (image_path : string) (w : world) :
  local_model_declines env image_path ->
  if VISION_API_AVAILABLE env
  then exists d w',
         Vision.identify_marine_species_with_vision_api env image_path
           (after_local_model env image_path w) = (Ok d, w')
         /\ App.identify_species_with_h5 env image_path w = (Ok (Some d), w')
  else App.identify_species_with_h5 env image_path w
       = (Ok None, after_local_model env image_path w).
Proof.
  unfold local_model_declines, after_local_model. intros Hdeclines.
  unfold App.identify_species_with_h5, App.h5_model_step. unfold_m.
  destruct (model env) as [predict|]; cbn [snd].
  - destruct (predict image_path) as [predictions|e].
    + destruct (np_max predictions) as [highest|e].
      * destruct (np_argmax predictions) as [index|e].
        -- assert (Hcond : Qgtb (highest * 100) 85
                           && (index <? length Species.SPECIES_NAMES)%nat = false).
           { destruct Hdeclines as [Hlow|Hout].
             - rewrite (Qgtb_false _ _ Hlow). reflexivity.
             - apply andb_false_iff. right. apply Nat.ltb_ge. exact Hout. }
           rewrite Hcond.
           destruct (VISION_API_AVAILABLE env); [|reflexivity].
           use_vision_total env image_path. eauto.
        -- destruct (VISION_API_AVAILABLE env); [|reflexivity].
           use_vision_total env image_path. eauto.
      * destruct (VISION_API_AVAILABLE env); [|reflexivity].
        use_vision_total env image_path. eauto.
    + destruct (VISION_API_AVAILABLE env); [|reflexivity].
      use_vision_total env image_path. eauto.
  - destruct (VISION_API_AVAILABLE env); [|reflexivity].
    use_vision_total env image_path. eauto.
Qed.

(** X7. When the local model gives no answer for an image (not loaded,
    prediction raising, confidence at most 85, or class index out of
    range), the pipeline's result is exactly what the vision function
    returns for that image if the vision module is available, and [None]
    if it is not; it is never an exception. *)
Theorem declined_image_goes_to_vision (env : Env) (image_path : string)
  (w : world) :
  local_model_declines env image_path ->
  match App.identify_species_with_h5 env image_path w with
  | (Ok (Some result), w') =>
      VISION_API_AVAILABLE env = true
      /\ Vision.identify_marine_species_with_vision_api env image_path
           (after_local_model env image_path w) = (Ok result, w')
  | (Ok None, w') =>
      VISION_API_AVAILABLE env = false
      /\ w' = after_local_model env image_path w
  | (Raise _, _) => False
  end.
Proof.
  intros Hdeclines.
  pose proof (declined_image_cases env image_path w Hdeclines) as Hcase.
  destruct (VISION_API_AVAILABLE env).
  - destruct Hcase as (d & w' & Hv & ->). split; [reflexivity|exact Hv].
  - rewrite Hcase. split; reflexivity.
Qed.

Lemma declined_image_goes_to_vision_witness :
  match App.identify_species_with_h5 Scenario2.unsure_model "reef.jpg"
          Scenario.one_user with
  | (Ok (Some result), w') =>
      VISION_API_AVAILABLE Scenario2.unsure_model = true
      /\ Vision.identify_marine_species_with_vision_api Scenario2.unsure_model
           "reef.jpg"
           (after_local_model Scenario2.unsure_model "reef.jpg" Scenario.one_user)
         = (Ok result, w')
  | (Ok None, w') =>
      VISION_API_AVAILABLE Scenario2.unsure_model = false
      /\ w' = after_local_model Scenario2.unsure_model "reef.jpg" Scenario.one_user
  | (Raise _, _) => False
  end.
Proof.
  apply (declined_image_goes_to_vision Scenario2.unsure_model "reef.jpg"
           Scenario.one_user).
  left. vm_compute. discriminate.
Defined.


Lemma vision_adds_events (env : Env) (image_path : string) (w : world) :
  exists d w' gemini,
    Vision.identify_marine_species_with_vision_api env image_path w = (Ok d, w')
    /\ adds_events w w' (EvVisionApi image_path :: gemini)
    /\ (gemini = [] \/ exists species_name, gemini = [EvGemini species_name]).
Proof.
  unfold Vision.identify_marine_species_with_vision_api,
    Vision.get_species_details_from_gemini, adds_events.
  unfold_m.
  assert (Hone : forall d : dict value,
            exists d' w' gemini,
              (Ok d, mkWorld (users_collection w) (uploads_collection w)
                        (global_stats_collection w) (next_object_id w) (clock w)
                        (trace w ++ [EvVisionApi image_path])) = (Ok d', w')
              /\ (store w' = store w /\ next_object_id w' = next_object_id w
                  /\ clock w' = clock w
                  /\ trace w' = trace w ++ EvVisionApi image_path :: gemini)
              /\ (gemini = [] \/ exists species_name, gemini = [EvGemini species_name])).
  { intros d. eexists d, _, []. split; [reflexivity|].
    repeat split. left. reflexivity. }
  assert (Htwo : forall (d : dict value) (s : string),
            exists d' w' gemini,
              (Ok d, mkWorld (users_collection w) (uploads_collection w)
                        (global_stats_collection w) (next_object_id w) (clock w)
                        ((trace w ++ [EvVisionApi image_path]) ++ [EvGemini s]))
              = (Ok d', w')
              /\ (store w' = store w /\ next_object_id w' = next_object_id w
                  /\ clock w' = clock w
                  /\ trace w' = trace w ++ EvVisionApi image_path :: gemini)
              /\ (gemini = [] \/ exists species_name, gemini = [EvGemini species_name])).
  { intros d s. eexists d, _, [EvGemini s]. split; [reflexivity|].
    repeat split.
    - cbn. rewrite <- app_assoc. reflexivity.
    - right. eauto. }
  destruct (setup_vision_client env) as [annotate|]; [|apply Hone].
  destruct (annotate image_path) as [response|e]; [|apply Hone].
  destruct (negb _); [apply Hone|].
  destruct (Vision.scan_objects _) as [[[|c s]|] hc]; [apply Hone| |apply Hone].
  destruct (gemini_model env) as [generate|]; [|cbn; apply Hone].
  cbn.
  destruct (generate _) as [v|e]; [|cbn; apply Htwo].
  repeat (match goal with
          | |- context [subscript v ?k] => destruct (subscript v k)
          end; [|apply Htwo]).
  apply Htwo.
Qed.

Lemma local_model_answers_or_declines (env : Env) (image_path : string) :
  (exists predict predictions highest index,
     model env = Some predict /\ predict image_path = Ok predictions
     /\ np_max predictions = Ok highest /\ np_argmax predictions = Ok index
     /\ Qgtb (highest * 100) 85 = true
     /\ (index < length Species.SPECIES_NAMES)%nat)
  \/ local_model_declines env image_path.
Proof.
  unfold local_model_declines.
  destruct (model env) as [predict|]; [|right; exact I].
  destruct (predict image_path) as [predictions|e] eqn:Hpredict; [|right; exact I].
  destruct (np_max predictions) as [highest|e] eqn:Hmax; [|right; exact I].
  destruct (np_argmax predictions) as [index|e] eqn:Hargmax; [|right; exact I].
  destruct (Qgtb (highest * 100) 85) eqn:Hgt.
  - destruct (Nat.lt_ge_cases index (length Species.SPECIES_NAMES)) as [Hlt|Hge].
    + left. exists predict, predictions, highest, index.
      repeat split; assumption || reflexivity.
    + right. right. exact Hge.
  - right. left. apply Qgtb_le. exact Hgt.
Qed.

Lemma vision_call (env : Env) (image_path : string) (w : world) :
  exists d w' gemini v,
    Vision.identify_marine_species_with_vision_api env image_path w = (Ok d, w')
    /\ getitem d "name" = Ok v
    /\ adds_events w w' (EvVisionApi image_path :: gemini)
    /\ (gemini = [] \/ exists species_name, gemini = [EvGemini species_name]).
Proof.
  destruct (vision_adds_events env image_path w) as (d & w' & gemini & Hv & Hadd & Hg).
  destruct (vision_total env image_path w) as (d0 & w0 & Hv0 & Hwf & _).
  rewrite Hv in Hv0. injection Hv0 as <- <-.
  destruct (well_formed_has_name d Hwf) as (v & Hname).
  exists d, w', gemini, v. auto.
Qed.

Lemma adds_events_after (w w1 w' : world) (first rest : list event) :
  adds_events w w1 first -> adds_events w1 w' rest ->
  adds_events w w' (first ++ rest).
Proof.
  unfold adds_events. intros (Hs & Hn & Hc & Ht) (Hs' & Hn' & Hc' & Ht').
  repeat split; try congruence.
  rewrite Ht', Ht, app_assoc. reflexivity.
Qed.

Lemma adds_events_emit (e : event) (w : world) :
  adds_events w (snd (emit e w)) [e].
Proof. repeat split. Qed.

Lemma adds_events_none (w : world) : adds_events w w [].
Proof. repeat split. cbn. rewrite app_nil_r. reflexivity. Qed.

(** X8. One call of [identify_species_with_h5] changes nothing but the
    trace, and calls each service at most once, in this order: the local
    model, then the vision service, then the generative service (and this
    one only after the vision service).  In particular a low-confidence
    image does not reach the vision service twice. *)
Theorem each_service_is_called_at_most_once (env : Env) (image_path : string)
  (w : world) :
  exists local vision gemini,
    adds_events w (snd (App.identify_species_with_h5 env image_path w))
      (local ++ vision ++ gemini)
    /\ (local = [] \/ local = [EvModelPredict image_path])
    /\ ((vision = [] /\ gemini = [])
        \/ (vision = [EvVisionApi image_path]
            /\ (gemini = [] \/ exists species_name, gemini = [EvGemini species_name]))).
Proof.
  assert (Hfallback : forall w1 local,
            adds_events w w1 local ->
            (local = [] \/ local = [EvModelPredict image_path]) ->
            (if VISION_API_AVAILABLE env
             then exists d w',
                    Vision.identify_marine_species_with_vision_api env image_path w1
                    = (Ok d, w')
                    /\ App.identify_species_with_h5 env image_path w = (Ok (Some d), w')
             else App.identify_species_with_h5 env image_path w = (Ok None, w1)) ->
            exists local vision gemini,
              adds_events w (snd (App.identify_species_with_h5 env image_path w))
                (local ++ vision ++ gemini)
              /\ (local = [] \/ local = [EvModelPredict image_path])
              /\ ((vision = [] /\ gemini = [])
                  \/ (vision = [EvVisionApi image_path]
                      /\ (gemini = [] \/ exists species_name,
                                           gemini = [EvGemini species_name])))).
  { intros w1 local Hlocal Hshape Hcase.
    destruct (VISION_API_AVAILABLE env).
    - destruct Hcase as (d & w' & Hv & ->).
      destruct (vision_call env image_path w1)
        as (d0 & w0 & gemini & v & Hv0 & _ & Hadd & Hg).
      rewrite Hv in Hv0. injection Hv0 as <- <-.
      exists local, [EvVisionApi image_path], gemini.
      split; [|auto].
      apply (adds_events_after w w1 w'); assumption.
    - rewrite Hcase. exists local, [], [].
      split; [|auto]. cbn [snd]. rewrite app_nil_r. exact Hlocal. }
  destruct (local_model_answers_or_declines env image_path)
    as [(predict & predictions & highest & index & Hmodel & Hpredict & Hmax
         & Hargmax & Hgt & Hindex)|Hdeclines].
  - exists [EvModelPredict image_path], [], [].
    split; [|auto].
    unfold App.identify_species_with_h5, App.h5_model_step.
    rewrite Hmodel. unfold_m. rewrite Hpredict, Hmax, Hargmax, Hgt.
    rewrite (proj2 (Nat.ltb_lt _ _) Hindex). cbn [andb].
    destruct (nth_error Species.SPECIES_NAMES index) eqn:Hnth.
    + repeat split.
    + apply nth_error_None in Hnth. lia.
  - pose proof (declined_image_cases env image_path w Hdeclines) as Hcase.
    unfold after_local_model in Hcase.
    destruct (model env) as [predict|].
    + apply (Hfallback (snd (emit (EvModelPredict image_path) w))
               [EvModelPredict image_path]);
        [apply adds_events_emit|auto|exact Hcase].
    + apply (Hfallback w []); [apply adds_events_none|auto|exact Hcase].
Qed.

(** ** Accounts *)

Import Models Handlers.

Lemma find_absent {A : Type} (f : A -> bool) (l : list A) :
  (forall x, In x l -> f x = false) -> List.find f l = None.
Proof.
  induction l as [|a l IH]; intros H; simpl; [reflexivity|].
  rewrite (H a (or_introl eq_refl)). apply IH. intros x Hx. apply H. right. exact Hx.
Qed.

Lemma find_app_absent {A : Type} (f : A -> bool) (l : list A) (a : A) :
  List.find f l = None -> f a = true -> List.find f (l ++ [a]) = Some a.
Proof.
  induction l as [|b l IH]; simpl; intros Hnone Ha.
  - rewrite Ha. reflexivity.
  - destruct (f b); [discriminate|]. apply IH; assumption.
Qed.

Lemma existsb_absent {A : Type} (f : A -> bool) (l : list A) :
  (forall x, In x l -> f x = false) -> existsb f l = false.
Proof.
  induction l as [|a l IH]; intros H; simpl; [reflexivity|].
  rewrite (H a (or_introl eq_refl)). apply IH. intros x Hx. apply H. right. exact Hx.
Qed.

Lemma field_eqb_neq (a b : option string) : a <> b -> field_eqb a b = false.
Proof.
  intros Hne. destruct (field_eqb a b) eqn:E; [|reflexivity].
  apply field_eqb_eq in E. contradiction.
Qed.

(** X9. A POST to [/register] with a password and with a username and an
    email that no user has creates exactly one user -- with that username
    and email, a fresh id, the time of the request, and as password hash
    the hash of the hash of the password ([register] hashes it, and the
    [User] constructor hashes what it is given) -- flashes the success and
    redirects to the login page.  The same form sent again is rejected
    with "Username already exists" and changes nothing but the flashes. *)
Theorem register_creates_account (env : Env) (request : RegisterRequest)
  (w : world) (p : string) :
  method request = "POST" ->
  (forall u, In u (users_collection w) -> username u <> form_username request) ->
  (forall u, In u (users_collection w) -> email u <> form_email request) ->
  form_password request = Some p ->
  let user :=
    mkUser (next_object_id w) (form_username request) (form_email request)
           (match generate_password_hash env p with
            | EmptyString => None
            | String _ _ =>
                Some (generate_password_hash env (generate_password_hash env p))
            end)
           None None (clock w) in
  let w1 :=
    mkWorld (users_collection w ++ [user]) (uploads_collection w)
            (global_stats_collection w) (N.succ (next_object_id w)) (clock w)
            (trace w ++ [EvFlash "Registration successful! Please login." "success"]) in
  register env request w = (Ok (Redirect "login"), w1)
  /\ register env request w1
     = (Ok (Render "register.html" []),
        mkWorld (users_collection w1) (uploads_collection w1)
                (global_stats_collection w1) (next_object_id w1) (clock w1)
                (trace w1 ++ [EvFlash "Username already exists" "error"])).
Proof.
  intros Hmethod Hname Hemail Hpassword user w1.
  assert (Hfind_name :
            List.find (fun u => field_eqb (username u) (form_username request))
                      (users_collection w) = None).
  { apply find_absent. intros u Hu. apply field_eqb_neq. auto. }
  assert (Hfind_email :
            List.find (fun u => field_eqb (email u) (form_email request))
                      (users_collection w) = None).
  { apply find_absent. intros u Hu. apply field_eqb_neq. auto. }
  split.
  - unfold register. rewrite Hmethod, String.eqb_refl, Hpassword.
    unfold User_find_by_username, User_find_by_email, flash, User_init,
      User_save, new_object_id, utcnow, set_users.
    unfold_m. rewrite Hfind_name, Hfind_email.
    cbn [users_collection uploads_collection global_stats_collection
         next_object_id clock trace username email].
    rewrite existsb_absent; [reflexivity|].
    intros u Hu. rewrite (field_eqb_neq _ _ (Hname u Hu)),
      (field_eqb_neq _ _ (Hemail u Hu)). reflexivity.
  - unfold register. rewrite Hmethod, String.eqb_refl.
    unfold User_find_by_username, flash. unfold_m.
    subst w1. cbn [users_collection].
    rewrite (find_app_absent _ _ user Hfind_name); [reflexivity|].
    apply field_eqb_refl.
Qed.

Lemma register_creates_account_witness :
  fst (register Scenario.nothing_available Scenario3.bob_registers Scenario.one_user)
  = Ok (Redirect "login").
Proof.
  destruct (register_creates_account Scenario.nothing_available
              Scenario3.bob_registers Scenario.one_user "pw") as [H _].
  - reflexivity.
  - intros u [<-|[]]. discriminate.
  - intros u [<-|[]]. discriminate.
  - reflexivity.
  - rewrite H. reflexivity.
Defined.

(** X10. A first Firebase login -- a token that verifies, whose uid and
    whose (non-empty) email no user has -- creates exactly one user with
    that uid and email, named by the first free one of [local], [local_1],
    [local_2], ... where [local] is the email up to its [@]: the candidate
    it takes is free and every candidate before it is taken.  The answer is
    the success JSON for that user.  A second login with the same token
    answers with the same user and creates nothing. *)
Theorem firebase_login_creates_once (env : Env) (id_token : string)
  (token : DecodedToken) (mail : string) (w : world) :
  id_token <> "" ->
  verify_id_token env id_token = Ok token ->
  token_email token = Some mail ->
  mail <> "" ->
  (forall u, In u (users_collection w) -> firebase_uid u <> Some (token_uid token)) ->
  (forall u, In u (users_collection w) -> email u <> Some mail) ->
  exists user w1 w2 k,
    firebase_login env (Some id_token) w = (Ok (login_successful user), w1)
    /\ users_collection w1 = users_collection w ++ [user]
    /\ username user = Some (firebase_candidate (Str.before_at mail) k)
    /\ ~ taken w (firebase_candidate (Str.before_at mail) k)
    /\ (forall j, (j < k)%nat ->
                  taken w (firebase_candidate (Str.before_at mail) j))
    /\ email user = Some mail
    /\ firebase_uid user = Some (token_uid token)
    /\ firebase_login env (Some id_token) w1 = (Ok (login_successful user), w2)
    /\ users_collection w2 = users_collection w1.
Proof.
  intros Htoken Hverify Hmail Hnonempty Huid Hemail.
  assert (Hfind_uid :
            List.find (fun u => field_eqb (firebase_uid u) (Some (token_uid token)))
                      (users_collection w) = None).
  { apply find_absent. intros u Hu. apply field_eqb_neq. auto. }
  assert (Hfind_email :
            List.find (fun u => field_eqb (email u) (Some mail))
                      (users_collection w) = None).
  { apply find_absent. intros u Hu. apply field_eqb_neq. auto. }
  destruct (firebase_username_ends w (Str.before_at mail))
    as (k & Hloop & Hfree & Hfirst).
  set (name := firebase_candidate (Str.before_at mail) k) in *.
  set (user := mkUser (next_object_id w) (Some name) (Some mail) None
                      (Some (token_uid token)) None (clock w)).
  assert (Hsave :
            existsb (fun u => field_eqb (username u) (Some name)
                              || field_eqb (email u) (Some mail))
                    (users_collection w) = false).
  { apply existsb_absent. intros u Hu.
    rewrite (field_eqb_neq (email u) _ (Hemail u Hu)), orb_false_r.
    apply field_eqb_neq. intros Heq. apply Hfree.
    unfold taken. rewrite <- Heq. apply in_map. exact Hu. }
  destruct id_token as [|c id_rest]; [congruence|].
  destruct mail as [|m mail_rest]; [congruence|].
  set (w1 := mkWorld (users_collection w ++ [user]) (uploads_collection w)
                     (global_stats_collection w) (N.succ (next_object_id w))
                     (clock w) (trace w ++ [EvLogin (next_object_id w)])).
  exists user, w1.
  eexists. exists k.
  split.
  { unfold firebase_login. unfold try_except at 1. unfold bind at 1.
    unfold lift at 1. rewrite Hverify.
    unfold User_find_by_firebase_uid, User_find_by_email, User_count.
    unfold bind at 1. unfold gets at 1. rewrite Hfind_uid.
    unfold bind at 1. unfold gets at 1. rewrite Hmail, Hfind_email.
    unfold bind at 1. unfold bind at 1. unfold gets at 1.
    unfold bind at 1. fold name in Hloop. rewrite Hloop.
    unfold User_init, User_save, new_object_id, utcnow, login_user, set_users.
    unfold_m.
    cbn [users_collection uploads_collection global_stats_collection
         next_object_id clock trace username email truthy_str default].
    unfold id. rewrite Hsave. reflexivity. }
  split; [reflexivity|]. split; [reflexivity|]. split; [exact Hfree|].
  split; [exact Hfirst|].
  split; [reflexivity|]. split; [reflexivity|].
  split.
  { unfold firebase_login. unfold try_except at 1. unfold bind at 1.
    unfold lift at 1. rewrite Hverify.
    unfold User_find_by_firebase_uid.
    unfold bind at 1. unfold gets at 1.
    subst w1. cbn [users_collection].
    rewrite (find_app_absent _ _ user Hfind_uid) by apply field_eqb_refl.
    unfold login_user. unfold_m. reflexivity. }
  reflexivity.
Qed.

Lemma firebase_login_creates_once_witness :
  exists user w1,
    firebase_login Scenario3.carol_token (Some "token") Scenario.one_user
    = (Ok (login_successful user), w1)
    /\ users_collection w1 = users_collection Scenario.one_user ++ [user].
Proof.
  destruct (firebase_login_creates_once Scenario3.carol_token "token"
              (mkToken "uid-carol-0001" (Some "carol@example.org") "Carol")
              "carol@example.org" Scenario.one_user)
    as (user & w1 & w2 & k & H1 & H2 & _).
  - discriminate.
  - reflexivity.
  - reflexivity.
  - discriminate.
  - intros u [<-|[]]. discriminate.
  - intros u [<-|[]]. discriminate.
  - exists user, w1. split; assumption.
Defined.

(** X11. A Firebase login whose uid a user already has, or else whose email
    a user already has, logs that user in: the answer is the success JSON
    for the user found, and the world changes by the login event only -- no
    account is created and the account found is not modified. *)
Theorem firebase_login_reuses_account (env : Env) (id_token : string)
  (token : DecodedToken) (user : User) (w : world) :
  id_token <> "" ->
  verify_id_token env id_token = Ok token ->
  User_find_by_firebase_uid (Some (token_uid token)) w = (Ok (Some user), w)
  \/ (User_find_by_firebase_uid (Some (token_uid token)) w = (Ok None, w)
      /\ User_find_by_email (token_email token) w = (Ok (Some user), w)) ->
  firebase_login env (Some id_token) w
  = (Ok (login_successful user),
     mkWorld (users_collection w) (uploads_collection w)
             (global_stats_collection w) (next_object_id w) (clock w)
             (trace w ++ [EvLogin (user__id user)])).
Proof.
  intros Htoken Hverify Hfound.
  destruct id_token as [|c id_rest]; [congruence|].
  unfold firebase_login. unfold try_except at 1. unfold bind at 1.
  unfold lift at 1. rewrite Hverify.
  unfold bind at 1.
  destruct Hfound as [Huid|[Huid Hemail]]; rewrite Huid.
  - unfold login_user. unfold_m. reflexivity.
  - unfold bind at 1. rewrite Hemail.
    unfold login_user. unfold_m. reflexivity.
Qed.

Lemma firebase_login_reuses_account_witness :
  firebase_login Scenario3.alice_token (Some "token") Scenario.one_user
  = (Ok (login_successful Scenario.alice),
     mkWorld [Scenario.alice] [] [] 3%N 100%Z [EvLogin 1%N]).
Proof.
  apply (firebase_login_reuses_account Scenario3.alice_token "token"
           (mkToken "uid-alice-0001" (Some "alice@example.org") "Alice")
           Scenario.alice Scenario.one_user).
  - discriminate.
  - reflexivity.
  - right. split; reflexivity.
Defined.

(** ** Statistics *)

Import Api.

Lemma value_eqb_strings (a b : value) :
  is_string a = true -> is_string b = true -> (value_eqb a b = true <-> a = b).
Proof.
  destruct a, b; try discriminate. intros _ _. simpl. split.
  - intros H. apply String.eqb_eq in H. congruence.
  - intros [= ->]. apply String.eqb_refl.
Qed.

Lemma existsb_value_eqb (v : value) (l : list value) :
  is_string v = true -> forallb is_string l = true ->
  (existsb (value_eqb v) l = true <-> In v l).
Proof.
  intros Hv Hl. rewrite existsb_exists. rewrite forallb_forall in Hl. split.
  - intros (x & Hx & Heq). apply value_eqb_strings in Heq; auto. congruence.
  - intros Hin. exists v. split; [exact Hin|].
    apply value_eqb_strings; auto.
Qed.

Lemma distinct_incl (l : list value) (v : value) : In v (distinct l) -> In v l.
Proof.
  induction l as [|a l IH]; simpl; [auto|].
  destruct (existsb (value_eqb a) (distinct l)); simpl; intuition.
Qed.

Lemma distinct_strings (l : list value) :
  forallb is_string l = true ->
  List.NoDup (distinct l) /\ (forall v, In v l -> In v (distinct l)).
Proof.
  induction l as [|a l IH]; simpl; intros Hl.
  - split; [constructor|auto].
  - apply andb_prop in Hl as [Ha Hl]. destruct (IH Hl) as [Hnodup Hcover].
    assert (Hsub : forallb is_string (distinct l) = true).
    { apply forallb_forall. intros x Hx. rewrite forallb_forall in Hl.
      apply Hl. apply distinct_incl. exact Hx. }
    destruct (existsb (value_eqb a) (distinct l)) eqn:E.
    + split; [exact Hnodup|]. intros v [<-|Hv]; [|auto].
      apply (existsb_value_eqb a); assumption.
    + split.
      * constructor; [|exact Hnodup]. intros Hin.
        apply (existsb_value_eqb a) in Hin; [congruence|assumption..].
      * intros v [<-|Hv]; [left; reflexivity|right; auto].
Qed.

Lemma distinct_length (l : list value) : (length (distinct l) <= length l)%nat.
Proof.
  induction l as [|a l IH]; simpl; [lia|].
  destruct (existsb _ _); simpl; lia.
Qed.

Lemma strings_hashable (l : list value) :
  forallb is_string l = true -> forallb hashable l = true.
Proof.
  intros H. apply forallb_forall. intros v Hv.
  rewrite forallb_forall in H. specialize (H v Hv). destruct v; auto; discriminate.
Qed.

(** X12. [update_global_stats] recounts from the live collections: when every
    stored species name is a string, it returns a statistics record whose
    [total_identifications] is the number of stored uploads, whose
    [total_users] is the number of stored users and whose [total_species] is
    the number of different species names among the uploads (each name
    counted once, none left out, hence never more than the uploads), stamped
    with the current time; the record replaces the first statistics document
    (or becomes the only one), and users and uploads are left as they were. *)
Theorem update_global_stats_recounts (w : world) :
  forallb is_string (map species_name (uploads_collection w)) = true ->
  exists stats w',
    update_global_stats w = (Ok (Some stats), w')
    /\ total_identifications stats = length (uploads_collection w)
    /\ total_users stats = length (users_collection w)
    /\ total_species stats = length (distinct (map species_name (uploads_collection w)))
    /\ List.NoDup (distinct (map species_name (uploads_collection w)))
    /\ (forall u, In u (uploads_collection w) ->
        In (species_name u) (distinct (map species_name (uploads_collection w))))
    /\ (total_species stats <= total_identifications stats)%nat
    /\ last_updated stats = clock w
    /\ global_stats_collection w' = stats :: tl (global_stats_collection w)
    /\ users_collection w' = users_collection w
    /\ uploads_collection w' = uploads_collection w.
Proof.
  intros Hnames.
  destruct (distinct_strings _ Hnames) as [Hnodup Hcover].
  pose proof (distinct_length (map species_name (uploads_collection w))) as Hle.
  rewrite length_map in Hle.
  unfold update_global_stats, GlobalStats_find_one, GlobalStats_init,
    GlobalStats_save, Upload_count, User_count, Upload_find, new_object_id,
    utcnow, len_set, set_global_stats.
  unfold_m.
  destruct (global_stats_collection w) as [|old rest] eqn:Hstats;
    cbn [head users_collection uploads_collection global_stats_collection
         next_object_id clock trace];
    rewrite (strings_hashable _ Hnames);
    (eexists; eexists; split; [reflexivity|]);
    cbn [total_identifications total_users total_species last_updated tl
         users_collection uploads_collection global_stats_collection];
    repeat split; auto using in_map.
  all: rewrite Hstats; reflexivity.
Qed.

Lemma update_global_stats_recounts_witness :
  exists stats w',
    update_global_stats Scenario.sightings = (Ok (Some stats), w')
    /\ total_identifications stats = 3%nat
    /\ total_species stats = 1%nat.
Proof.
  destruct (update_global_stats_recounts Scenario.sightings)
    as (stats & w' & H & Hid & _ & Hsp & _); [reflexivity|].
  exists stats, w'. split; [exact H|]. split; [exact Hid|exact Hsp].
Defined.


(** X13. [/api/stats] always answers with status 200, never with the 500 of
    its own handler: [update_global_stats] absorbs its exceptions.  When every
    stored species name is a string the body carries the live counts of
    uploads, users and different species; when some stored species name is
    unhashable (a list or a dict) the body reports three zeros, whatever the
    collections hold. *)
Theorem get_stats_reports_live_counts (env : Env) (w : world) :
  (exists body, fst (get_stats env w) = Ok (Json 200 body))
  /\ (forallb is_string (map species_name (uploads_collection w)) = true ->
      fst (get_stats env w)
      = Ok (Json 200 (VDict
              [ ("total_identifications", of_count (length (uploads_collection w)))
              ; ("total_users", of_count (length (users_collection w)))
              ; ("total_species",
                 of_count (length (distinct (map species_name (uploads_collection w)))))
              ; ("last_updated", VStr (isoformat env (clock w))) ])))
  /\ (forallb hashable (map species_name (uploads_collection w)) = false ->
      fst (get_stats env w)
      = Ok (Json 200 (VDict
              [ ("total_identifications", of_count 0)
              ; ("total_users", of_count 0)
              ; ("total_species", of_count 0)
              ; ("last_updated", VStr (isoformat env (clock w))) ]))).
Proof.
  unfold get_stats, update_global_stats, GlobalStats_find_one, GlobalStats_init,
    GlobalStats_save, Upload_count, User_count, Upload_find, new_object_id,
    utcnow, len_set, set_global_stats.
  unfold_m.
  split; [|split].
  - destruct (global_stats_collection w);
      cbn [head uploads_collection];
      destruct (forallb hashable _); cbn; eauto.
  - intros Hnames. apply strings_hashable in Hnames.
    destruct (global_stats_collection w);
      cbn [head uploads_collection users_collection clock];
      rewrite Hnames; reflexivity.
  - intros Hnames.
    destruct (global_stats_collection w);
      cbn [head uploads_collection users_collection clock];
      rewrite Hnames; reflexivity.
Qed.

Lemma get_stats_reports_live_counts_witness :
  fst (get_stats Scenario.nothing_available Scenario.sightings)
  = Ok (Json 200 (VDict
          [ ("total_identifications", of_count 3)
          ; ("total_users", of_count 1)
          ; ("total_species", of_count 1)
          ; ("last_updated",
             VStr (isoformat Scenario.nothing_available 100%Z)) ]))
  /\ fst (get_stats Scenario.nothing_available Scenario4.listed_name)
     = Ok (Json 200 (VDict
             [ ("total_identifications", of_count 0)
             ; ("total_users", of_count 0)
             ; ("total_species", of_count 0)
             ; ("last_updated",
                VStr (isoformat Scenario.nothing_available 100%Z)) ])).
Proof.
  split.
  - apply (proj1 (proj2 (get_stats_reports_live_counts
                           Scenario.nothing_available Scenario.sightings))).
    reflexivity.
  - apply (proj2 (proj2 (get_stats_reports_live_counts
                           Scenario.nothing_available Scenario4.listed_name))).
    reflexivity.
Defined.

(** ** Uploads *)

Lemma vision_typed (env : Env) (image_path : string) (w : world) :
  exists d w',
    Vision.identify_marine_species_with_vision_api env image_path w = (Ok d, w')
    /\ typed_result d = true.
Proof.
  unfold Vision.identify_marine_species_with_vision_api,
    Vision.get_species_details_from_gemini.
  unfold_m.
  destruct (setup_vision_client env) as [annotate|]; [|eauto 10].
  destruct (annotate image_path) as [response|e]; [|eauto 10].
  destruct (negb _); [eauto 10|].
  destruct (Vision.scan_objects _) as [[[|c s]|] hc]; [eauto 10| |eauto 10].
  destruct (gemini_model env) as [generate|]; [|cbn; eauto 10].
  cbn.
  destruct (generate _) as [v|e]; [|cbn; eauto 10].
  repeat (match goal with
          | |- context [subscript v ?k] => destruct (subscript v k)
          end; [|eauto 10]).
  eauto 10.
Qed.

Lemma vision_full (env : Env) (image_path : string) (w : world) :
  exists d w' events,
    Vision.identify_marine_species_with_vision_api env image_path w = (Ok d, w')
    /\ adds_events w w' events
    /\ well_formed d = true /\ typed_result d = true.
Proof.
  destruct (vision_adds_events env image_path w) as (d & w' & gemini & Hv & Hadd & _).
  destruct (vision_total env image_path w) as (d0 & w0 & Hv0 & Hwf & _).
  destruct (vision_typed env image_path w) as (d1 & w1 & Hv1 & Hty).
  rewrite Hv in Hv0, Hv1. injection Hv0 as <- <-. injection Hv1 as <- <-.
  eauto 10.
Qed.

Lemma h5_model_step_full (env : Env) (predict : string -> res (list Q))
  (image_path : string) (w : world) :
  exists r w' events,
    App.h5_model_step env predict image_path w = (r, w')
    /\ adds_events w w' events
    /\ match r with
       | Ok d => well_formed d = true /\ typed_result d = true
       | Raise _ => True
       end.
Proof.
  pose proof (adds_events_emit (EvModelPredict image_path) w) as Hemit.
  unfold App.h5_model_step. unfold_m. cbn [snd] in Hemit.
  destruct (predict image_path) as [predictions|e]; [|eauto 10].
  destruct (np_max predictions) as [highest|e]; [|eauto 10].
  destruct (np_argmax predictions) as [i|e]; [|eauto 10].
  destruct (_ && _).
  - destruct (nth_error _ _); eauto 10.
  - destruct (VISION_API_AVAILABLE env); [|eauto 10].
    match goal with
    | |- context [Vision.identify_marine_species_with_vision_api env image_path ?w1] =>
        destruct (vision_full env image_path w1)
          as (d & w' & events & -> & Hadd & Hwf & Hty)
    end.
    exists (Ok d), w', ([EvModelPredict image_path] ++ events).
    split; [reflexivity|]. split; [|auto].
    eapply adds_events_after; eassumption.
Qed.

(** What [identify_species_with_h5] leaves behind and what it returns. *)
Lemma identify_species_with_h5_full (env : Env) (image_path : string)
  (w : world) :
  exists result w' events,
    App.identify_species_with_h5 env image_path w = (Ok result, w')
    /\ adds_events w w' events
    /\ match result with
       | Some d => well_formed d = true /\ typed_result d = true
       | None => True
       end.
Proof.
  unfold App.identify_species_with_h5.
  unfold try_except at 1. unfold bind at 1.
  assert (Hstep : exists f w1 events,
            match model env with
            | Some predict =>
                try_except
                  (result <- App.h5_model_step env predict image_path ;;
                   ret (Return result))
                  (fun _ => ret Continue)
            | None => ret Continue
            end w = (Ok f, w1)
            /\ adds_events w w1 events
            /\ match f with
               | Return d => well_formed d = true /\ typed_result d = true
               | Continue => True
               end).
  { destruct (model env) as [predict|].
    - unfold_m.
      destruct (h5_model_step_full env predict image_path w)
        as ([d|e] & w' & events & -> & Hadd & Hd).
      + exists (Return d), w', events. auto.
      + exists Continue, w', events. auto.
    - exists Continue, w, []. split; [reflexivity|].
      split; [apply adds_events_none|exact I]. }
  destruct Hstep as (f & w1 & events & -> & Hadd & Hf).
  destruct f as [d|].
  - exists (Some d), w1, events. auto.
  - unfold_m. destruct (VISION_API_AVAILABLE env).
    + destruct (vision_full env image_path w1)
        as (d & w' & events' & -> & Hadd' & Hwf & Hty).
      pose proof (adds_events_after _ _ _ _ _ Hadd Hadd') as Hall.
      destruct (getitem d "name").
      * exists (Some d), w', (events ++ events'). auto.
      * exists None, w', (events ++ events'). auto.
    + exists None, w1, events. auto.
Qed.

Lemma well_formed_get (d : dict value) (k : string) :
  well_formed d = true -> In k RESULT_FIELDS -> exists v, dict_get k d = Some v.
Proof.
  unfold well_formed. rewrite forallb_forall. intros H Hin.
  specialize (H k Hin). unfold dict_has in H.
  destruct (dict_get k d); [eauto|discriminate].
Qed.

Lemma optional_float_pure (env : Env) (x : option string) (w : world) :
  exists r, optional_float env x w = (r, w)
            /\ (truthy_str x = false -> r = Ok None).
Proof.
  unfold optional_float. destruct (truthy_str x) eqn:Hx.
  - destruct x as [s|]; [|discriminate]. unfold_m.
    destruct (float env s); eexists; (split; [reflexivity|discriminate]).
  - eexists. split; [reflexivity|auto].
Qed.

(** What [update_global_stats] leaves behind. *)
Lemma update_global_stats_frame (w : world) :
  exists r w',
    update_global_stats w = (Ok r, w')
    /\ users_collection w' = users_collection w
    /\ uploads_collection w' = uploads_collection w
    /\ (string_named w = true ->
        exists stats,
          head (global_stats_collection w') = Some stats
          /\ total_identifications stats = length (uploads_collection w)
          /\ total_users stats = length (users_collection w)).
Proof.
  unfold string_named, update_global_stats, GlobalStats_find_one, GlobalStats_init,
    GlobalStats_save, Upload_count, User_count, Upload_find, new_object_id,
    utcnow, len_set, set_global_stats.
  unfold_m.
  destruct (global_stats_collection w) as [|old rest] eqn:Hstats;
    cbn [head users_collection uploads_collection global_stats_collection
         next_object_id clock trace];
    destruct (forallb hashable _) eqn:Hhash;
    (eexists; eexists; split; [reflexivity|]);
    cbn [users_collection uploads_collection global_stats_collection];
    (split; [reflexivity|]); (split; [reflexivity|]);
    intros Hnames; try (rewrite (strings_hashable _ Hnames) in Hhash; discriminate);
    rewrite ?Hstats; cbn; eauto.
Qed.

(** X14. [/predict_web] always answers (its [except] turns every exception
    into a redirect), never touches the users, and stores an upload exactly
    when it renders the result page.  Then the stored upload is the one new
    document; it carries the species name, the confidence and the file name
    that the page shows, the user of the session and the current time, and no
    coordinate for a blank form field; and if all earlier uploads were named
    by strings, so are all uploads afterwards, and the statistics document
    counts all of them and all users.  With any other answer the uploads and
    the statistics are as before. *)
Theorem predict_web_stores_what_it_shows (env : Env) (request : UploadRequest)
  (w : world) :
  exists resp w',
    predict_web env request w = (Ok resp, w')
    /\ users_collection w' = users_collection w
    /\ match resp with
       | Render template context =>
           exists user_id name species confidence latitude longitude,
             let filename := strftime env (clock w) +:+ secure_filename env name in
             session_user_id request = Some user_id
             /\ file request = Some name
             /\ App.allowed_file name = true
             /\ template = "result.html"
             /\ dict_get "species_name" context = Some (ArgValue (VStr species))
             /\ dict_get "confidence" context = Some (ArgValue (VNum confidence))
             /\ dict_get "image_filename" context = Some (ArgValue (VStr filename))
             /\ uploads_collection w'
                = uploads_collection w
                  ++ [mkUpload (next_object_id w) filename (VStr species)
                        (VNum confidence) user_id latitude longitude (clock w)]
             /\ (truthy_str (form_latitude request) = false -> latitude = None)
             /\ (truthy_str (form_longitude request) = false -> longitude = None)
             /\ (string_named w = true ->
                 string_named w' = true
                 /\ exists stats,
                     head (global_stats_collection w') = Some stats
                     /\ total_identifications stats = length (uploads_collection w')
                     /\ total_users stats = length (users_collection w'))
       | _ =>
           uploads_collection w' = uploads_collection w
           /\ global_stats_collection w' = global_stats_collection w
       end.
Proof.
  unfold predict_web.
  destruct (session_user_id request) as [user_id|] eqn:Hsession;
    [|unfold flash; unfold_m; eexists; eexists; split; [reflexivity|]; cbn; auto].
  destruct (file request) as [[|c name]|] eqn:Hfile;
    try (unfold flash; unfold_m; eexists; eexists; split; [reflexivity|]; cbn; auto; fail).
  destruct (App.allowed_file (String c name)) eqn:Hallowed; cbn [negb];
    [|unfold flash; unfold_m; eexists; eexists; split; [reflexivity|]; cbn; auto].
  unfold stored_name, utcnow, flash, User_find_by_id. unfold_m.
  cbn [users_collection uploads_collection global_stats_collection
       next_object_id clock trace].
  destruct (find _ (users_collection w)) as [user|] eqn:Hfound;
    [|eexists; eexists; split; [reflexivity|]; cbn; auto].
  match goal with
  | |- context [optional_float env (form_latitude request) ?w1] =>
      destruct (optional_float_pure env (form_latitude request) w1)
        as (rlat & -> & Hlat)
  end.
  destruct rlat as [latitude|e];
    [|eexists; eexists; split; [reflexivity|]; cbn; auto].
  match goal with
  | |- context [optional_float env (form_longitude request) ?w1] =>
      destruct (optional_float_pure env (form_longitude request) w1)
        as (rlng & -> & Hlng)
  end.
  destruct rlng as [longitude|e];
    [|eexists; eexists; split; [reflexivity|]; cbn; auto].
  match goal with
  | |- context [App.identify_species_with_h5 env ?p ?w1] =>
      destruct (identify_species_with_h5_full env p w1)
        as (result & w2 & events & -> & Hadd & Hres)
  end.
  destruct Hadd as (Hstore & Hnext & Hclock & _).
  unfold store in Hstore. cbn in Hstore, Hnext, Hclock.
  injection Hstore as Husers Huploads Hstats.
  destruct result as [d|];
    [|eexists; eexists; split; [reflexivity|]; cbn; auto].
  destruct Hres as [Hwf Hty]. unfold typed_result in Hty.
  destruct (dict_get "name" d) as [[| | |species| |]|] eqn:Hname; try discriminate.
  destruct (dict_get "confidence" d) as [[| |confidence| | |]|] eqn:Hconf;
    try discriminate.
  destruct (well_formed_get d "facts" Hwf) as (facts & Hfacts); [simpl; tauto|].
  destruct (well_formed_get d "endangered_status" Hwf) as (status & Hstatus);
    [simpl; tauto|].
  destruct (well_formed_get d "fun_fact" Hwf) as (fun_fact & Hfun); [simpl; tauto|].
  destruct (well_formed_get d "habitat" Hwf) as (habitat & Hhabitat); [simpl; tauto|].
  destruct (well_formed_get d "diet" Hwf) as (diet & Hdiet); [simpl; tauto|].
  destruct (well_formed_get d "size" Hwf) as (size & Hsize); [simpl; tauto|].
  unfold getitem, subscript, get_default, Upload_init, Upload_save, new_object_id,
    utcnow, set_uploads.
  unfold_m.
  rewrite Hname, Hconf.
  match goal with
  | |- context [update_global_stats ?w3] =>
      destruct (update_global_stats_frame w3)
        as (r & w4 & -> & Husers4 & Huploads4 & Hstats4)
  end.
  cbn [users_collection uploads_collection] in Husers4, Huploads4, Hstats4.
  rewrite Hfacts, Hstatus, Hfun, Hhabitat, Hdiet, Hsize.
  cbn [clock] in Huploads4, Hstats4.
  rewrite Husers in Husers4. rewrite Huploads, Hnext, Hclock in Huploads4.
  eexists. eexists. split; [reflexivity|].
  split; [exact Husers4|].
  exists user_id, (String c name), species, confidence, latitude, longitude.
  cbv zeta.
  repeat match goal with |- _ /\ _ => split end;
    try reflexivity; try assumption.
  - intros H. specialize (Hlat H). congruence.
  - intros H. specialize (Hlng H). congruence.
  - intros Hw.
    assert (Hnamed : forall w' : world,
              uploads_collection w'
              = uploads_collection w
                ++ [mkUpload (next_object_id w)
                      (strftime env (clock w) +:+ secure_filename env (String c name))
                      (VStr species) (VNum confidence) user_id latitude longitude
                      (clock w)] ->
              string_named w' = true).
    { intros w' Hw'. unfold string_named in *. rewrite Hw'.
      rewrite map_app, forallb_app, Hw. reflexivity. }
    split; [apply Hnamed; exact Huploads4|].
    destruct Hstats4 as (stats & Hhead & Hcount & Hcount').
    { apply Hnamed. cbn [uploads_collection].
      rewrite Huploads, Hnext, Hclock. reflexivity. }
    exists stats. rewrite Huploads4, Husers4.
    rewrite Huploads, Hnext, Hclock in Hcount. rewrite Husers in Hcount'.
    auto.
Qed.

Lemma predict_web_stores_what_it_shows_witness :
  exists context w',
    predict_web Scenario.confident_model Scenario.reef_upload Scenario.sightings
    = (Ok (Render "result.html" context), w')
    /\ length (uploads_collection w') = 4%nat
    /\ exists stats,
        head (global_stats_collection w') = Some stats
        /\ total_identifications stats = 4%nat.
Proof.
  destruct (predict_web_stores_what_it_shows Scenario.confident_model
              Scenario.reef_upload Scenario.sightings)
    as (resp & w' & Hrun & _ & Hresp).
  pose proof (f_equal fst Hrun) as Hfst. vm_compute in Hfst.
  destruct resp as [code body|endpoint|template context]; try discriminate.
  destruct Hresp
    as (user_id & name & species & confidence & latitude & longitude & Hresp).
  cbv zeta in Hresp.
  destruct Hresp as (_ & _ & _ & -> & _ & _ & _ & Huploads & _ & _ & Hstats).
  destruct Hstats as (_ & stats & Hhead & Hcount & _); [reflexivity|].
  exists context, w'. split; [exact Hrun|].
  rewrite Huploads in *. rewrite length_app in *. cbn in *.
  split; [reflexivity|]. exists stats. split; assumption.
Defined.

(** ** The local classifier *)

Lemma argmax_from_spec (l prefix : list Q) (best_index : nat) (best : Q) :
  nth_error prefix best_index = Some best ->
  (forall x, In x prefix -> (x <= best)%Q) ->
  (forall j x, (j < best_index)%nat -> nth_error prefix j = Some x -> (x < best)%Q) ->
  let r := argmax_from best_index best (length prefix) l in
  nth_error (prefix ++ l) (fst r) = Some (snd r)
  /\ (forall x, In x (prefix ++ l) -> (x <= snd r)%Q)
  /\ (forall j x, (j < fst r)%nat -> nth_error (prefix ++ l) j = Some x ->
                  (x < snd r)%Q).
Proof.
  revert prefix best_index best.
  induction l as [|y l IH]; intros prefix best_index best Hnth Hmax Hfirst; cbn.
  - rewrite app_nil_r. auto.
  - assert (Hlen : length (prefix ++ [y]) = S (length prefix)).
    { rewrite length_app. cbn. lia. }
    assert (Happ : prefix ++ y :: l = (prefix ++ [y]) ++ l).
    { rewrite <- app_assoc. reflexivity. }
    destruct (Qgtb y best) eqn:Hgt.
    + apply Qgtb_lt in Hgt.
      rewrite Happ, <- Hlen. apply IH.
      * rewrite nth_error_app2; [|lia].
        replace (length prefix - length prefix)%nat with 0%nat by lia. reflexivity.
      * intros x Hx. apply in_app_or in Hx as [Hx|[<-|[]]].
        -- apply Qle_trans with best; [auto|apply Qlt_le_weak; exact Hgt].
        -- apply Qle_refl.
      * intros j x Hj Hx. rewrite nth_error_app1 in Hx by exact Hj.
        apply Qle_lt_trans with best; [|exact Hgt].
        apply Hmax. eapply nth_error_In. exact Hx.
    + apply Qgtb_le in Hgt.
      rewrite Happ, <- Hlen.
      assert (Hbound : (best_index < length prefix)%nat).
      { apply nth_error_Some. congruence. }
      apply IH.
      * rewrite nth_error_app1 by exact Hbound. exact Hnth.
      * intros x Hx. apply in_app_or in Hx as [Hx|[<-|[]]]; [auto|exact Hgt].
      * intros j x Hj Hx. rewrite nth_error_app1 in Hx by lia. eauto.
Qed.

Lemma np_argmax_max_spec (a : list Q) (index : nat) (highest : Q) :
  np_argmax a = Ok index -> np_max a = Ok highest ->
  nth_error a index = Some highest
  /\ (forall x, In x a -> (x <= highest)%Q)
  /\ (forall j x, (j < index)%nat -> nth_error a j = Some x -> (x < highest)%Q).
Proof.
  destruct a as [|x rest]; [discriminate|]. cbn.
  intros [= <-] [= <-].
  apply (argmax_from_spec rest [x] 0 x).
  - reflexivity.
  - intros y [<-|[]]. apply Qle_refl.
  - intros j y Hj. lia.
Qed.

Lemma round_half_even_bounds (q : Q) :
  (Qfloor q <= round_half_even q <= Qfloor q + 1)%Z.
Proof.
  unfold round_half_even. cbv zeta.
  destruct (Qgtb _ _); [lia|]. destruct (Qgtb _ _); [lia|].
  destruct (Z.even _); lia.
Qed.

Lemma round1_lower (c : Q) : (85 < c)%Q -> (85 <= round1 c)%Q.
Proof.
  intros H. unfold round1.
  assert (Hq : (inject_Z 850 <= c * 10)%Q).
  { apply Qle_trans with (85 * 10)%Q; [discriminate|].
    apply Qmult_le_compat_r; [apply Qlt_le_weak; exact H|discriminate]. }
  apply Qfloor_resp_le in Hq. rewrite Qfloor_Z in Hq.
  pose proof (round_half_even_bounds (c * 10)) as Hb.
  unfold Qle. cbn. lia.
Qed.

Lemma round1_upper (c : Q) : (c <= 100)%Q -> (round1 c <= 100)%Q.
Proof.
  intros H. unfold round1.
  assert (Hq : (c * 10 <= inject_Z 1000)%Q).
  { apply Qle_trans with (100 * 10)%Q; [|discriminate].
    apply Qmult_le_compat_r; [exact H|discriminate]. }
  pose proof (Qfloor_resp_le _ _ Hq) as Hf. rewrite Qfloor_Z in Hf.
  pose proof (round_half_even_bounds (c * 10)) as Hb.
  assert (Hr : (round_half_even (c * 10) <= 1000)%Z).
  { destruct (Z.eq_dec (Qfloor (c * 10)) 1000%Z) as [Heq|Hneq]; [|lia].
    unfold round_half_even. cbv zeta. rewrite Heq.
    rewrite Qgtb_true; [lia|].
    apply Qle_lt_trans with 0%Q; [|reflexivity].
    apply Qle_minus_iff in Hq. apply Qle_minus_iff.
    setoid_replace (0 + - (c * 10 - inject_Z 1000))%Q
      with (inject_Z 1000 + - (c * 10))%Q using relation Qeq by ring.
    exact Hq. }
  unfold Qle. cbn. lia.
Qed.

Lemma vision_method (env : Env) (image_path : string) (w : world) :
  exists d w',
    Vision.identify_marine_species_with_vision_api env image_path w = (Ok d, w')
    /\ dict_get "detection_method" d <> Some (VStr "H5 Model").
Proof.
  unfold Vision.identify_marine_species_with_vision_api,
    Vision.get_species_details_from_gemini.
  unfold_m.
  assert (Hend : forall (d : dict value) (w' : world),
            dict_get "detection_method" d <> Some (VStr "H5 Model") ->
            exists d0 w0, (Ok d, w') = (Ok d0, w0)
                          /\ dict_get "detection_method" d0 <> Some (VStr "H5 Model")).
  { intros d w' H. exists d, w'. auto. }
  destruct (setup_vision_client env) as [annotate|]; [|apply Hend; discriminate].
  destruct (annotate image_path) as [response|e]; [|apply Hend; discriminate].
  destruct (negb _); [apply Hend; discriminate|].
  destruct (Vision.scan_objects _) as [[[|c s]|] hc];
    [apply Hend; discriminate| |apply Hend; discriminate].
  destruct (gemini_model env) as [generate|]; [|cbn; apply Hend; discriminate].
  cbn.
  destruct (generate _) as [v|e]; [|cbn; apply Hend; discriminate].
  repeat (match goal with
          | |- context [subscript v ?k] => destruct (subscript v k)
          end; [|apply Hend; discriminate]).
  apply Hend; discriminate.
Qed.

(** X15. A result labelled "H5 Model" is the local classifier's top class:
    the model is loaded and its prediction for the image succeeded, the
    result's class is the first position of the highest probability (every
    probability is at most it, every earlier one strictly below), that
    position is one of the nine known classes, the probability is strictly
    above 85 percent, the name is the one of the reference record (or the
    class name), the confidence is the percentage rounded to one decimal,
    which is at least 85 (and at most 100 when no probability exceeds 1),
    and the only event of the call is the local prediction. *)
Theorem local_answer_is_the_top_class (env : Env) (image_path : string)
  (w w' : world) (result : dict value) :
  App.identify_species_with_h5 env image_path w = (Ok (Some result), w') ->
  dict_get "detection_method" result = Some (VStr "H5 Model") ->
  exists predict predictions index highest species_name,
    model env = Some predict
    /\ predict image_path = Ok predictions
    /\ nth_error predictions index = Some highest
    /\ (forall x, In x predictions -> (x <= highest)%Q)
    /\ (forall j x, (j < index)%nat -> nth_error predictions j = Some x ->
                    (x < highest)%Q)
    /\ nth_error Species.SPECIES_NAMES index = Some species_name
    /\ (85 < highest * 100)%Q
    /\ dict_get "name" result
       = Some (App.details_get (Species.get_animal_details species_name)
                 "name" species_name)
    /\ dict_get "confidence" result = Some (VNum (round1 (highest * 100)))
    /\ (85 <= round1 (highest * 100))%Q
    /\ ((forall x, In x predictions -> (x <= 1)%Q) ->
        (round1 (highest * 100) <= 100)%Q)
    /\ trace w' = trace w ++ [EvModelPredict image_path].
Proof.
  intros Hrun Hmethod.
  destruct (local_model_answers_or_declines env image_path)
    as [(predict & predictions & highest & index & Hmodel & Hpredict & Hmax
         & Hargmax & Hgt & Hlt)|Hdeclines].
  - unfold App.identify_species_with_h5, App.h5_model_step in Hrun.
    rewrite Hmodel in Hrun. unfold_m. rewrite Hpredict, Hmax, Hargmax, Hgt in Hrun.
    rewrite (proj2 (Nat.ltb_lt _ _) Hlt) in Hrun. cbn [andb] in Hrun.
    destruct (nth_error Species.SPECIES_NAMES index) as [species_name|] eqn:Hnth;
      [|apply nth_error_None in Hnth; lia].
    injection Hrun as <- <-.
    destruct (np_argmax_max_spec _ _ _ Hargmax Hmax) as (Hat & Hall & Hfirst).
    apply Qgtb_lt in Hgt.
    exists predict, predictions, index, highest, species_name.
    repeat split; auto.
    + apply round1_lower. exact Hgt.
    + intros Hprob. apply round1_upper.
      apply Qle_trans with (1 * 100)%Q; [|discriminate].
      apply Qmult_le_compat_r; [|discriminate].
      apply Hprob. eapply nth_error_In. exact Hat.
  - exfalso.
    pose proof (declined_image_cases env image_path w Hdeclines) as Hcase.
    destruct (VISION_API_AVAILABLE env).
    + destruct Hcase as (d & w1 & Hv & Hid).
      destruct (vision_method env image_path (after_local_model env image_path w))
        as (d' & w2 & Hv' & Hd).
      rewrite Hv in Hv'. injection Hv' as <- <-.
      rewrite Hid in Hrun. injection Hrun as <- <-. contradiction.
    + rewrite Hcase in Hrun. discriminate.
Qed.

Lemma local_answer_is_the_top_class_witness :
  exists predictions index highest species_name,
    Scenario.class6 (92 # 100) "reef.jpg" = Ok predictions
    /\ nth_error predictions index = Some highest
    /\ nth_error Species.SPECIES_NAMES index = Some species_name
    /\ (85 < highest * 100)%Q
    /\ (85 <= round1 (highest * 100))%Q.
Proof.
  destruct (App.identify_species_with_h5 Scenario.confident_model "reef.jpg"
              Scenario.one_user) as [[[result|]|e] w'] eqn:Hrun;
    try (vm_compute in Hrun; discriminate).
  destruct (local_answer_is_the_top_class Scenario.confident_model "reef.jpg"
              Scenario.one_user w' result Hrun)
    as (predict & predictions & index & highest & species_name & Hmodel
        & Hpredict & Hat & _ & _ & Hname & Hgt & _ & _ & Hround & _).
  - vm_compute in Hrun. injection Hrun as <- <-. reflexivity.
  - injection Hmodel as <-.
    exists predictions, index, highest, species_name. auto.
Defined.

(** ** Pages of a user *)

Lemma in_firstn {A : Type} (n : nat) (l : list A) (x : A) :
  In x (firstn n l) -> In x l.
Proof.
  intros H. rewrite <- (firstn_skipn n l). apply in_or_app. left. exact H.
Qed.

Lemma strings_filter (f : value -> bool) (l : list value) :
  forallb is_string l = true -> forallb is_string (List.filter f l) = true.
Proof.
  intros H. apply forallb_forall. intros v Hv.
  apply List.filter_In in Hv as [Hv _].
  rewrite forallb_forall in H. auto.
Qed.

Lemma strings_incl (l l' : list value) :
  incl l l' -> forallb is_string l' = true -> forallb is_string l = true.
Proof.
  intros Hincl H. apply forallb_forall. intros v Hv.
  rewrite forallb_forall in H. auto.
Qed.

Lemma distinct_incl_length (l l' : list value) :
  forallb is_string l' = true -> incl l l' ->
  (length (distinct l) <= length (distinct l'))%nat.
Proof.
  intros Hl' Hincl.
  pose proof (strings_incl _ _ Hincl Hl') as Hl.
  apply NoDup_incl_length.
  - apply (distinct_strings l Hl).
  - intros v Hv. apply (distinct_strings l' Hl'). apply Hincl.
    apply distinct_incl. exact Hv.
Qed.

Lemma named_species_strings (w : world) (uploads : list Upload) :
  string_named w = true -> incl uploads (uploads_collection w) ->
  forallb is_string (named_species uploads) = true.
Proof.
  unfold string_named, named_species. intros Hw Hincl.
  apply strings_filter. apply forallb_forall. intros v Hv.
  apply in_map_iff in Hv as (u & <- & Hu).
  rewrite forallb_forall in Hw. apply Hw. apply in_map. auto.
Qed.

Lemma sorted_uploads_of (user_id : ObjectId) (w : world) :
  incl (merge_sort newest_first (uploads_of user_id w)) (uploads_collection w)
  /\ (forall u, In u (merge_sort newest_first (uploads_of user_id w)) <->
                In u (uploads_collection w) /\ upload_user_id u = user_id)
  /\ length (merge_sort newest_first (uploads_of user_id w))
     = length (uploads_of user_id w).
Proof.
  pose proof (merge_sort_Permutation newest_first (uploads_of user_id w)) as Hperm.
  assert (Hin : forall u, In u (merge_sort newest_first (uploads_of user_id w)) <->
                          In u (uploads_collection w) /\ upload_user_id u = user_id).
  { intros u. split.
    - intros Hu. apply (Permutation_in _ Hperm) in Hu.
      apply List.filter_In in Hu as [Hu Hid]. apply N.eqb_eq in Hid. auto.
    - intros [Hu Hid]. apply (Permutation_in _ (Permutation_sym Hperm)).
      apply List.filter_In. split; [exact Hu|]. apply N.eqb_eq. exact Hid. }
  split; [|split].
  - intros u Hu. apply Hin in Hu. tauto.
  - exact Hin.
  - apply Permutation_length. exact Hperm.
Qed.

(** X16. [/dashboard] shows a user nothing but their own data.  When the
    stored species names are strings, the page of a logged-in user is
    rendered without changing the world; every upload on it is a stored
    upload of that user, at most ten of them; [total_uploads] is the number
    of that user's stored uploads; and [unique_species] is the number of
    different non-empty species names among all of that user's uploads, each
    counted once, so never more than [total_uploads]. *)
Theorem dashboard_shows_own_uploads (user_id : ObjectId) (w : world) :
  string_named w = true ->
  exists uploads species,
    dashboard (Some user_id) w
    = (Ok (Render "dashboard.html"
             [ ("user", ArgUser (List.find (fun u => N.eqb (user__id u) user_id)
                                           (users_collection w)))
             ; ("uploads", ArgUploads uploads)
             ; ("total_uploads", ArgCount (length (uploads_of user_id w)))
             ; ("unique_species", ArgCount (length species)) ]), w)
    /\ (forall u, In u uploads ->
                  In u (uploads_collection w) /\ upload_user_id u = user_id)
    /\ length uploads = Nat.min 10 (length (uploads_of user_id w))
    /\ List.NoDup species
    /\ (forall v, In v species <->
                  exists u, In u (uploads_collection w)
                            /\ upload_user_id u = user_id
                            /\ species_name u = v /\ truthy v = true)
    /\ (length species <= length (uploads_of user_id w))%nat.
Proof.
  intros Hw.
  destruct (sorted_uploads_of user_id w) as (Hincl & Hin & Hlen).
  pose proof (named_species_strings w _ Hw Hincl) as Hstrings.
  exists (firstn 10 (merge_sort newest_first (uploads_of user_id w))),
    (distinct (named_species (merge_sort newest_first (uploads_of user_id w)))).
  split.
  - unfold dashboard, Upload_find_by_user_id, User_find_by_id, len_set.
    unfold_m. fold (uploads_of user_id w).
    fold (named_species (merge_sort newest_first (uploads_of user_id w))).
    rewrite (strings_hashable _ Hstrings). rewrite Hlen. reflexivity.
  - split; [|split; [|split; [|split]]].
    + intros u Hu. apply Hin. eapply in_firstn. exact Hu.
    + rewrite length_firstn, Hlen. reflexivity.
    + apply (distinct_strings _ Hstrings).
    + intros v. split.
      * intros Hv. apply distinct_incl in Hv. unfold named_species in Hv.
        apply List.filter_In in Hv as [Hv Htruthy].
        apply in_map_iff in Hv as (u & <- & Hu). apply Hin in Hu as [Hu Hid].
        exists u. auto.
      * intros (u & Hu & Hid & <- & Htruthy).
        apply (distinct_strings _ Hstrings). unfold named_species.
        apply List.filter_In. split; [|exact Htruthy].
        apply in_map. apply Hin. auto.
    + etransitivity; [apply distinct_length|].
      unfold named_species.
      etransitivity; [apply List.filter_length_le|].
      rewrite length_map, Hlen. reflexivity.
Qed.

Lemma dashboard_shows_own_uploads_witness :
  exists (uploads : list Upload) (species : list value),
    dashboard (Some 1%N) Scenario.sightings
    = (Ok (Render "dashboard.html"
             [ ("user", ArgUser (Some Scenario.alice))
             ; ("uploads", ArgUploads uploads)
             ; ("total_uploads", ArgCount 3)
             ; ("unique_species", ArgCount (length species)) ]),
       Scenario.sightings)
    /\ length uploads = 3%nat
    /\ List.NoDup species.
Proof.
  destruct (dashboard_shows_own_uploads 1%N Scenario.sightings eq_refl)
    as (uploads & species & Hrun & _ & Hlen & Hnodup & _).
  exists uploads, species. split; [exact Hrun|]. split; [exact Hlen|exact Hnodup].
Defined.

(** X17. [/profile] and [/dashboard] show the same user, the same uploads
    and the same total, but [/profile] counts the species of the (at most
    ten) uploads it shows, [/dashboard] those of all uploads of the user: the
    profile's [unique_species] is at most ten and at most the dashboard's,
    and the two agree for a user with at most ten uploads. *)
Theorem profile_counts_only_shown_species (user_id : ObjectId) (w : world) :
  string_named w = true ->
  exists user uploads total shown_species all_species,
    profile (Some user_id) w
    = (Ok (Render "profile.html"
             [ ("user", ArgUser user)
             ; ("uploads", ArgUploads uploads)
             ; ("total_uploads", ArgCount total)
             ; ("unique_species", ArgCount shown_species) ]), w)
    /\ dashboard (Some user_id) w
       = (Ok (Render "dashboard.html"
                [ ("user", ArgUser user)
                ; ("uploads", ArgUploads uploads)
                ; ("total_uploads", ArgCount total)
                ; ("unique_species", ArgCount all_species) ]), w)
    /\ shown_species = length (distinct (named_species uploads))
    /\ (shown_species <= all_species)%nat
    /\ (shown_species <= 10)%nat
    /\ ((total <= 10)%nat -> shown_species = all_species).
Proof.
  intros Hw.
  destruct (sorted_uploads_of user_id w) as (Hincl & Hin & Hlen).
  set (sorted := merge_sort newest_first (uploads_of user_id w)) in *.
  pose proof (named_species_strings w _ Hw Hincl) as Hstrings.
  assert (Hshown : incl (firstn 10 sorted) sorted).
  { intros u Hu. eapply in_firstn. exact Hu. }
  assert (Hstrings' : forallb is_string (named_species (firstn 10 sorted)) = true).
  { apply (named_species_strings w); [exact Hw|].
    intros u Hu. apply Hincl, Hshown, Hu. }
  exists (List.find (fun u => N.eqb (user__id u) user_id) (users_collection w)),
    (firstn 10 sorted), (length sorted),
    (length (distinct (named_species (firstn 10 sorted)))),
    (length (distinct (named_species sorted))).
  split; [|split; [|split; [|split; [|split]]]].
  - unfold profile, Upload_find_by_user_id, User_find_by_id, len_set.
    unfold_m. fold (uploads_of user_id w). fold sorted.
    fold (named_species (firstn 10 sorted)).
    rewrite (strings_hashable _ Hstrings'). reflexivity.
  - unfold dashboard, Upload_find_by_user_id, User_find_by_id, len_set.
    unfold_m. fold (uploads_of user_id w). fold sorted.
    fold (named_species sorted).
    rewrite (strings_hashable _ Hstrings). reflexivity.
  - reflexivity.
  - apply distinct_incl_length; [exact Hstrings|].
    unfold named_species. intros v Hv.
    apply List.filter_In in Hv as [Hv Htruthy].
    apply in_map_iff in Hv as (u & <- & Hu).
    apply List.filter_In. split; [|exact Htruthy]. apply in_map. auto.
  - etransitivity; [apply distinct_length|].
    unfold named_species.
    etransitivity; [apply List.filter_length_le|].
    rewrite length_map, length_firstn. lia.
  - intros Htotal. rewrite firstn_all2 by exact Htotal. reflexivity.
Qed.

Lemma profile_counts_only_shown_species_witness :
  exists user uploads,
    profile (Some 1%N) Scenario5.busy_user
    = (Ok (Render "profile.html"
             [ ("user", ArgUser user)
             ; ("uploads", ArgUploads uploads)
             ; ("total_uploads", ArgCount 11)
             ; ("unique_species", ArgCount 10) ]), Scenario5.busy_user)
    /\ dashboard (Some 1%N) Scenario5.busy_user
       = (Ok (Render "dashboard.html"
                [ ("user", ArgUser user)
                ; ("uploads", ArgUploads uploads)
                ; ("total_uploads", ArgCount 11)
                ; ("unique_species", ArgCount 11) ]), Scenario5.busy_user).
Proof.
  destruct (profile_counts_only_shown_species 1%N Scenario5.busy_user eq_refl)
    as (user & uploads & total & shown_species & all_species & Hp & Hd & _).
  assert (Hcounts : total = 11%nat /\ shown_species = 10%nat /\ all_species = 11%nat).
  { pose proof (f_equal fst Hp) as Hp'. pose proof (f_equal fst Hd) as Hd'.
    vm_compute in Hp', Hd'.
    injection Hp' as _ _ Htotal Hshown. injection Hd' as _ _ _ Hall.
    split; [|split]; congruence. }
  destruct Hcounts as (-> & -> & ->).
  exists user, uploads. split; assumption.
Defined.

(** ** Locations for old uploads *)

Lemma update_first_hit (f : Upload -> Upload) (pre rest : list Upload) (u : Upload) :
  ~ In (upload__id u) (map upload__id pre) ->
  List.find (fun x => N.eqb (upload__id x) (upload__id u)) (pre ++ u :: rest) = Some u
  /\ Retrofit.update_first (fun x => N.eqb (upload__id x) (upload__id u)) f
       (pre ++ u :: rest) = pre ++ f u :: rest.
Proof.
  induction pre as [|a pre IH]; cbn; intros Hnotin.
  - rewrite N.eqb_refl. auto.
  - destruct (N.eqb (upload__id a) (upload__id u)) eqn:E.
    + apply N.eqb_eq in E. exfalso. apply Hnotin. left. exact E.
    + destruct IH as [Hfind Hupd]; [intros H; apply Hnotin; right; exact H|].
      rewrite Hfind, Hupd. auto.
Qed.

Lemma unlocated_has_no_location (lat lng : Q) (u : Upload) :
  located u = false -> Retrofit.has_location lat lng u = false.
Proof.
  unfold located, Retrofit.has_location.
  destruct (latitude u), (longitude u); cbn; congruence.
Qed.

Lemma set_uploads_id (w : world) (l : list Upload) :
  uploads_collection w = l -> set_uploads (fun _ => l) w = w.
Proof. destruct w. cbn. intros ->. reflexivity. Qed.

Lemma ids_after_relocation (lat lng : Q) (pre rest : list Upload) (u : Upload) :
  map upload__id ((pre ++ [Retrofit.set_location lat lng u]) ++ rest)
  = map upload__id (pre ++ u :: rest).
Proof. rewrite <- app_assoc. rewrite !map_app. reflexivity. Qed.

Lemma retrofit_loop_spec (draws : nat -> nat) (todo : list Upload) :
  forall (drawn updated skipped : nat) (done : list Upload) (w : world),
    uploads_collection w = done ++ todo ->
    forallb is_string (map species_name todo) = true ->
    List.NoDup (map upload__id (done ++ todo)) ->
    Retrofit.retrofit_loop draws drawn todo updated skipped w
    = (Ok ((updated + length (List.filter locatable todo))%nat,
           (skipped + length (List.filter unlocatable todo))%nat),
       set_uploads (fun _ => done ++ relocate_all draws drawn todo) w).
Proof.
  induction todo as [|u rest IH]; intros drawn updated skipped done w Hw Hnames Hids.
  - cbn. unfold ret. rewrite !Nat.add_0_r. rewrite set_uploads_id; [reflexivity|].
    exact Hw.
  - cbn [map forallb] in Hnames. apply andb_prop in Hnames as [Hname Hnames].
    assert (Hstep : forall drawn' updated' skipped',
              Retrofit.retrofit_loop draws drawn' rest updated' skipped' w
              = (Ok ((updated' + length (List.filter locatable rest))%nat,
                     (skipped' + length (List.filter unlocatable rest))%nat),
                 set_uploads (fun _ => done ++ u :: relocate_all draws drawn' rest) w)).
    { intros drawn' updated' skipped'.
      rewrite (IH drawn' updated' skipped' (done ++ [u]) w).
      - rewrite <- app_assoc. reflexivity.
      - rewrite <- app_assoc. exact Hw.
      - exact Hnames.
      - rewrite <- app_assoc. exact Hids. }
    cbn [Retrofit.retrofit_loop relocate_all List.filter].
    change (Retrofit.is_not_none (latitude u) && Retrofit.is_not_none (longitude u))
      with (located u).
    assert (Hskip : regions_for (species_name u) = [] -> located u = false ->
              Retrofit.retrofit_loop draws drawn rest updated (S skipped) w
              = (Ok ((updated
                      + length (if locatable u
                                then u :: List.filter locatable rest
                                else List.filter locatable rest))%nat,
                     (skipped
                      + length (if unlocatable u
                                then u :: List.filter unlocatable rest
                                else List.filter unlocatable rest))%nat),
                 set_uploads
                   (fun _ => done
                             ++ (if locatable u
                                 then relocated (draws drawn) u
                                      :: relocate_all draws (S drawn) rest
                                 else u :: relocate_all draws drawn rest)) w)).
    { intros HR Hlocated. unfold locatable, unlocatable.
      rewrite HR, Hlocated. cbn [negb andb length].
      rewrite Hstep. rewrite Nat.add_succ_r. reflexivity. }
    destruct (located u) eqn:Hlocated.
    + unfold locatable, unlocatable. rewrite Hlocated. cbn [negb andb].
      apply Hstep.
    + destruct (species_name u) as [| | |s| |] eqn:Hspecies; try discriminate.
      cbn [Retrofit.species_mapping_get]. unfold_m.
      destruct (dict_get s Retrofit.species_mapping) as [[|c key]|] eqn:Hkey.
      * apply Hskip; [|reflexivity]. unfold regions_for. rewrite Hkey. reflexivity.
      * destruct (dict_get (String c key) Retrofit.SPECIES_DISTRIBUTION)
          as [distribution|] eqn:Hdist.
        -- destruct (Retrofit.regions distribution) as [|first others] eqn:Hregions.
           ++ apply Hskip; [|reflexivity].
              unfold regions_for. rewrite Hkey, Hdist. exact Hregions.
           ++ assert (HR : regions_for (VStr s) = first :: others).
              { unfold regions_for. rewrite Hkey, Hdist. exact Hregions. }
              unfold locatable, unlocatable, relocated.
              rewrite Hlocated, Hspecies, HR. cbn [negb andb].
              cbv zeta. unfold Retrofit.update_location. rewrite Hw.
              assert (Hnotin : ~ In (upload__id u) (map upload__id done)).
              { rewrite map_app in Hids. cbn in Hids.
                apply NoDup_remove_2 in Hids. intros Hin. apply Hids.
                apply in_or_app. left. exact Hin. }
              destruct (update_first_hit
                          (Retrofit.set_location
                             (Retrofit.region_lat
                                (nth (draws drawn mod length (first :: others))
                                   (first :: others) first))
                             (Retrofit.region_lng
                                (nth (draws drawn mod length (first :: others))
                                   (first :: others) first)))
                          done rest u Hnotin) as [Hfind Hupd].
              rewrite Hfind. rewrite unlocated_has_no_location by exact Hlocated.
              cbn [Nat.ltb Nat.leb].
              rewrite (IH (S drawn) (S updated) skipped
                         (done ++ [Retrofit.set_location
                             (Retrofit.region_lat
                                (nth (draws drawn mod length (first :: others))
                                   (first :: others) first))
                             (Retrofit.region_lng
                                (nth (draws drawn mod length (first :: others))
                                   (first :: others) first)) u])).
              ** unfold set_uploads. cbn [users_collection uploads_collection
                   global_stats_collection next_object_id clock trace length].
                 rewrite <- app_assoc. cbn [app].
                 rewrite Nat.add_succ_r. reflexivity.
              ** unfold set_uploads. cbn [uploads_collection].
                 rewrite Hw, Hupd, <- app_assoc. reflexivity.
              ** exact Hnames.
              ** rewrite ids_after_relocation. exact Hids.
        -- apply Hskip; [|reflexivity].
           unfold regions_for. rewrite Hkey, Hdist. reflexivity.
      * apply Hskip; [|reflexivity]. unfold regions_for. rewrite Hkey. reflexivity.
Qed.

Lemma nth_mod_in (k : nat) (first : Retrofit.Region) (others : list Retrofit.Region) :
  In (nth (k mod length (first :: others)) (first :: others) first)
     (first :: others).
Proof.
  apply nth_In. apply Nat.mod_upper_bound. discriminate.
Qed.

Lemma relocated_spec (k : nat) (u : Upload) :
  same_but_location u (relocated k u)
  /\ match regions_for (species_name u) with
     | [] => relocated k u = u
     | _ :: _ =>
         exists r, In r (regions_for (species_name u))
                   /\ latitude (relocated k u) = Some (Retrofit.region_lat r)
                   /\ longitude (relocated k u) = Some (Retrofit.region_lng r)
     end.
Proof.
  unfold relocated, same_but_location.
  destruct (regions_for (species_name u)) as [|first others].
  - repeat split.
  - cbv zeta. split; [repeat split|].
    eexists. split; [apply nth_mod_in|]. split; reflexivity.
Qed.

Lemma relocate_all_spec (draws : nat -> nat) (uploads : list Upload) (drawn : nat) :
  Forall2 (fun u u' =>
             same_but_location u u'
             /\ (located u = true -> u' = u)
             /\ (located u = false ->
                 match regions_for (species_name u) with
                 | [] => u' = u
                 | _ :: _ =>
                     exists r, In r (regions_for (species_name u))
                               /\ latitude u' = Some (Retrofit.region_lat r)
                               /\ longitude u' = Some (Retrofit.region_lng r)
                 end))
          uploads (relocate_all draws drawn uploads).
Proof.
  revert drawn. induction uploads as [|u rest IH]; intros drawn; cbn.
  - constructor.
  - unfold locatable.
    destruct (located u) eqn:Hlocated; cbn [negb andb].
    + constructor; [|apply IH].
      split; [repeat split|]. split; [reflexivity|congruence].
    + destruct (relocated_spec (draws drawn) u) as [Hsame Hregion].
      destruct (regions_for (species_name u)) as [|first others] eqn:HR.
      * constructor; [|apply IH].
        split; [repeat split|]. split; [congruence|]. rewrite HR. reflexivity.
      * constructor; [|apply IH].
        split; [exact Hsame|]. split; [congruence|]. intros _. rewrite HR.
        exact Hregion.
Qed.

Lemma relocated_not_locatable (k : nat) (u : Upload) :
  locatable u = true ->
  locatable (relocated k u) = false /\ unlocatable (relocated k u) = false.
Proof.
  unfold locatable, unlocatable, relocated.
  destruct (regions_for (species_name u)) as [|first others] eqn:HR.
  - rewrite andb_false_r. discriminate.
  - intros _. cbv zeta. split; reflexivity.
Qed.

Lemma relocate_all_settles (draws : nat -> nat) (uploads : list Upload) (drawn : nat) :
  List.filter locatable (relocate_all draws drawn uploads) = []
  /\ List.filter unlocatable (relocate_all draws drawn uploads)
     = List.filter unlocatable uploads
  /\ map species_name (relocate_all draws drawn uploads) = map species_name uploads
  /\ map upload__id (relocate_all draws drawn uploads) = map upload__id uploads.
Proof.
  revert drawn. induction uploads as [|u rest IH]; intros drawn; cbn.
  - auto.
  - destruct (locatable u) eqn:Hlocatable.
    + destruct (IH (S drawn)) as (H1 & H2 & H3 & H4).
      destruct (relocated_not_locatable (draws drawn) u Hlocatable) as [Hl Hu].
      destruct (relocated_spec (draws drawn) u) as [(Hid & _ & Hname & _) _].
      cbn. rewrite Hl, Hu, H1, H2, H3, H4, Hid, Hname.
      assert (Hunl : unlocatable u = false).
      { unfold locatable in Hlocatable. unfold unlocatable.
        destruct (located u); [reflexivity|].
        destruct (regions_for (species_name u)); [discriminate|reflexivity]. }
      rewrite Hunl. auto.
    + destruct (IH drawn) as (H1 & H2 & H3 & H4).
      cbn. rewrite Hlocatable, H1, H2, H3, H4. auto.
Qed.

Lemma relocate_all_fixed (draws : nat -> nat) (uploads : list Upload) (drawn : nat) :
  List.filter locatable uploads = [] -> relocate_all draws drawn uploads = uploads.
Proof.
  revert drawn. induction uploads as [|u rest IH]; intros drawn; cbn; [auto|].
  destruct (locatable u); [discriminate|]. intros H. rewrite IH; auto.
Qed.

(** What one run of [retrofit_locations] does. *)
Lemma retrofit_locations_spec (draws : nat -> nat) (w : world) :
  string_named w = true ->
  List.NoDup (map upload__id (uploads_collection w)) ->
  Retrofit.retrofit_locations draws w
  = (Ok (length (List.filter locatable (uploads_collection w)),
         length (List.filter unlocatable (uploads_collection w))),
     set_uploads (fun _ => relocate_all draws 0 (uploads_collection w)) w).
Proof.
  intros Hnames Hids. unfold Retrofit.retrofit_locations, Upload_find. unfold_m.
  apply (retrofit_loop_spec draws (uploads_collection w) 0 0 0 [] w);
    [reflexivity|exact Hnames|exact Hids].
Qed.

(** X18. [retrofit_locations] only fills in what is missing.  On a store
    whose uploads have different [_id]s and species names that are strings,
    it returns, whatever [random.choice] draws; users and statistics are
    untouched; the uploads are the same documents in the same order, changed
    in their coordinates at most; an upload that has both coordinates is
    left as it is; an upload that lacks one gets the coordinates of one of
    the regions of its species, or is left as it is when there are none.
    The first count is the number of uploads that got a location, the second
    the number of those without regions, so together they count the uploads
    that lacked a coordinate: an upload that already had its location is in
    neither count. *)
Theorem retrofit_fills_missing_locations (draws : nat -> nat) (w : world) :
  string_named w = true ->
  List.NoDup (map upload__id (uploads_collection w)) ->
  exists updated skipped w',
    Retrofit.retrofit_locations draws w = (Ok (updated, skipped), w')
    /\ users_collection w' = users_collection w
    /\ global_stats_collection w' = global_stats_collection w
    /\ Forall2 (fun u u' =>
                  same_but_location u u'
                  /\ (located u = true -> u' = u)
                  /\ (located u = false ->
                      match regions_for (species_name u) with
                      | [] => u' = u
                      | _ :: _ =>
                          exists r, In r (regions_for (species_name u))
                                    /\ latitude u' = Some (Retrofit.region_lat r)
                                    /\ longitude u' = Some (Retrofit.region_lng r)
                      end))
               (uploads_collection w) (uploads_collection w')
    /\ updated = length (List.filter locatable (uploads_collection w))
    /\ skipped = length (List.filter unlocatable (uploads_collection w))
    /\ (updated + skipped
        = length (List.filter (fun u => negb (located u)) (uploads_collection w)))%nat.
Proof.
  intros Hnames Hids.
  eexists. eexists. eexists.
  split; [apply retrofit_locations_spec; assumption|].
  split; [reflexivity|]. split; [reflexivity|].
  split; [apply relocate_all_spec|].
  split; [reflexivity|]. split; [reflexivity|].
  clear Hnames Hids.
  induction (uploads_collection w) as [|u rest IH]; [reflexivity|].
  cbn [List.filter]. unfold locatable at 1, unlocatable at 1.
  destruct (located u); cbn [negb andb]; [exact IH|].
  destruct (regions_for (species_name u)); cbn [length]; lia.
Qed.

(** X19. [retrofit_locations] is idempotent: after one run (on a store whose
    uploads have different [_id]s and species names that are strings) a
    second run, whatever it draws, updates nothing, skips the same number of
    uploads and leaves the store as the first run left it. *)
Theorem retrofit_is_idempotent (draws again : nat -> nat) (w : world) :
  string_named w = true ->
  List.NoDup (map upload__id (uploads_collection w)) ->
  exists updated skipped w',
    Retrofit.retrofit_locations draws w = (Ok (updated, skipped), w')
    /\ Retrofit.retrofit_locations again w' = (Ok (0%nat, skipped), w').
Proof.
  intros Hnames Hids.
  destruct (relocate_all_settles draws (uploads_collection w) 0)
    as (Hnone & Hsame & Hspecies & Hid).
  eexists. eexists. eexists.
  split; [apply retrofit_locations_spec; assumption|].
  rewrite retrofit_locations_spec.
  - unfold set_uploads. cbn [users_collection uploads_collection
      global_stats_collection next_object_id clock trace].
    rewrite Hnone, Hsame.
    rewrite relocate_all_fixed by exact Hnone. reflexivity.
  - unfold string_named, set_uploads. cbn [uploads_collection].
    rewrite Hspecies. exact Hnames.
  - unfold set_uploads. cbn [uploads_collection]. rewrite Hid. exact Hids.
Qed.

Lemma scan_objects_key (objects : list LocalizedObject) (best : string) (hc : Q) :
  Vision.scan_objects objects = (Some best, hc) ->
  In best (map fst Vision.marine_keywords).
Proof.
  intros Hscan.
  pose proof (scan_objects_invariant objects [] (None, 0%Q)) as Hinv.
  fold (Vision.scan_objects objects) in Hinv. rewrite Hscan in Hinv.
  destruct Hinv as [_ Hbest]; [split; [intros obj []|reflexivity]|].
  cbn [fst] in Hbest. destruct Hbest as (_ & obj & item & _ & Hitem & <- & _).
  apply in_map. exact Hitem.
Qed.

Lemma vision_names (env : Env) (image_path : string) (w : world) :
  exists d w' s,
    Vision.identify_marine_species_with_vision_api env image_path w = (Ok d, w')
    /\ dict_get "name" d = Some (VStr s)
    /\ (s = "Unknown Marine Species" \/ s = "Vision API Error"
        \/ exists key, In key (map fst Vision.marine_keywords)
                       /\ s = Str.title (Str.replace_underscore key)).
Proof.
  unfold Vision.identify_marine_species_with_vision_api,
    Vision.get_species_details_from_gemini.
  unfold_m.
  assert (Herror : forall (e : exn) (w' : world),
            exists d w0 s,
              (Ok (Vision.vision_api_error e), w') = (Ok d, w0)
              /\ dict_get "name" d = Some (VStr s)
              /\ (s = "Unknown Marine Species" \/ s = "Vision API Error"
                  \/ exists key, In key (map fst Vision.marine_keywords)
                                 /\ s = Str.title (Str.replace_underscore key))).
  { intros e w'. eexists. eexists. eexists.
    split; [reflexivity|]. split; [reflexivity|]. auto. }
  assert (Hunknown : forall w' : world,
            exists d w0 s,
              (Ok Vision.unknown_marine_species, w') = (Ok d, w0)
              /\ dict_get "name" d = Some (VStr s)
              /\ (s = "Unknown Marine Species" \/ s = "Vision API Error"
                  \/ exists key, In key (map fst Vision.marine_keywords)
                                 /\ s = Str.title (Str.replace_underscore key))).
  { intros w'. eexists. eexists. eexists.
    split; [reflexivity|]. split; [reflexivity|]. auto. }
  destruct (setup_vision_client env) as [annotate|]; [|apply Herror].
  destruct (annotate image_path) as [response|e]; [|apply Herror].
  destruct (negb _); [apply Herror|].
  destruct (Vision.scan_objects _) as [[[|c s]|] hc] eqn:Hscan;
    [apply Hunknown| |apply Hunknown].
  apply scan_objects_key in Hscan.
  assert (Hnamed : forall (d : dict value) (w' : world),
            dict_get "name" d
            = Some (VStr (Str.title (Str.replace_underscore (String c s)))) ->
            exists d0 w0 s0,
              (Ok d, w') = (Ok d0, w0)
              /\ dict_get "name" d0 = Some (VStr s0)
              /\ (s0 = "Unknown Marine Species" \/ s0 = "Vision API Error"
                  \/ exists key, In key (map fst Vision.marine_keywords)
                                 /\ s0 = Str.title (Str.replace_underscore key))).
  { intros d w' Hd. exists d, w'. eexists.
    split; [reflexivity|]. split; [exact Hd|]. right. right.
    exists (String c s). auto. }
  destruct (gemini_model env) as [generate|]; [|cbn; apply Hnamed; reflexivity].
  cbn.
  destruct (generate _) as [v|e]; [|cbn; apply Hnamed; reflexivity].
  repeat (match goal with
          | |- context [subscript v ?k] => destruct (subscript v k)
          end; [|apply Herror]).
  apply Hnamed. reflexivity.
Qed.

Lemma identify_result_origin (env : Env) (image_path : string) (w w' : world)
  (d : dict value) :
  App.identify_species_with_h5 env image_path w = (Ok (Some d), w') ->
  (exists species_name,
     In species_name Species.SPECIES_NAMES
     /\ dict_get "name" d
        = Some (App.details_get (Species.get_animal_details species_name)
                  "name" species_name))
  \/ Vision.identify_marine_species_with_vision_api env image_path
       (after_local_model env image_path w) = (Ok d, w').
Proof.
  intros Hrun.
  destruct (local_model_answers_or_declines env image_path)
    as [(predict & predictions & highest & index & Hmodel & Hpredict & Hmax
         & Hargmax & Hgt & Hlt)|Hdeclines].
  - left.
    unfold App.identify_species_with_h5, App.h5_model_step in Hrun.
    rewrite Hmodel in Hrun. unfold_m. rewrite Hpredict, Hmax, Hargmax, Hgt in Hrun.
    rewrite (proj2 (Nat.ltb_lt _ _) Hlt) in Hrun. cbn [andb] in Hrun.
    destruct (nth_error Species.SPECIES_NAMES index) as [species_name|] eqn:Hnth;
      [|apply nth_error_None in Hnth; lia].
    injection Hrun as <- <-.
    exists species_name. split; [eapply nth_error_In; exact Hnth|reflexivity].
  - right.
    pose proof (declined_image_cases env image_path w Hdeclines) as Hcase.
    destruct (VISION_API_AVAILABLE env).
    + destruct Hcase as (d' & w1 & Hv & Hid).
      rewrite Hid in Hrun. injection Hrun as <- <-. exact Hv.
    + rewrite Hcase in Hrun. discriminate.
Qed.

Lemma existsb_eqb_in (s : string) (l : list string) :
  existsb (String.eqb s) l = true -> In s l.
Proof.
  intros H. apply existsb_exists in H as (x & Hx & Heq).
  apply String.eqb_eq in Heq. congruence.
Qed.

Lemma local_names :
  map (fun s => App.details_get (Species.get_animal_details s) "name" s)
      Species.SPECIES_NAMES
  = map VStr [ "Coral"; "Fish"; "Jellyfish"; "Lobster"; "Penguin"; "Seal";
               "Sharks"; "Squid"; "Turtle" ].
Proof. vm_compute. reflexivity. Qed.

Lemma vision_species_names :
  map (fun key => Str.title (Str.replace_underscore key))
      (map fst Vision.marine_keywords)
  = [ "Fish"; "Sharks"; "Turtle Tortoise"; "Dolphin"; "Whale"; "Octopus";
      "Jelly Fish"; "Seahorse"; "Starfish"; "Crabs"; "Lobster"; "Shrimp";
      "Corals"; "Sea Urchins"; "Eel"; "Sea Rays"; "Seal"; "Penguin";
      "Puffers" ].
Proof. vm_compute. reflexivity. Qed.

Lemma names_with_regions (s : string) :
  In s [ "Coral"; "Fish"; "Jellyfish"; "Lobster"; "Penguin"; "Seal";
         "Sharks"; "Squid"; "Turtle";
         "Turtle Tortoise"; "Dolphin"; "Whale"; "Octopus"; "Jelly Fish";
         "Seahorse"; "Starfish"; "Crabs"; "Shrimp"; "Corals";
         "Sea Urchins"; "Eel"; "Sea Rays"; "Puffers";
         "Unknown Marine Species"; "Vision API Error" ] ->
  regions_for (VStr s) <> [] ->
  s = "Jellyfish" \/ s = "Sea Rays" \/ s = "Starfish".
Proof.
  intros Hin.
  repeat (destruct Hin as [<-|Hin];
          [let H := fresh in
           intros H;
           first [ left; reflexivity
                 | right; left; reflexivity
                 | right; right; reflexivity
                 | exfalso; apply H; vm_compute; reflexivity ]|]).
  destruct Hin.
Qed.

(** X20. Every result of [identify_species_with_h5] is named by one of
    twenty-five strings: the names of the nine classes of the local model,
    the species of the vision keywords in title case, or one of the two
    placeholder names.  Of these, [retrofit_locations] has regions for
    "Jellyfish", "Sea Rays" and "Starfish" only: an upload that the
    application named "Dolphin", "Whale", "Sharks" or "Octopus" never gets a
    location from it. *)
Theorem retrofit_reaches_three_names (env : Env) (image_path : string)
  (w w' : world) (d : dict value) :
  App.identify_species_with_h5 env image_path w = (Ok (Some d), w') ->
  exists s,
    dict_get "name" d = Some (VStr s)
    /\ In s [ "Coral"; "Fish"; "Jellyfish"; "Lobster"; "Penguin"; "Seal";
              "Sharks"; "Squid"; "Turtle";
              "Turtle Tortoise"; "Dolphin"; "Whale"; "Octopus"; "Jelly Fish";
              "Seahorse"; "Starfish"; "Crabs"; "Shrimp"; "Corals";
              "Sea Urchins"; "Eel"; "Sea Rays"; "Puffers";
              "Unknown Marine Species"; "Vision API Error" ]
    /\ (regions_for (VStr s) <> [] ->
        s = "Jellyfish" \/ s = "Sea Rays" \/ s = "Starfish").
Proof.
  intros Hrun.
  assert (Hnames : exists s,
            dict_get "name" d = Some (VStr s)
            /\ In s [ "Coral"; "Fish"; "Jellyfish"; "Lobster"; "Penguin"; "Seal";
                      "Sharks"; "Squid"; "Turtle";
                      "Turtle Tortoise"; "Dolphin"; "Whale"; "Octopus"; "Jelly Fish";
                      "Seahorse"; "Starfish"; "Crabs"; "Shrimp"; "Corals";
                      "Sea Urchins"; "Eel"; "Sea Rays"; "Puffers";
                      "Unknown Marine Species"; "Vision API Error" ]).
  { destruct (identify_result_origin env image_path w w' d Hrun)
      as [(species_name & Hin & Hname)|Hvision].
    - apply (in_map (fun s => App.details_get (Species.get_animal_details s) "name" s))
        in Hin.
      rewrite local_names in Hin. apply in_map_iff in Hin as (s & Hs & Hin).
      exists s. split; [congruence|].
      apply existsb_eqb_in.
      repeat (destruct Hin as [<-|Hin]; [vm_compute; reflexivity|]).
      destruct Hin.
    - destruct (vision_names env image_path (after_local_model env image_path w))
        as (d' & w1 & s & Hv & Hname & Hs).
      rewrite Hvision in Hv. injection Hv as <- <-.
      exists s. split; [exact Hname|].
      apply existsb_eqb_in.
      destruct Hs as [->|[->|(key & Hkey & ->)]];
        [vm_compute; reflexivity|vm_compute; reflexivity|].
      apply (in_map (fun key => Str.title (Str.replace_underscore key))) in Hkey.
      rewrite vision_species_names in Hkey.
      repeat (destruct Hkey as [<-|Hkey]; [vm_compute; reflexivity|]).
      destruct Hkey. }
  destruct Hnames as (s & Hname & Hin).
  exists s. split; [exact Hname|]. split; [exact Hin|].
  apply names_with_regions. exact Hin.
Qed.

Lemma retrofit_fills_missing_locations_witness :
  exists w',
    Retrofit.retrofit_locations Scenario6.third Scenario6.old_uploads
    = (Ok (1%nat, 1%nat), w')
    /\ length (uploads_collection w') = 3%nat.
Proof.
  destruct (retrofit_fills_missing_locations Scenario6.third Scenario6.old_uploads)
    as (updated & skipped & w' & Hrun & _ & _ & Hall & -> & -> & _).
  - reflexivity.
  - repeat (constructor; [cbn; intuition discriminate|]). constructor.
  - exists w'. split; [exact Hrun|].
    apply Forall2_length in Hall. rewrite <- Hall. reflexivity.
Defined.

Lemma retrofit_is_idempotent_witness :
  exists w',
    Retrofit.retrofit_locations Scenario6.third Scenario6.old_uploads
    = (Ok (1%nat, 1%nat), w')
    /\ Retrofit.retrofit_locations (fun n => n) w' = (Ok (0%nat, 1%nat), w').
Proof.
  destruct (retrofit_is_idempotent Scenario6.third (fun n => n)
              Scenario6.old_uploads)
    as (updated & skipped & w' & Hrun & Hagain).
  - reflexivity.
  - repeat (constructor; [cbn; intuition discriminate|]). constructor.
  - pose proof (f_equal fst Hrun) as Hcounts. vm_compute in Hcounts.
    injection Hcounts as <- <-.
    exists w'. split; assumption.
Defined.

Lemma retrofit_reaches_three_names_witness :
  exists d w' s,
    App.identify_species_with_h5 Scenario.confident_model "reef.jpg"
      Scenario.one_user = (Ok (Some d), w')
    /\ dict_get "name" d = Some (VStr s)
    /\ regions_for (VStr s) = [].
Proof.
  destruct (App.identify_species_with_h5 Scenario.confident_model "reef.jpg"
              Scenario.one_user) as [[[d|]|e] w'] eqn:Hrun;
    try (vm_compute in Hrun; discriminate).
  destruct (retrofit_reaches_three_names Scenario.confident_model "reef.jpg"
              Scenario.one_user w' d Hrun) as (s & Hname & _ & _).
  exists d, w', s. split; [reflexivity|]. split; [exact Hname|].
  vm_compute in Hrun. injection Hrun as <- _.
  vm_compute in Hname. injection Hname as <-. reflexivity.
Defined.

(** ** Profile update *)

Import Profile.

Lemma replace_first_spec (p : User -> bool) (f : User -> User) (l : list User) :
  Forall2 (fun u u' => (p u = false -> u' = u) /\ (u' = u \/ u' = f u))
          l (replace_first p f l).
Proof.
  assert (Hsame : forall l' : list User,
            Forall2 (fun u u' => (p u = false -> u' = u) /\ (u' = u \/ u' = f u)) l' l').
  { induction l' as [|a l' IH]; constructor; auto. }
  induction l as [|u rest IH]; cbn; [constructor|].
  destruct (p u) eqn:Hp.
  - constructor; [|apply Hsame]. split; [congruence|auto].
  - constructor; [auto|exact IH].
Qed.

Lemma replace_first_find (p : User -> bool) (f : User -> User) (l : list User)
  (user : User) :
  List.find p l = Some user -> p (f user) = true ->
  List.find p (replace_first p f l) = Some (f user).
Proof.
  induction l as [|u rest IH]; cbn; [discriminate|].
  destruct (p u) eqn:Hp.
  - intros [= <-] Hf. cbn. rewrite Hf. reflexivity.
  - intros Hfind Hf. cbn. rewrite Hp. auto.
Qed.

Lemma remove_first_keeps (p : User -> bool) (l : list User) (u : User) :
  In u l -> p u = false -> In u (remove_first p l).
Proof.
  induction l as [|a rest IH]; cbn; [auto|].
  intros [<-|Hin] Hp.
  - rewrite Hp. left. reflexivity.
  - destruct (p a); [exact Hin|]. right. auto.
Qed.

Lemma existsb_false_in {A : Type} (f : A -> bool) (l : list A) (x : A) :
  existsb f l = false -> In x l -> f x = false.
Proof.
  intros H Hin. destruct (f x) eqn:Hf; [|reflexivity].
  rewrite <- H. symmetry. apply existsb_exists. eauto.
Qed.

Lemma users_unchanged (l : list User) (user_id : ObjectId) :
  Forall2 (fun u u' =>
             user__id u' = user__id u
             /\ password_hash u' = password_hash u
             /\ firebase_uid u' = firebase_uid u
             /\ created_at u' = created_at u
             /\ (user__id u <> user_id -> u' = u)) l l.
Proof. induction l; constructor; auto 10. Qed.

(** X21. For a JSON body that is [null] or an object whose [username],
    [email] and [bio] are each a string, [null] or absent (a body with
    another JSON value in one of them is outside this statement: the source
    stores a truthy one as it is), [/update_profile] always answers, and
    touches nothing but the profile of the session's user: uploads and
    statistics are as before, every user document keeps its [_id], password
    hash, Firebase uid and creation date, and the documents of the other
    users are unchanged.  When it answers with status 200, the session's
    user exists and their document now holds, for the username and for the
    email, the string of the body when that is not empty, and the old value
    when the body has the empty string, [null] or nothing there; for the
    biography, the string of the body (also the empty one), and the old
    value when the body has [null] or nothing there; and no other user has
    that username or that email.  With any other answer the users are as
    before. *)
Theorem update_profile_changes_own_document (user_id : ObjectId)
  (body : value) (data : option ProfileData) (w : world) :
  read_body body = Some data ->
  exists resp w',
    update_profile (Some user_id) data w = (Ok resp, w')
    /\ uploads_collection w' = uploads_collection w
    /\ global_stats_collection w' = global_stats_collection w
    /\ Forall2 (fun u u' =>
                  user__id u' = user__id u
                  /\ password_hash u' = password_hash u
                  /\ firebase_uid u' = firebase_uid u
                  /\ created_at u' = created_at u
                  /\ (user__id u <> user_id -> u' = u))
               (users_collection w) (users_collection w')
    /\ match resp with
       | Json 200 _ =>
           exists user d,
             let new_username :=
               if truthy_str (data_username d) then data_username d
               else username user in
             let new_email :=
               if truthy_str (data_email d) then data_email d else email user in
             let new_bio :=
               if Retrofit.is_not_none (data_bio d) then data_bio d else bio user in
             data = Some d
             /\ List.find (fun u => N.eqb (user__id u) user_id) (users_collection w)
                = Some user
             /\ List.find (fun u => N.eqb (user__id u) user_id) (users_collection w')
                = Some (set_profile new_username new_email new_bio user)
             /\ (forall other, In other (users_collection w) ->
                   user__id other <> user_id ->
                   field_eqb (username other) new_username = false
                   /\ field_eqb (email other) new_email = false)
       | _ => users_collection w' = users_collection w
       end.
Proof.
  intros _.
  unfold update_profile, User_find_by_id, User_update. unfold_m.
  destruct data as [d|];
    [|eexists; eexists; split; [reflexivity|]; cbn;
      repeat split; auto using users_unchanged].
  destruct (List.find (fun u => N.eqb (user__id u) user_id) (users_collection w))
    as [user|] eqn:Hfound.
  2: { destruct (truthy_str (data_username d));
         [|destruct (truthy_str (data_email d));
           [|destruct (Retrofit.is_not_none (data_bio d))]];
         (eexists; eexists; split; [reflexivity|]); cbn;
         repeat split; auto using users_unchanged. }

  pose proof (find_some _ _ Hfound) as [_ Hid]. apply N.eqb_eq in Hid.
  cbv zeta. rewrite Hid. rewrite Hfound.
  destruct (existsb _ (remove_first _ (users_collection w))) eqn:Htaken.
  - eexists; eexists; split; [reflexivity|]; cbn.
    repeat split; auto using users_unchanged.
  - eexists; eexists; split; [reflexivity|].
    cbn [users_collection uploads_collection global_stats_collection set_users].
    split; [reflexivity|]. split; [reflexivity|]. split.
    + eapply Forall2_impl; [apply replace_first_spec|].
      intros u u' [Hother Hcase]. cbn beta in *.
      destruct Hcase as [-> | ->]; cbn; repeat split; auto.
      intros Hne. apply Hother. apply N.eqb_neq. exact Hne.
    + exists user, d. cbv zeta.
      split; [reflexivity|]. split; [reflexivity|]. split.
      * apply replace_first_find; [exact Hfound|]. cbn. rewrite Hid.
        apply N.eqb_refl.
      * intros other Hin Hne.
        apply orb_false_elim.
        apply (existsb_false_in _ _ other Htaken).
        apply remove_first_keeps; [exact Hin|]. apply N.eqb_neq. exact Hne.
Qed.

Lemma update_profile_changes_own_document_witness :
  read_body Scenario7.rename_body = Some (Some Scenario7.rename)
  /\ exists body w',
      update_profile (Some 1%N) (Some Scenario7.rename) Scenario.two_users
      = (Ok (Json 200 body), w')
      /\ List.find (fun u => N.eqb (user__id u) 1%N) (users_collection w')
         = Some (set_profile (Some "Alicia") (Some "alice@example.org")
                   (Some "Diver") Scenario.alice).
Proof.
  split; [reflexivity|].
  destruct (update_profile_changes_own_document 1%N Scenario7.rename_body
              (Some Scenario7.rename) Scenario.two_users eq_refl)
    as (resp & w' & Hrun & _ & _ & _ & Hresp).
  pose proof (f_equal fst Hrun) as Hfst. vm_compute in Hfst.
  destruct resp as [code body|endpoint|template context]; try discriminate.
  injection Hfst as Hcode _. subst code.
  destruct Hresp as (user & d & Hresp). cbv zeta in Hresp.
  destruct Hresp as (Hd & Huser & Hfind & _).
  injection Hd as <-. cbn in Huser. injection Huser as <-.
  exists body, w'. split; [exact Hrun|exact Hfind].
Defined.

(** X22. A user cannot take the username or the email of another user
    through [/update_profile]: the unique indexes refuse the update, the
    answer is the JSON error with status 400 and the message of the
    duplicate key error, and the world is exactly as before. *)
Theorem update_profile_refuses_taken_name (user_id : ObjectId) (d : ProfileData)
  (w : world) (user other : User) :
  List.find (fun u => N.eqb (user__id u) user_id) (users_collection w) = Some user ->
  In other (users_collection w) ->
  user__id other <> user_id ->
  (truthy_str (data_username d) = true /\ username other = data_username d)
  \/ (truthy_str (data_email d) = true /\ email other = data_email d) ->
  update_profile (Some user_id) (Some d) w
  = (Ok (Json 400 (VDict [ ("success", VBool false)
                         ; ("message", VStr "E11000 duplicate key error collection") ])),
     w).
Proof.
  intros Hfound Hin Hne Htaken.
  unfold update_profile, User_find_by_id, User_update. unfold_m.
  rewrite Hfound.
  pose proof (find_some _ _ Hfound) as [_ Hid]. apply N.eqb_eq in Hid.
  cbv zeta. rewrite Hid, Hfound.
  assert (Hexists : existsb
            (fun u => field_eqb (username u)
                        (if truthy_str (data_username d) then data_username d
                         else username user)
                      || field_eqb (email u)
                           (if truthy_str (data_email d) then data_email d
                            else email user))
            (remove_first (fun u => N.eqb (user__id u) user_id) (users_collection w))
            = true).
  { apply existsb_exists. exists other. split.
    - apply remove_first_keeps; [exact Hin|]. apply N.eqb_neq. exact Hne.
    - destruct Htaken as [[Ht Heq]|[Ht Heq]]; rewrite Ht, <- Heq, field_eqb_refl.
      + reflexivity.
      + apply orb_true_r. }
  rewrite Hexists. reflexivity.
Qed.

Lemma update_profile_refuses_taken_name_witness :
  update_profile (Some 1%N) (Some Scenario7.take_name) Scenario.two_users
  = (Ok (Json 400 (VDict [ ("success", VBool false)
                         ; ("message", VStr "E11000 duplicate key error collection") ])),
     Scenario.two_users).
Proof.
  apply (update_profile_refuses_taken_name 1%N Scenario7.take_name
           Scenario.two_users Scenario.alice Scenario.alice_1).
  - reflexivity.
  - right. left. reflexivity.
  - discriminate.
  - left. split; reflexivity.
Defined.

(** ** Password login *)

Import Login.

(** X23. A user who has just registered cannot log in with the password
    they chose.  [register] stores the hash of the hash of the password, and
    [/login] checks the typed password against what is stored.  For a
    password library whose check accepts a hash exactly for the password it
    was made from, and whose hash of the password is not empty and differs
    from the password: after a successful registration, [/login] with the
    same name and password flashes "Invalid username/email or password" and
    logs nobody in, while [/login] with the hash of the password in the
    password field logs the new user in and redirects to the dashboard. *)
Theorem registered_password_is_refused (env : Env)
  (check_password_hash : option string -> option string -> res bool)
  (w : world) (name mail : option string) (p : string) :
  (forall x y, check_password_hash (Some (generate_password_hash env x)) (Some y)
               = Ok (String.eqb x y)) ->
  generate_password_hash env p <> p ->
  generate_password_hash env p <> "" ->
  (forall u, In u (users_collection w) -> username u <> name) ->
  (forall u, In u (users_collection w) -> email u <> mail) ->
  exists user w1,
    register env (mkRegisterRequest "POST" name mail (Some p)) w
    = (Ok (Redirect "login"), w1)
    /\ users_collection w1 = users_collection w ++ [user]
    /\ login check_password_hash (mkLoginRequest false "POST" name (Some p) None) w1
       = (Ok (Render "login.html" []),
          mkWorld (users_collection w1) (uploads_collection w1)
                  (global_stats_collection w1) (next_object_id w1) (clock w1)
                  (trace w1 ++ [EvFlash invalid_login "error"]))
    /\ login check_password_hash
         (mkLoginRequest false "POST" name
            (Some (generate_password_hash env p)) None) w1
       = (Ok (Redirect "dashboard"),
          mkWorld (users_collection w1) (uploads_collection w1)
                  (global_stats_collection w1) (next_object_id w1) (clock w1)
                  (trace w1 ++ [ EvLogin (user__id user)
                               ; EvFlash "Successfully logged in!" "success"
                               ; EvFlash "Login successful!" "success" ])).
Proof.
  intros Hcheck Hdiff Hnonempty Hname Hemail.
  assert (Hfind_name :
            List.find (fun u => field_eqb (username u) name) (users_collection w)
            = None).
  { apply find_absent. intros u Hu. apply field_eqb_neq. auto. }
  assert (Hfind_email :
            List.find (fun u => field_eqb (email u) mail) (users_collection w)
            = None).
  { apply find_absent. intros u Hu. apply field_eqb_neq. auto. }
  destruct (generate_password_hash env p) as [|c hashed] eqn:Hhash;
    [contradiction|].
  eexists. eexists. split; [|split; [|split]].
  - unfold register. cbn [method form_username form_email form_password].
    rewrite String.eqb_refl.
    unfold User_find_by_username, User_find_by_email, flash, User_init,
      User_save, new_object_id, utcnow, set_users.
    unfold_m. rewrite Hfind_name, Hfind_email, Hhash.
    cbn [users_collection uploads_collection global_stats_collection
         next_object_id clock trace username email].
    rewrite existsb_absent; [reflexivity|].
    intros u Hu. rewrite (field_eqb_neq _ _ (Hname u Hu)),
      (field_eqb_neq _ _ (Hemail u Hu)). reflexivity.
  - reflexivity.
  - unfold login, User_find_by_username, User_check_password, flash, login_user.
    cbn [is_authenticated login_method login_username login_password next].
    rewrite String.eqb_refl. unfold_m.
    cbn [users_collection].
    rewrite (find_app_absent _ _ _ Hfind_name) by apply field_eqb_refl.
    cbn [password_hash]. rewrite <- Hhash, Hcheck.
    assert (Hne : String.eqb (generate_password_hash env p) p = false).
    { apply String.eqb_neq. rewrite Hhash. exact Hdiff. }
    rewrite Hne. reflexivity.
  - unfold login, User_find_by_username, User_check_password, flash, login_user.
    cbn [is_authenticated login_method login_username login_password next].
    rewrite String.eqb_refl. unfold_m.
    cbn [users_collection].
    rewrite (find_app_absent _ _ _ Hfind_name) by apply field_eqb_refl.
    cbn [password_hash]. rewrite <- Hhash, Hcheck, String.eqb_refl.
    cbn [users_collection uploads_collection global_stats_collection
         next_object_id clock trace user__id].
    rewrite <- !app_assoc. reflexivity.
Qed.

Lemma registered_password_is_refused_witness :
  exists w1,
    fst (register Scenario.nothing_available Scenario3.bob_registers
           Scenario.one_user) = Ok (Redirect "login")
    /\ snd (register Scenario.nothing_available Scenario3.bob_registers
              Scenario.one_user) = w1
    /\ fst (login Scenario8.check (Scenario8.bob_logs_in "pw") w1)
       = Ok (Render "login.html" [])
    /\ fst (login Scenario8.check (Scenario8.bob_logs_in "pbkdf2:pw") w1)
       = Ok (Redirect "dashboard").
Proof.
  destruct (registered_password_is_refused Scenario.nothing_available
              Scenario8.check Scenario.one_user (Some "Bob")
              (Some "bob@example.org") "pw")
    as (user & w1 & Hregister & _ & Hrefused & Haccepted).
  - intros x y. reflexivity.
  - discriminate.
  - discriminate.
  - intros u [<-|[]]. discriminate.
  - intros u [<-|[]]. discriminate.
  - exists w1. unfold Scenario3.bob_registers, Scenario8.bob_logs_in.
    rewrite Hregister. cbn [fst snd].
    split; [reflexivity|]. split; [reflexivity|].
    split; [exact (f_equal fst Hrefused)|exact (f_equal fst Haccepted)].
Defined.

(** ** The JSON endpoint *)

(** X24. [/predict] never answers with status 200, whatever the request, the
    services and the store.  It always answers; when its status is 500, either
    the identification gave nothing, the message is the one about
    ['User' object has no attribute 'id'] and no upload was stored, or the
    identification gave a record, the message is the one about
    ['Upload' object has no attribute 'id'] and the upload (named and scored
    as identified, owned by the session's user, without coordinates) has
    been stored all the same.  With any other answer the uploads are as
    before. *)
Theorem predict_never_succeeds (env : Env) (request : UploadRequest) (w : world) :
  exists resp w',
    predict env request w = (Ok resp, w')
    /\ match resp with
       | Json 200 _ => False
       | Json 500 body =>
           (body = VDict [ ("status", VStr "error")
                         ; ("message",
                            VStr "Server error: 'User' object has no attribute 'id'") ]
            /\ uploads_collection w' = uploads_collection w)
           \/ (exists user_id name species confidence,
                 session_user_id request = Some user_id
                 /\ file request = Some name
                 /\ body = VDict [ ("status", VStr "error")
                                 ; ("message",
                                    VStr "Server error: 'Upload' object has no attribute 'id'") ]
                 /\ uploads_collection w'
                    = uploads_collection w
                      ++ [mkUpload (next_object_id w)
                            (strftime env (clock w) +:+ secure_filename env name)
                            (VStr species) (VNum confidence) user_id None None
                            (clock w)])
       | _ => uploads_collection w' = uploads_collection w
       end.
Proof.
  unfold predict.
  destruct (session_user_id request) as [user_id|] eqn:Hsession;
    [|unfold flash; unfold_m; eexists; eexists; split; [reflexivity|]; cbn; auto].
  destruct (file request) as [[|c name]|] eqn:Hfile;
    try (unfold_m; eexists; eexists; split; [reflexivity|]; cbn; auto; fail).
  destruct (App.allowed_file (String c name)) eqn:Hallowed; cbn [negb];
    [|unfold_m; eexists; eexists; split; [reflexivity|]; cbn; auto].
  unfold stored_name, utcnow, User_find_by_id. unfold_m.
  cbn [users_collection uploads_collection global_stats_collection
       next_object_id clock trace].
  destruct (find _ (users_collection w)) as [user|] eqn:Hfound;
    [|eexists; eexists; split; [reflexivity|]; cbn; auto].
  match goal with
  | |- context [App.identify_species_with_h5 env ?p ?w1] =>
      destruct (identify_species_with_h5_full env p w1)
        as (result & w2 & events & -> & Hadd & Hres)
  end.
  destruct Hadd as (Hstore & Hnext & Hclock & _).
  unfold store in Hstore. cbn in Hstore, Hnext, Hclock.
  injection Hstore as Husers Huploads Hstats.
  destruct result as [d|].
  2: { cbn. eexists; eexists; split; [reflexivity|]. left. auto. }
  destruct Hres as [Hwf Hty]. unfold typed_result in Hty.
  destruct (dict_get "name" d) as [[| | |species| |]|] eqn:Hname; try discriminate.
  destruct (dict_get "confidence" d) as [[| |confidence| | |]|] eqn:Hconf;
    try discriminate.
  destruct (well_formed_get d "facts" Hwf) as (facts & Hfacts); [simpl; tauto|].
  destruct (well_formed_get d "endangered_status" Hwf) as (status & Hstatus);
    [simpl; tauto|].
  destruct (well_formed_get d "fun_fact" Hwf) as (fun_fact & Hfun); [simpl; tauto|].
  destruct (well_formed_get d "habitat" Hwf) as (habitat & Hhabitat); [simpl; tauto|].
  destruct (well_formed_get d "diet" Hwf) as (diet & Hdiet); [simpl; tauto|].
  destruct (well_formed_get d "size" Hwf) as (size & Hsize); [simpl; tauto|].
  unfold getitem, subscript, get_default, Upload_init, Upload_save, new_object_id,
    utcnow, set_uploads, Upload_id.
  unfold_m.
  rewrite Hname, Hconf, Hfacts, Hstatus, Hfun, Hhabitat, Hdiet, Hsize.
  cbn [users_collection uploads_collection global_stats_collection
       next_object_id clock trace str_exn].
  eexists; eexists; split; [reflexivity|]. right.
  exists user_id, (String c name), species, confidence.
  cbn [uploads_collection]. rewrite Huploads, Hnext, Hclock. auto.
Qed.

Lemma predict_never_succeeds_witness :
  exists w',
    predict Scenario.confident_model Scenario.reef_upload Scenario.sightings
    = (Ok (error_json 500 "Server error: 'Upload' object has no attribute 'id'"), w')
    /\ length (uploads_collection w') = 4%nat.
Proof.
  destruct (predict_never_succeeds Scenario.confident_model Scenario.reef_upload
              Scenario.sightings) as (resp & w' & Hrun & Hresp).
  pose proof (f_equal fst Hrun) as Hfst. vm_compute in Hfst.
  injection Hfst as <-.
  destruct Hresp as [[Hbody _]|(user_id & name & species & confidence & _ & _ & _
                                & Huploads)]; [discriminate|].
  exists w'. split; [exact Hrun|].
  rewrite Huploads, length_app. reflexivity.
Defined.
